(** * Mealwise plan engine: a shallow embedding of the generation pipeline

    Sources embedded here:
    - [src/unnamed/part_001]: [generateMealPlanWithRetry], [generateFallbackPlan];
    - [src/supabase/functions/nutrition-validator/index.ts]:
      [NutritionValidator.validatePlan], [calculateMealNutrition],
      [isReliableNutrition], [convertToGrams], [estimateNutrition];
    - [src/agents/nutrition-council.ts]: [validateNutrition],
      [isReliableNutrition], [convertToStandardAmount],
      [parseCoherenceResponse], the acceptance test of [validateAndRefine];
    - [src/agents/wow-layer.ts] ([CandidateSelector]):
      [parseAIScoringResponse], [calculateFinalScore],
      [getRecentFavoriteBonus], [getSwapPenalty], [selectDiverseSet],
      [rankAndSelectFinalCandidates].

    Further code of the same files and of their callers:
    - [src/unnamed/part_001]: the request handler ([serve]), its
      request validation and [createErrorResponse], [calculateNutritionalTargets],
      [getNextMonday];
    - [src/supabase/functions/nutrition-validator/index.ts]: [calculateFromUSDA],
      [isMinorIngredient];
    - [src/agents/nutrition-council.ts]: the refinement loop of
      [validateAndRefine], [calculateRecipeNutritionFromUSDA],
      [generateNutritionSuggestions], [calculateCost];
    - [src/agents/wow-layer.ts]: [selectCandidates], [performAIScoring],
      [calculateCost], [normalizeIngredientName], [categorizeIngredient],
      [generateSmartGroceryList], [identifyPrepTasks], [generatePrepSchedule].

    JavaScript numbers are modelled as rationals [Q] (exact arithmetic);
    where the code can produce [NaN] it is represented explicitly.
    Calls to Supabase and to the Claude API are inputs of the model. *)

From Stdlib Require Import ZArith QArith Qround Qabs Qminmax List String Ascii Bool Lia Lqa
  Permutation Sorting.Sorted.
Import ListNotations.
Open Scope nat_scope.
Open Scope string_scope.

(** ** JavaScript completions *)

(** The error values thrown by the embedded code. *)
Inductive JSError : Type :=
| Error (message : string)
| ReferenceError (name : string).

(** A statement either completes normally with a value or throws. *)
Inductive Completion (A : Type) : Type :=
| Normal (a : A)
| Throw (e : JSError).
Arguments Normal {A} a.
Arguments Throw {A} e.

Definition bindC {A B} (c : Completion A) (k : A -> Completion B) : Completion B :=
  match c with
  | Normal a => k a
  | Throw e => Throw e
  end.

Notation "x <- c ;; k" := (bindC c (fun x => k))
  (at level 61, c at next level, right associativity).

(** ** Fallback plan ([generateFallbackPlan], part_001 lines 586-645) *)
Module Fallback.

(** A row of the [recipes] table as far as the fallback plan reads it. *)
Record Recipe := mkRecipe { id : string }.

(** The answer of the Supabase query: [{ data, error }]. *)
Inductive FetchResult :=
| FetchError
| FetchData (rows : list Recipe).

Record MealSlot := mkMealSlot {
  meal_type : string;
  recipe_id : string;
  completed : bool }.

(** [date] is the day offset added to [context.week_start_date]. *)
Record DayPlan := mkDayPlan {
  day : string;
  date : Z;
  meals : list MealSlot }.

Record PlanData := mkPlanData {
  days : list DayPlan;
  total_recipes : nat;
  unique_recipes : nat;
  variety_score : nat }.

Record MealPlan := mkMealPlan {
  week_theme : string;
  generated_by : string;
  plan_data : PlanData }.

Definition dayNames : list string := ["monday"; "tuesday"; "wednesday"].
Definition mealTypes : list string := ["breakfast"; "lunch"; "dinner"].

(** [meals: mealTypes.map((mealType, mealIndex) => ...)] *)
Definition mealsOf (rows : list Recipe) (dayIndex : nat) : list MealSlot :=
  map (fun '(mealType, mealIndex) =>
         let recipeIndex := (dayIndex * 3 + mealIndex) mod List.length rows in
         mkMealSlot mealType (id (nth recipeIndex rows (mkRecipe ""))) false)
      (combine mealTypes (seq 0 (List.length mealTypes))).

Definition generateFallbackPlan (weekStart : Z) (fetched : FetchResult)
  : Completion MealPlan :=
  match fetched with
  | FetchError => Throw (Error "Failed to fetch fallback recipes")
  | FetchData [] => Throw (Error "Failed to fetch fallback recipes")
  | FetchData rows =>
      let planDays :=
        map (fun '(d, dayIndex) =>
               mkDayPlan d (weekStart + Z.of_nat dayIndex) (mealsOf rows dayIndex))
            (combine dayNames (seq 0 (List.length dayNames))) in
      Normal (mkMealPlan "Getting Started" "fallback_system"
                (mkPlanData planDays 9 (Nat.min 9 (List.length rows)) 60))
  end.

End Fallback.

(** ** Generation controller ([generateMealPlanWithRetry], part_001 lines 385-513) *)
Module Controller.

Record Usage := mkUsage { requests : Z; tokens : Z; cost : Z }.

(** What the collaborators do in one round of the [while] loop.
    [selectCandidates], [validateAndRefine] and [enhancePlan] catch their
    own errors and return result objects; [saveMealPlan] throws when the
    insert fails. *)
Inductive Round :=
| SelectionFailed (err : string)
| ValidationFailed (u_select u_validate : Usage) (err : string)
| ValidationPassed (u_select u_validate u_enhance : Usage) (save_ok : bool).

(** The value held in [lastError]: [null], the string
    [validationResult.error], or a caught error object. *)
Inductive LastError := LENull | LEString (s : string) | LEError (e : JSError).

Definition messageOf (e : JSError) : string :=
  match e with
  | Error m => m
  | ReferenceError x => x ++ " is not defined"
  end.

(** [`${lastError?.message}`]: a string has no [message] property. *)
Definition lastErrorMessage (l : LastError) : string :=
  match l with
  | LEError e => messageOf e
  | _ => "undefined"
  end.

(** The numeric bindings in scope of the function body. *)
Definition Scope := list (string * Z).

(** Reading an identifier: a [ReferenceError] when nothing binds it. *)
Fixpoint lookup (sc : Scope) (x : string) : Completion Z :=
  match sc with
  | [] => Throw (ReferenceError x)
  | (y, v) :: sc' => if String.eqb x y then Normal v else lookup sc' x
  end.

Record PlanGenerationResult := mkResult {
  success : bool;
  retry_count : Z;
  claude_requests : Z;
  claude_tokens_used : Z;
  claude_cost_cents : Z;
  used_fallback : bool;
  fallback_reason : option string;
  error_code : option string }.

Record LoopState := mkLoop {
  retryCount : Z;
  lastError : LastError;
  totalClaudeRequests : Z;
  totalTokensUsed : Z;
  totalCostCents : Z }.

Definition maxRetries : Z := 3.

Definition scopeOf (st : LoopState) : Scope :=
  [("maxRetries", maxRetries); ("retryCount", retryCount st);
   ("totalClaudeRequests", totalClaudeRequests st);
   ("totalTokensUsed", totalTokensUsed st);
   ("totalCostCents", totalCostCents st)].

Definition addUsage (st : LoopState) (u : Usage) : LoopState :=
  mkLoop (retryCount st) (lastError st)
    (totalClaudeRequests st + requests u) (totalTokensUsed st + tokens u)
    (totalCostCents st + cost u).

Definition setLastError (st : LoopState) (l : LastError) : LoopState :=
  mkLoop (retryCount st) l (totalClaudeRequests st) (totalTokensUsed st)
    (totalCostCents st).

(** The object literals of the three [return] statements: each evaluates
    the shorthand property [retry_count] in the current scope. *)
Definition successObject (st : LoopState) (fallback : bool) (reason : option string)
  : Completion PlanGenerationResult :=
  rc <- lookup (scopeOf st) "retry_count" ;;
  Normal (mkResult true rc (totalClaudeRequests st) (totalTokensUsed st)
            (totalCostCents st) fallback reason None).

Definition failureObject (st : LoopState) : Completion PlanGenerationResult :=
  rc <- lookup (scopeOf st) "retry_count" ;;
  Normal (mkResult false rc (totalClaudeRequests st) (totalTokensUsed st)
            (totalCostCents st) false None (Some "COMPLETE_FAILURE")).

(** The body of the [try] block of one iteration: it returns from the
    function ([Normal (inl r)]), falls through ([Normal (inr st)]) or
    throws. *)
Definition roundBody (st : LoopState) (r : Round)
  : Completion (PlanGenerationResult + LoopState) :=
  match r with
  | SelectionFailed err =>
      Throw (Error ("Candidate selection failed: " ++ err))
  | ValidationFailed u1 u2 err =>
      Normal (inr (setLastError (addUsage (addUsage st u1) u2) (LEString err)))
  | ValidationPassed u1 u2 u3 save_ok =>
      let st' := addUsage (addUsage (addUsage st u1) u2) u3 in
      if save_ok
      then res <- successObject st' false None ;; Normal (inl res)
      else Throw (Error "Failed to save meal plan")
  end.

(** [try { body } catch (error) { lastError = error; }  retryCount++;]
    The usage added before a throw is kept: the counters are updated in
    place before the throwing statement. *)
Definition iteration (st : LoopState) (r : Round)
  : PlanGenerationResult + LoopState :=
  let st_thrown :=
    match r with
    | SelectionFailed _ => st
    | ValidationFailed u1 u2 _ => addUsage (addUsage st u1) u2
    | ValidationPassed u1 u2 u3 _ => addUsage (addUsage (addUsage st u1) u2) u3
    end in
  let bump s := mkLoop (retryCount s + 1) (lastError s) (totalClaudeRequests s)
                  (totalTokensUsed s) (totalCostCents s) in
  match roundBody st r with
  | Normal (inl res) => inl res
  | Normal (inr st') => inr (bump st')
  | Throw e => inr (bump (setLastError st_thrown (LEError e)))
  end.

(** [while (retryCount < maxRetries)]: [fuel] bounds the iterations;
    [rounds k] is what the collaborators do in round [k]. *)
Fixpoint loop (fuel : nat) (rounds : Z -> Round) (st : LoopState)
  : PlanGenerationResult + LoopState :=
  match fuel with
  | O => inr st
  | S fuel' =>
      if Z.ltb (retryCount st) maxRetries then
        match iteration st (rounds (retryCount st)) with
        | inl res => inl res
        | inr st' => loop fuel' rounds st'
        end
      else inr st
  end.

Definition initialState : LoopState := mkLoop 0 LENull 0 0 0.

(** The circuit breaker after the loop. *)
Definition afterLoop (st : LoopState) (fallback : Completion Fallback.MealPlan)
  : Completion PlanGenerationResult :=
  let tried :=
    _ <- fallback ;;
    successObject st true
      (Some ("Generation failed after 3 attempts: " ++ lastErrorMessage (lastError st))) in
  match tried with
  | Normal res => Normal res
  | Throw _ => failureObject st
  end.

(** Every iteration that does not return increments [retryCount], which
    starts at 0, so the [while] test fails after three iterations: fuel 3
    is exactly the number of iterations the source can run. *)
Definition generateMealPlanWithRetry (rounds : Z -> Round) (weekStart : Z)
    (fetched : Fallback.FetchResult) : Completion PlanGenerationResult :=
  match loop 3 rounds initialState with
  | inl res => Normal res
  | inr st => afterLoop st (Fallback.generateFallbackPlan weekStart fetched)
  end.

End Controller.

(** ** JavaScript values used by the nutrition code *)
Module JS.
Local Open Scope Q_scope.

(** A JavaScript number: a finite value or [NaN]. *)
Inductive Num := Fin (q : Q) | NaN.

(** [Math.round]: the nearest integer, halves rounded up. *)
Definition round (x : Q) : Q := inject_Z (Qfloor (x + (1 # 2))).

(** [Math.round(x * 10) / 10] *)
Definition round1 (x : Q) : Q := round (x * 10) / 10.

(** [v || d] for a number-valued property that may be [undefined]:
    [undefined] and [0] are falsy. *)
Definition orQ (v : option Q) (d : Q) : Q :=
  match v with
  | None => d
  | Some x => if Qeq_bool x 0 then d else x
  end.

(** [v > 0] and [v >= 0] on a possibly [undefined] property
    ([undefined] converts to [NaN], every comparison is false). *)
Definition gt0 (v : option Q) : bool :=
  match v with Some x => negb (Qle_bool x 0) | None => false end.
Definition ge0 (v : option Q) : bool :=
  match v with Some x => Qle_bool 0 x | None => false end.

(** [String.prototype.toLowerCase] on 8-bit characters: ASCII and
    Latin-1 capitals are mapped to their small letters. *)
Definition lowerChar (c : ascii) : ascii :=
  let n := nat_of_ascii c in
  if ((65 <=? n) && (n <=? 90))%nat
     || ((192 <=? n) && (n <=? 222) && negb (n =? 215))%nat
  then ascii_of_nat (n + 32)
  else c.

Fixpoint toLowerCase (s : string) : string :=
  match s with
  | EmptyString => EmptyString
  | String c s' => String (lowerChar c) (toLowerCase s')
  end.

(** The properties every object literal inherits from
    [Object.prototype]. *)
Definition objectPrototypeNames : list string :=
  ["constructor"; "__defineGetter__"; "__defineSetter__"; "hasOwnProperty";
   "__lookupGetter__"; "__lookupSetter__"; "isPrototypeOf";
   "propertyIsEnumerable"; "toString"; "valueOf"; "__proto__";
   "toLocaleString"].

(** The value of [obj[k]] for an object literal with number-valued own
    properties [own]. *)
Inductive Prop_ := PNumber (q : Q) | PInherited | PUndefined.

Fixpoint assoc (own : list (string * Q)) (k : string) : option Q :=
  match own with
  | [] => None
  | (k', v) :: own' => if String.eqb k k' then Some v else assoc own' k
  end.

Definition getProp (own : list (string * Q)) (k : string) : Prop_ :=
  match assoc own k with
  | Some q => PNumber q
  | None =>
      if existsb (String.eqb k) objectPrototypeNames then PInherited else PUndefined
  end.

(** [amount * (obj[k] || 100)]: an inherited member is a function or an
    object, truthy, and multiplies to [NaN]. *)
Definition timesFactor (amount : Q) (p : Prop_) : Num :=
  match p with
  | PNumber q => Fin (amount * (if Qeq_bool q 0 then 100 else q))
  | PUndefined => Fin (amount * 100)
  | PInherited => NaN
  end.

End JS.

(** ** Nutrition validator ([nutrition-validator/index.ts]) *)
Module Validator.
Local Open Scope Q_scope.

Record NutritionData := mkND {
  calories : Q; protein : Q; fat : Q; carbohydrates : Q; fiber : Q }.

(** [recipe.nutrition_info]: every field may be absent. *)
Record NutritionInfo := mkInfo {
  i_calories : option Q; i_protein : option Q; i_fat : option Q;
  i_carbohydrates : option Q; i_fiber : option Q }.

Record Ingredient := mkIngredient { name : string; amount : Q; unit : string }.

(** The row selected by [select('title, nutrition_info, ingredients, servings')]. *)
Record RecipeRow := mkRow {
  title : string;
  nutrition_info : option NutritionInfo;
  ingredients : option (list Ingredient);
  servings : option Q }.

Inductive Method := Spoonacular | UsdaCalculated | Estimated.

Record MealNutrition := mkMN {
  recipe_id : string; recipe_title : string;
  nutrition : NutritionData; calculation_method : Method }.

(** [isReliableNutrition] (lines 457-463) *)
Definition isReliableNutrition (n : NutritionInfo) : bool :=
  JS.gt0 (i_calories n) && JS.ge0 (i_protein n) && JS.ge0 (i_fat n)
  && JS.ge0 (i_carbohydrates n).

(** [convertToGrams] (lines 473-488) *)
Definition conversions : list (string * Q) :=
  [("g", 1); ("gram", 1); ("grams", 1);
   ("kg", 1000); ("kilogram", 1000);
   ("oz", 28.35); ("ounce", 28.35); ("ounces", 28.35);
   ("lb", 453.59); ("pound", 453.59); ("pounds", 453.59);
   ("cup", 240); ("cups", 240);
   ("tbsp", 15); ("tablespoon", 15); ("tablespoons", 15);
   ("tsp", 5); ("teaspoon", 5); ("teaspoons", 5);
   ("ml", 1); ("milliliter", 1); ("milliliters", 1);
   ("l", 1000); ("liter", 1000); ("liters", 1000)].

Definition convertToGrams (amount : Q) (u : string) : JS.Num :=
  JS.timesFactor amount (JS.getProp conversions (JS.toLowerCase u)).

(** [estimateNutrition] (lines 490-513) *)
Definition estimateNutrition (recipeTitle : string) : NutritionData :=
  let t := JS.toLowerCase recipeTitle in
  let has k := match String.index 0 k t with Some _ => true | None => false end in
  if has "salad" then mkND 150 8 5 15 3
  else if has "pasta" || has "rice" then mkND 400 12 8 60 3
  else if has "chicken" || has "beef" then mkND 350 25 15 10 3
  else if has "soup" then mkND 200 10 6 20 3
  else mkND 300 15 10 30 3.

(** [calculateMealNutrition] (lines 318-384). [row] is the answer of the
    [recipes] query ([None]: error or no row); [fromUSDA] is the result of
    [this.calculateFromUSDA(recipe.ingredients)]. *)
Definition calculateMealNutrition
    (fromUSDA : list Ingredient -> option NutritionData)
    (recipeId : string) (row : option RecipeRow) (servingsReq : Q)
    (useUSDAFallback : bool) : option MealNutrition :=
  match row with
  | None => None
  | Some recipe =>
      let tier :=
        match nutrition_info recipe with
        | Some ni =>
            if isReliableNutrition ni then
              Some (mkND (JS.orQ (i_calories ni) 0) (JS.orQ (i_protein ni) 0)
                      (JS.orQ (i_fat ni) 0) (JS.orQ (i_carbohydrates ni) 0)
                      (JS.orQ (i_fiber ni) 0), Spoonacular)
            else None
        | None => None
        end in
      let tier :=
        match tier with
        | Some t => Some t
        | None =>
            match useUSDAFallback, ingredients recipe with
            | true, Some ings =>
                match fromUSDA ings with
                | Some n => Some (n, UsdaCalculated)
                | None => Some (estimateNutrition (title recipe), Estimated)
                end
            | _, _ => None
            end
        end in
      match tier with
      | None => None
      | Some (n, m) =>
          let servingMultiplier := servingsReq / JS.orQ (servings recipe) 1 in
          Some (mkMN recipeId (title recipe)
                  (mkND (JS.round (calories n * servingMultiplier))
                        (JS.round1 (protein n * servingMultiplier))
                        (JS.round1 (fat n * servingMultiplier))
                        (JS.round1 (carbohydrates n * servingMultiplier))
                        (JS.round1 (fiber n * servingMultiplier)))
                  m)
      end
  end.

(** [validatePlan] (lines 198-316). The detailed breakdown and the
    suggestion texts are not modelled; [missing_nutrition_data] is. *)
Record Meal := mkMeal { meal_recipe_id : string; meal_servings : option Q }.

Record Targets := mkTargets {
  daily_calories : Q; daily_protein : Q; daily_fat : Q;
  daily_carbohydrates : Q; daily_fiber : option Q }.

Record Options := mkOptions {
  deviation_threshold : Q; require_all_recipes : bool;
  use_usda_fallback : bool }.

Record Deviations := mkDev {
  calories_deviation : Q; protein_deviation : Q; fat_deviation : Q;
  carbohydrates_deviation : Q; fiber_deviation : option Q }.

Record ValidationResult := mkVR {
  is_valid : bool;
  total_nutrition : NutritionData;
  daily_average : NutritionData;
  target_deviations : Deviations;
  within_threshold : bool;
  missing_nutrition_data : list string }.

Definition zeroND : NutritionData := mkND 0 0 0 0 0.

Definition addND (a b : NutritionData) : NutritionData :=
  mkND (calories a + calories b) (protein a + protein b) (fat a + fat b)
    (carbohydrates a + carbohydrates b) (fiber a + fiber b).

(** [calculateDeviation] (lines 452-455) *)
Definition calculateDeviation (actual target : Q) : Q :=
  if Qeq_bool target 0 then 0 else (actual - target) / target * 100.

(** The two nested [for] loops: running totals and the missing list. *)
Definition processMeal
    (resolve : string -> Q -> bool -> option MealNutrition) (opts : Options)
    (acc : NutritionData * list string) (meal : Meal) : NutritionData * list string :=
  let '(tot, missing) := acc in
  match resolve (meal_recipe_id meal) (JS.orQ (meal_servings meal) 1)
          (use_usda_fallback opts) with
  | Some mn => (addND tot (nutrition mn), missing)
  | None => (tot, app missing ["Recipe " ++ meal_recipe_id meal])
  end.

Definition validatePlan
    (resolve : string -> Q -> bool -> option MealNutrition)
    (planDays : list (list Meal)) (targets : Targets) (opts : Options)
    : ValidationResult :=
  let '(tot, missing) :=
    fold_left (fun acc day => fold_left (processMeal resolve opts) day acc)
      planDays (zeroND, []) in
  let dayCount := inject_Z (Z.of_nat (List.length planDays)) in
  let avg := mkND (JS.round (calories tot / dayCount))
               (JS.round1 (protein tot / dayCount))
               (JS.round1 (fat tot / dayCount))
               (JS.round1 (carbohydrates tot / dayCount))
               (JS.round1 (fiber tot / dayCount)) in
  let dev := mkDev (calculateDeviation (calories avg) (daily_calories targets))
               (calculateDeviation (protein avg) (daily_protein targets))
               (calculateDeviation (fat avg) (daily_fat targets))
               (calculateDeviation (carbohydrates avg) (daily_carbohydrates targets))
               (match daily_fiber targets with
                | Some f => if Qeq_bool f 0 then None
                            else Some (calculateDeviation (fiber avg) f)
                | None => None
                end) in
  let coreDeviations :=
    [Qabs (calories_deviation dev); Qabs (protein_deviation dev);
     Qabs (fat_deviation dev); Qabs (carbohydrates_deviation dev)] in
  let withinThreshold :=
    forallb (fun d => Qle_bool d (deviation_threshold opts)) coreDeviations in
  let isValid :=
    withinThreshold &&
    (if require_all_recipes opts then Nat.eqb (List.length missing) 0 else true) in
  mkVR isValid tot avg dev withinThreshold missing.

End Validator.

(** ** AI nutrition council, nutrition part ([agents/nutrition-council.ts]) *)
Module Council.
Local Open Scope Q_scope.
Import Validator.

(** [isReliableNutrition] (lines 672-674) *)
Definition isReliableNutrition (n : NutritionInfo) : bool :=
  JS.gt0 (i_calories n) && JS.ge0 (i_protein n).

(** [convertToStandardAmount] (lines 681-698) *)
Definition conversions : list (string * Q) :=
  [("g", 1); ("gram", 1); ("grams", 1); ("kg", 1000); ("oz", 28.35);
   ("pound", 453.59); ("lb", 453.59); ("cup", 240); ("tbsp", 15); ("tsp", 5)].

Definition convertToStandardAmount (amount : Q) (u : string) : JS.Num :=
  JS.timesFactor amount (JS.getProp conversions (JS.toLowerCase u)).

Record Totals := mkTotals {
  t_calories : Q; t_protein : Q; t_fat : Q; t_carbohydrates : Q }.

(** [calculatePlanNutrition] (lines 316-370): [fetch] answers the
    [recipes] query per id; [fromUSDA] is
    [this.calculateRecipeNutritionFromUSDA(recipe)], its fields as the
    object it returns. *)
Definition mealContribution
    (fetch : string -> option RecipeRow)
    (fromUSDA : RecipeRow -> option NutritionInfo) (meal : Meal)
    : option (NutritionInfo * Q) :=
  match fetch (meal_recipe_id meal) with
  | None => None
  | Some recipe =>
      let mealNutrition :=
        match nutrition_info recipe with
        | Some ni => if isReliableNutrition ni then Some ni else fromUSDA recipe
        | None => fromUSDA recipe
        end in
      match mealNutrition with
      | None => None
      | Some mn =>
          Some (mn, JS.orQ (meal_servings meal) 1 / JS.orQ (servings recipe) 1)
      end
  end.

Definition addContribution (acc : Totals) (c : option (NutritionInfo * Q)) : Totals :=
  match c with
  | None => acc
  | Some (mn, m) =>
      mkTotals (t_calories acc + JS.orQ (i_calories mn) 0 * m)
        (t_protein acc + JS.orQ (i_protein mn) 0 * m)
        (t_fat acc + JS.orQ (i_fat mn) 0 * m)
        (t_carbohydrates acc + JS.orQ (i_carbohydrates mn) 0 * m)
  end.

Definition calculatePlanNutrition
    (fetch : string -> option RecipeRow)
    (fromUSDA : RecipeRow -> option NutritionInfo)
    (planDays : list (list Meal)) : Totals :=
  let tot :=
    fold_left (fun acc day =>
                 fold_left (fun a meal => addContribution a
                               (mealContribution fetch fromUSDA meal)) day acc)
      planDays (mkTotals 0 0 0 0) in
  mkTotals (JS.round (t_calories tot)) (JS.round (t_protein tot))
    (JS.round (t_fat tot)) (JS.round (t_carbohydrates tot)).

(** [calculateDailyAverage] (lines 663-670) *)
Definition calculateDailyAverage (t : Totals) (days : nat) : Totals :=
  let d := inject_Z (Z.of_nat days) in
  mkTotals (JS.round (t_calories t / d)) (JS.round1 (t_protein t / d))
    (JS.round1 (t_fat t / d)) (JS.round1 (t_carbohydrates t / d)).

Record CouncilTargets := mkCT {
  c_daily_calories : Q; c_daily_protein : Q; c_daily_fat : Q;
  c_daily_carbohydrates : Q }.

Record CouncilValidation := mkCV {
  c_is_valid : bool;
  c_deviations : list Q;
  c_within_15_percent_threshold : bool;
  c_missing_nutrition_data : list string }.

(** [validateNutrition] (lines 237-311): [total] is the result of
    [calculatePlanNutrition] ([None] when it returned [null]),
    [targets] is [blueprint.nutritional_targets]. The deviations are
    listed in the order of [Object.values(deviations)]. *)
Definition validateNutrition (total : option Totals)
    (targets : option CouncilTargets) (dayCount : nat) : CouncilValidation :=
  match total with
  | None => mkCV false [100; 100; 100; 100] false
              ["Complete nutrition calculation failed"]
  | Some t =>
      match targets with
      | None => mkCV false [0; 0; 0; 0] false
                  ["User nutritional targets not calculated"]
      | Some tg =>
          let avg := calculateDailyAverage t dayCount in
          let devs :=
            [calculateDeviation (t_calories avg) (c_daily_calories tg);
             calculateDeviation (t_protein avg) (c_daily_protein tg);
             calculateDeviation (t_fat avg) (c_daily_fat tg);
             calculateDeviation (t_carbohydrates avg) (c_daily_carbohydrates tg)] in
          let within15 := forallb (fun dev => Qle_bool (Qabs dev) 15) devs in
          mkCV within15 devs within15 []
      end
  end.

End Council.

(** ** Candidate selector ([agents/wow-layer.ts], class [CandidateSelector]) *)
Module Selector.
Local Open Scope Q_scope.

Inductive MealType := Breakfast | Lunch | Dinner | Snack | Dessert.

(** The string a [MealType] value is at run time. *)
Definition mealTypeName (m : MealType) : string :=
  match m with
  | Breakfast => "breakfast" | Lunch => "lunch" | Dinner => "dinner"
  | Snack => "snack" | Dessert => "dessert"
  end.

(** The [Recipe] fields the selector reads. *)
Record Recipe := mkRecipe {
  id : string;
  rating_average : Q;
  is_premium : bool;
  cuisine_type : option string;
  meal_type : list MealType }.

Record RecipeCandidate := mkCandidate {
  recipe : Recipe;
  base_score : Q;
  ai_personalization_score : Q;
  final_score : Q;
  match_reasons : list string;
  penalty_reasons : list string }.

Record RecentRating := mkRating { r_recipe_id : string; rating : string }.
Record RecentSwap := mkSwap { original_recipe_id : string }.

(** The [UserBlueprint] and [GenerationPreferences] fields read by the
    scoring code. *)
Record Blueprint := mkBlueprint {
  cultural_preferences_count : nat;
  cooking_time_preference : option Q;
  access_to_premium_content : bool;
  recent_ratings : option (list RecentRating);
  recent_swaps : option (list RecentSwap) }.

Record Preferences := mkPreferences {
  focus_macros_count : nat;
  enforce_variety : option bool }.

Record ScoringCriteria := mkCriteria {
  cuisine_match_weight : Q; nutrition_match_weight : Q;
  prep_time_weight : Q; user_rating_weight : Q; variety_weight : Q;
  premium_bonus : Q; recent_favorite_bonus : Q; seasonal_bonus : Q }.

(** [buildScoringCriteria] (lines 869-885) *)
Definition buildScoringCriteria (bp : Blueprint) (prefs : Preferences) : ScoringCriteria :=
  mkCriteria
    (if Nat.eqb (cultural_preferences_count bp) 0 then 0.1 else 0.3)
    (if Nat.eqb (focus_macros_count prefs) 0 then 0.2 else 0.4)
    (if JS.gt0 (cooking_time_preference bp) then 0.2 else 0.1)
    0.2
    (match enforce_variety prefs with Some false => 0.05 | _ => 0.15 end)
    (if access_to_premium_content bp then 1.1 else 1.0)
    1.2 1.05.

(** [getRecentFavoriteBonus] (lines 1119-1131) *)
Definition getRecentFavoriteBonus (r : Recipe) (bp : Blueprint) : Q :=
  let recentLoves :=
    filter (fun x => String.eqb (rating x) "love")
      (match recent_ratings bp with Some l => l | None => [] end) in
  if existsb (fun x => String.eqb (r_recipe_id x) (id r)) recentLoves then 1.3 else 1.0.

(** [getSwapPenalty] (lines 1133-1144) *)
Definition getSwapPenalty (r : Recipe) (bp : Blueprint) : Q :=
  let recentSwaps := match recent_swaps bp with Some l => l | None => [] end in
  if existsb (fun x => String.eqb (original_recipe_id x) (id r)) recentSwaps then 0.7 else 1.0.

(** [calculateFinalScore] (lines 1003-1030) *)
Definition calculateFinalScore (c : RecipeCandidate) (criteria : ScoringCriteria)
    (bp : Blueprint) : Q :=
  let score := 0 in
  let score := score + base_score c * 0.3 in
  let score := score + ai_personalization_score c * 0.4 in
  let score := score * getRecentFavoriteBonus (recipe c) bp in
  let score :=
    if is_premium (recipe c) && access_to_premium_content bp
    then score * premium_bonus criteria else score in
  let score := score * getSwapPenalty (recipe c) bp in
  Qmin (Qmax score 0) 100.

(** The entry of [recipe_scores] for one recipe id. *)
Record ScoreData := mkScoreData {
  score : option Q;
  sd_match_reasons : option (list string);
  sd_penalty_reasons : option (list string) }.

(** The outcome of [aiResponse.match(/\{[\s\S]*\}/)] followed by
    [JSON.parse] and [.recipe_scores]: [None] when no JSON is found or it
    does not parse, [Some None] when [recipe_scores] is absent. Recipe
    ids are UUIDs, never names inherited from [Object.prototype]. *)
Definition ParsedScores := option (option (list (string * ScoreData))).

Fixpoint lookupScore (m : list (string * ScoreData)) (k : string) : option ScoreData :=
  match m with
  | [] => None
  | (k', v) :: m' => if String.eqb k k' then Some v else lookupScore m' k
  end.

(** [parseAIScoringResponse] (lines 947-998) *)
Definition parseAIScoringResponse (parsed : ParsedScores) (recipes : list Recipe)
  : Completion (list RecipeCandidate) :=
  match parsed with
  | None => Throw (Error "Failed to parse AI response")
  | Some None => Throw (Error "Failed to parse AI response: No recipe_scores found in AI response")
  | Some (Some recipeScores) =>
      Normal (map (fun r =>
        match lookupScore recipeScores (id r) with
        | None => mkCandidate r 50 50 50 [] ["No AI score available"]
        | Some sd =>
            mkCandidate r (rating_average r * 20) (JS.orQ (score sd) 50) 0
              (match sd_match_reasons sd with Some l => l | None => [] end)
              (match sd_penalty_reasons sd with Some l => l | None => [] end)
        end) recipes)
  end.

(** The value of [counts[k]] in a counter object: a number, or a
    non-numeric value when [k] names a member inherited from
    [Object.prototype] (a function or object, and after [+ 1] a string).
    Comparisons with a non-numeric value are false, and [+ 1] keeps it
    non-numeric. *)
Inductive CountVal := CNum (n : nat) | COther.

Definition Counter := list (string * CountVal).

Fixpoint ownCount (m : Counter) (k : string) : option CountVal :=
  match m with
  | [] => None
  | (k', v) :: m' => if String.eqb k k' then Some v else ownCount m' k
  end.

(** [counts[k] || 0] *)
Definition getCount (m : Counter) (k : string) : CountVal :=
  match ownCount m k with
  | Some v => v
  | None => if existsb (String.eqb k) JS.objectPrototypeNames then COther else CNum 0
  end.

(** [count >= limit] *)
Definition reached (v : CountVal) (limit : nat) : bool :=
  match v with CNum n => Nat.leb limit n | COther => false end.

(** [counts[k] = (counts[k] || 0) + 1] *)
Definition bump (m : Counter) (k : string) : Counter :=
  (k, match getCount m k with CNum n => CNum (S n) | COther => COther end) :: m.

(** [if (recipe.cuisine_type)]: absent and empty strings are falsy. *)
Definition cuisineKey (r : Recipe) : option string :=
  match cuisine_type r with
  | Some c => if String.eqb c "" then None else Some c
  | None => None
  end.

Definition targetCount : nat := 30.

(** [Math.ceil(a / b)] *)
Definition ceilDiv (a b : nat) : nat := (a + b - 1) / b.

Definition cuisineLimit : nat := ceilDiv targetCount 5.
Definition mealTypeLimit : nat := ceilDiv targetCount 3.

(** The [for ... of] loop of [selectDiverseSet] (lines 1035-1099);
    [selected] is the array built so far. The [difficultyCount] counter
    is only logged and is not modelled. *)
Fixpoint selectLoop (cands : list RecipeCandidate) (selected : list RecipeCandidate)
    (cuisineCount mealTypeCount : Counter) : list RecipeCandidate :=
  match cands with
  | [] => selected
  | c :: rest =>
      if Nat.leb targetCount (List.length selected) then selected
      else
        let r := recipe c in
        let skipCuisine :=
          match cuisineKey r with
          | Some k => reached (getCount cuisineCount k) cuisineLimit
          | None => false
          end in
        let skipMealType :=
          existsb (fun mt => reached (getCount mealTypeCount (mealTypeName mt)) mealTypeLimit)
            (meal_type r) in
        if (skipCuisine || skipMealType) && Nat.ltb 15 (List.length selected)
        then selectLoop rest selected cuisineCount mealTypeCount
        else
          let cuisineCount' :=
            match cuisineKey r with
            | Some k => bump cuisineCount k
            | None => cuisineCount
            end in
          let mealTypeCount' :=
            fold_left (fun m mt => bump m (mealTypeName mt)) (meal_type r) mealTypeCount in
          selectLoop rest (selected ++ [c]) cuisineCount' mealTypeCount'
  end.

Definition selectDiverseSet (cands : list RecipeCandidate) : list RecipeCandidate :=
  selectLoop cands [] [] [].

(** [Array.prototype.sort] with [(a, b) => b.final_score - a.final_score]:
    a stable sort by decreasing [final_score] (insertion sort). *)
Fixpoint insertDesc (c : RecipeCandidate) (l : list RecipeCandidate) : list RecipeCandidate :=
  match l with
  | [] => [c]
  | x :: l' =>
      if Qle_bool (final_score c) (final_score x) then x :: insertDesc c l' else c :: l
  end.

Definition sortByFinalScore (l : list RecipeCandidate) : list RecipeCandidate :=
  fold_left (fun acc c => insertDesc c acc) l [].

Definition withFinalScore (c : RecipeCandidate) (s : Q) : RecipeCandidate :=
  mkCandidate (recipe c) (base_score c) (ai_personalization_score c) s
    (match_reasons c) (penalty_reasons c).

(** [rankAndSelectFinalCandidates] (lines 814-831) *)
Definition rankAndSelectFinalCandidates (scored : list RecipeCandidate)
    (bp : Blueprint) (prefs : Preferences) : list RecipeCandidate :=
  let criteria := buildScoringCriteria bp prefs in
  let rescored := map (fun c => withFinalScore c (calculateFinalScore c criteria bp)) scored in
  selectDiverseSet (sortByFinalScore rescored).

(** Counts over a list of candidates, used to state the caps: the
    candidates whose cuisine is [k], the candidates listing meal type [m],
    and the number of times [m] is listed (what [mealTypeCount[m]]
    records). *)
Definition cuisineTally (k : string) (l : list RecipeCandidate) : nat :=
  List.length (filter (fun c =>
    match cuisineKey (recipe c) with Some k' => String.eqb k' k | None => false end) l).

Definition sameMealType (m x : MealType) : bool := String.eqb (mealTypeName x) (mealTypeName m).

Definition mealTypeTally (m : MealType) (l : list RecipeCandidate) : nat :=
  List.length (filter (fun c => existsb (sameMealType m) (meal_type (recipe c))) l).

Definition mealTypeOcc (m : MealType) (l : list RecipeCandidate) : nat :=
  fold_right (fun c n => List.length (filter (sameMealType m) (meal_type (recipe c))) + n)%nat 0%nat l.

End Selector.

(** ** Coherence review ([agents/nutrition-council.ts], [parseCoherenceResponse]) *)
Module Coherence.
Local Open Scope Q_scope.
Local Set Warnings "-register-all".

(** A value produced by [JSON.parse]. Strings are byte strings and
    numbers exact rationals. *)
Inductive JValue :=
| JNull
| JBool (b : bool)
| JNumber (q : Q)
| JString (s : string)
| JArray (l : list JValue)
| JObject (fields : list (string * JValue)).

(** *** [JSON.parse] on byte strings *)

Definition isJsonWs (c : ascii) : bool :=
  match nat_of_ascii c with 9 | 10 | 13 | 32 => true | _ => false end%nat.

Fixpoint skipWs (l : list ascii) : list ascii :=
  match l with
  | c :: r => if isJsonWs c then skipWs r else l
  | [] => []
  end.

Definition digitVal (c : ascii) : option nat :=
  let n := nat_of_ascii c in
  if (Nat.leb 48 n && Nat.leb n 57)%bool then Some (n - 48)%nat else None.

Definition hexVal (c : ascii) : option nat :=
  let n := nat_of_ascii c in
  if (Nat.leb 48 n && Nat.leb n 57)%bool then Some (n - 48)%nat
  else if (Nat.leb 97 n && Nat.leb n 102)%bool then Some (n - 87)%nat
  else if (Nat.leb 65 n && Nat.leb n 70)%bool then Some (n - 55)%nat
  else None.

(** The longest run of digits in [base], as (value, number of digits,
    rest). *)
Fixpoint digitsIn (val : ascii -> option nat) (base : Z) (l : list ascii)
    (acc : Z) (cnt : nat) : Z * nat * list ascii :=
  match l with
  | c :: r =>
      match val c with
      | Some d => if (Z.of_nat d <? base)%Z
                  then digitsIn val base r (acc * base + Z.of_nat d)%Z (S cnt)
                  else (acc, cnt, l)
      | None => (acc, cnt, l)
      end
  | [] => (acc, cnt, l)
  end.

(** [m * 10^e] for a decimal mantissa [ip.fp] with [fd] fraction
    digits. *)
Definition decimalValue (ip fp : Z) (fd : nat) (e : Z) : Q :=
  (inject_Z (ip * 10 ^ Z.of_nat fd + fp) / inject_Z (10 ^ Z.of_nat fd)) * Qpower 10 e.

(** JSON number: [-? (0 | [1-9][0-9]* ) (. [0-9]+)? ([eE] [+-]? [0-9]+)?] *)
Definition parseJsonNumber (l : list ascii) : option (Q * list ascii) :=
  let '(neg, l1) := match l with "-"%char :: r => (true, r) | _ => (false, l) end in
  let intPart :=
    match l1 with
    | "0"%char :: r => Some (0%Z, r)
    | c :: _ =>
        match digitVal c with
        | Some _ => let '(v, _, r) := digitsIn digitVal 10 l1 0 0 in Some (v, r)
        | None => None
        end
    | [] => None
    end in
  match intPart with
  | None => None
  | Some (ip, l2) =>
      let fracPart :=
        match l2 with
        | "."%char :: r =>
            let '(v, n, r') := digitsIn digitVal 10 r 0 0 in
            if Nat.eqb n 0 then None else Some (v, n, r')
        | _ => Some (0%Z, 0%nat, l2)
        end in
      match fracPart with
      | None => None
      | Some (fp, fd, l3) =>
          let expPart :=
            match l3 with
            | c :: r =>
                if (Ascii.eqb c "e"%char || Ascii.eqb c "E"%char)%bool then
                  let '(eneg, r1) :=
                    match r with
                    | "-"%char :: r' => (true, r') | "+"%char :: r' => (false, r')
                    | _ => (false, r) end in
                  let '(v, n, r2) := digitsIn digitVal 10 r1 0 0 in
                  if Nat.eqb n 0 then None else Some ((if eneg then - v else v)%Z, r2)
                else Some (0%Z, l3)
            | [] => Some (0%Z, l3)
            end in
          match expPart with
          | None => None
          | Some (e, l4) =>
              let q := decimalValue ip fp fd e in
              Some ((if neg then - q else q), l4)
          end
      end
  end.

(** The body of a JSON string after its opening quote. A [\u] escape
    above 0xFF has no byte and is outside the model. *)
Fixpoint parseJsonString (l : list ascii) : option (list ascii * list ascii) :=
  match l with
  | [] => None
  | c :: r =>
      if Ascii.eqb c (ascii_of_nat 34) then Some ([], r)
      else if Ascii.eqb c (ascii_of_nat 92) then
        match r with
        | e :: r' =>
            let single (x : nat) :=
              match parseJsonString r' with
              | Some (s, rest) => Some (ascii_of_nat x :: s, rest)
              | None => None
              end in
            match nat_of_ascii e with
            | 34 => single 34 | 92 => single 92 | 47 => single 47
            | 98 => single 8 | 102 => single 12 | 110 => single 10
            | 114 => single 13 | 116 => single 9
            | 117 =>
                match r' with
                | h1 :: h2 :: h3 :: h4 :: r'' =>
                    match hexVal h1, hexVal h2, hexVal h3, hexVal h4 with
                    | Some a, Some b, Some c', Some d =>
                        let code := (((a * 16 + b) * 16 + c') * 16 + d)%nat in
                        if Nat.ltb code 256 then
                          match parseJsonString r'' with
                          | Some (s, rest) => Some (ascii_of_nat code :: s, rest)
                          | None => None
                          end
                        else None
                    | _, _, _, _ => None
                    end
                | _ => None
                end
            | _ => None
            end%nat
        | [] => None
        end
      else if Nat.ltb (nat_of_ascii c) 32 then None
      else
        match parseJsonString r with
        | Some (s, rest) => Some (c :: s, rest)
        | None => None
        end
  end.

Fixpoint startsWith (p l : list ascii) : option (list ascii) :=
  match p, l with
  | [], _ => Some l
  | x :: p', y :: l' => if Ascii.eqb x y then startsWith p' l' else None
  | _ :: _, [] => None
  end.

(** A JSON value, array elements after the first and object members
    after the first; [fuel] bounds the nesting. *)
Fixpoint parseValue (fuel : nat) (l : list ascii) : option (JValue * list ascii) :=
  match fuel with
  | O => None
  | S f =>
      match skipWs l with
      | [] => None
      | c :: r =>
          if Ascii.eqb c "{"%char then
            match skipWs r with
            | "}"%char :: r' => Some (JObject [], r')
            | _ =>
                match parseMember f r with
                | Some (kv, r') => parseMembers f r' [kv]
                | None => None
                end
            end
          else if Ascii.eqb c "["%char then
            match skipWs r with
            | "]"%char :: r' => Some (JArray [], r')
            | _ =>
                match parseValue f r with
                | Some (v, r') => parseElems f r' [v]
                | None => None
                end
            end
          else if Ascii.eqb c (ascii_of_nat 34) then
            match parseJsonString r with
            | Some (s, r') => Some (JString (string_of_list_ascii s), r')
            | None => None
            end
          else
            match startsWith (list_ascii_of_string "true") (c :: r) with
            | Some r' => Some (JBool true, r')
            | None =>
                match startsWith (list_ascii_of_string "false") (c :: r) with
                | Some r' => Some (JBool false, r')
                | None =>
                    match startsWith (list_ascii_of_string "null") (c :: r) with
                    | Some r' => Some (JNull, r')
                    | None =>
                        match parseJsonNumber (c :: r) with
                        | Some (q, r') => Some (JNumber q, r')
                        | None => None
                        end
                    end
                end
            end
      end
  end
with parseElems (fuel : nat) (l : list ascii) (acc : list JValue) : option (JValue * list ascii) :=
  match fuel with
  | O => None
  | S f =>
      match skipWs l with
      | "]"%char :: r => Some (JArray (rev acc), r)
      | ","%char :: r =>
          match parseValue f r with
          | Some (v, r') => parseElems f r' (v :: acc)
          | None => None
          end
      | _ => None
      end
  end
with parseMember (fuel : nat) (l : list ascii) : option ((string * JValue) * list ascii) :=
  match fuel with
  | O => None
  | S f =>
      match skipWs l with
      | c :: r =>
          if Ascii.eqb c (ascii_of_nat 34) then
            match parseJsonString r with
            | Some (k, r1) =>
                match skipWs r1 with
                | ":"%char :: r2 =>
                    match parseValue f r2 with
                    | Some (v, r3) => Some ((string_of_list_ascii k, v), r3)
                    | None => None
                    end
                | _ => None
                end
            | None => None
            end
          else None
      | [] => None
      end
  end
with parseMembers (fuel : nat) (l : list ascii) (acc : list (string * JValue))
    : option (JValue * list ascii) :=
  match fuel with
  | O => None
  | S f =>
      match skipWs l with
      | "}"%char :: r => Some (JObject (rev acc), r)
      | ","%char :: r =>
          match parseMember f r with
          | Some (kv, r') => parseMembers f r' (kv :: acc)
          | None => None
          end
      | _ => None
      end
  end.

(** [JSON.parse(text)]: [None] for a [SyntaxError]. *)
Definition JSON_parse (text : string) : option JValue :=
  let l := list_ascii_of_string text in
  match parseValue (2 * List.length l + 2) l with
  | Some (v, rest) => match skipWs rest with [] => Some v | _ => None end
  | None => None
  end.

(** *** The response parser *)

(** [response.match(/\{[\s\S]*\}/)]: the leftmost match runs from the
    first [{] to the last [}] after it. *)
Fixpoint fromFirstOpen (l : list ascii) : option (list ascii) :=
  match l with
  | [] => None
  | c :: r => if Ascii.eqb c "{"%char then Some l else fromFirstOpen r
  end.

Fixpoint dropUntilClose (l : list ascii) : list ascii :=
  match l with
  | [] => []
  | c :: r => if Ascii.eqb c "}"%char then l else dropUntilClose r
  end.

Definition matchBraces (response : string) : option string :=
  match fromFirstOpen (list_ascii_of_string response) with
  | None => None
  | Some l =>
      match dropUntilClose (rev l) with
      | [] => None
      | r => Some (string_of_list_ascii (rev r))
      end
  end.

(** [parsed.key]: [None] is [undefined]. With repeated keys
    [JSON.parse] keeps the last one. *)
Fixpoint lookupField (fields : list (string * JValue)) (k : string) : option JValue :=
  match fields with
  | [] => None
  | (k', v) :: r => if String.eqb k k' then Some v else lookupField r k
  end.

Definition getField (v : JValue) (k : string) : option JValue :=
  match v with
  | JObject fields => lookupField (rev fields) k
  | _ => None
  end.

(** JavaScript truthiness of a parsed value. *)
Definition truthy (v : JValue) : bool :=
  match v with
  | JNull => false
  | JBool b => b
  | JNumber q => negb (Qeq_bool q 0)
  | JString s => negb (String.eqb s "")
  | JArray _ | JObject _ => true
  end.

(** [x || d] *)
Definition jsOr (x : option JValue) (d : JValue) : JValue :=
  match x with
  | Some v => if truthy v then v else d
  | None => d
  end.

Definition isNull (v : JValue) : bool := match v with JNull => true | _ => false end.

Record CoherenceParse := mkParse { p_rating : JValue; p_feedback : JValue }.

(** [parseCoherenceResponse] (lines 585-600). Reading [.rating] of
    [null] throws a [TypeError], caught by the [catch]. *)
Definition parseCoherenceResponse (JSON_parse : string -> option JValue) (response : string)
  : CoherenceParse :=
  let failed := mkParse (JNumber 0) (JString "Failed to parse coherence response") in
  match matchBraces response with
  | None => failed
  | Some m =>
      match JSON_parse m with
      | None => failed
      | Some parsed =>
          if isNull parsed then failed
          else mkParse (jsOr (getField parsed "rating") (JNumber 0))
                 (jsOr (getField parsed "feedback") (JString "No feedback provided"))
      end
  end.

(** *** [rating >= 7] *)

(** A JavaScript number, with the infinities a numeric string can
    denote. *)
Inductive ENum := EFin (q : Q) | EPosInf | ENegInf | ENaN.

(** StrWhiteSpaceChar among the bytes: TAB, LF, VT, FF, CR, space and
    no-break space. *)
Definition isStrWs (c : ascii) : bool :=
  match nat_of_ascii c with 9 | 10 | 11 | 12 | 13 | 32 | 160 => true | _ => false end%nat.

Fixpoint dropWs (l : list ascii) : list ascii :=
  match l with
  | c :: r => if isStrWs c then dropWs r else l
  | [] => []
  end.

Definition trimWs (l : list ascii) : list ascii := rev (dropWs (rev (dropWs l))).

(** StrDecimalLiteral without its sign: [Infinity], or digits with an
    optional fraction and exponent, at least one digit in the mantissa. *)
Definition unsignedDecimal (l : list ascii) : ENum :=
  match startsWith (list_ascii_of_string "Infinity") l with
  | Some [] => EPosInf
  | Some _ => ENaN
  | None =>
      let '(ip, n1, l1) := digitsIn digitVal 10 l 0 0 in
      let '(fp, n2, l2) :=
        match l1 with
        | "."%char :: r => digitsIn digitVal 10 r 0 0
        | _ => (0%Z, 0%nat, l1)
        end in
      if Nat.eqb (n1 + n2) 0 then ENaN
      else
        match l2 with
        | [] => EFin (decimalValue ip fp n2 0)
        | c :: r =>
            if (Ascii.eqb c "e"%char || Ascii.eqb c "E"%char)%bool then
              let '(eneg, r1) :=
                match r with
                | "-"%char :: r' => (true, r') | "+"%char :: r' => (false, r')
                | _ => (false, r) end in
              let '(v, n3, r2) := digitsIn digitVal 10 r1 0 0 in
              match r2 with
              | [] => if Nat.eqb n3 0 then ENaN
                      else EFin (decimalValue ip fp n2 (if eneg then - v else v)%Z)
              | _ :: _ => ENaN
              end
            else ENaN
        end
  end.

Definition negateE (x : ENum) : ENum :=
  match x with
  | EFin q => EFin (- q) | EPosInf => ENegInf | ENegInf => EPosInf | ENaN => ENaN
  end.

(** [Number(s)] for a string (StringToNumber). *)
Definition stringToNumber (s : string) : ENum :=
  let nonDecimal (base : Z) (r : list ascii) :=
    let '(v, n, rest) := digitsIn hexVal base r 0 0 in
    match rest with
    | [] => if Nat.eqb n 0 then ENaN else EFin (inject_Z v)
    | _ :: _ => ENaN
    end in
  match trimWs (list_ascii_of_string s) with
  | [] => EFin 0
  | "0"%char :: b :: r =>
      if (Ascii.eqb b "x"%char || Ascii.eqb b "X"%char)%bool then nonDecimal 16%Z r
      else if (Ascii.eqb b "o"%char || Ascii.eqb b "O"%char)%bool then nonDecimal 8%Z r
      else if (Ascii.eqb b "b"%char || Ascii.eqb b "B"%char)%bool then nonDecimal 2%Z r
      else unsignedDecimal ("0"%char :: b :: r)
  | "-"%char :: r => negateE (unsignedDecimal r)
  | "+"%char :: r => unsignedDecimal r
  | l => unsignedDecimal l
  end.

(** [ToNumber(ToPrimitive(v, number))]. An object becomes
    ["[object Object]"], [NaN]. An array becomes the [join] of its
    elements: the empty string for [[]] and for [[null]], the element's
    string for one element ([true] gives ["true"], [NaN]), and for two
    or more elements a string with a comma, [NaN]. *)
Fixpoint toNumber (v : JValue) : ENum :=
  match v with
  | JNull => EFin 0
  | JBool b => EFin (if b then 1 else 0)
  | JNumber q => EFin q
  | JString s => stringToNumber s
  | JArray [] => EFin 0
  | JArray [x] =>
      match x with
      | JNull => EFin 0
      | JBool _ | JObject _ => ENaN
      | _ => toNumber x
      end
  | JArray _ => ENaN
  | JObject _ => ENaN
  end.

(** [v >= 7] *)
Definition geSeven (v : JValue) : bool :=
  match toNumber v with
  | EFin q => Qle_bool 7 q
  | EPosInf => true
  | ENegInf | ENaN => false
  end.

(** *** A validation pass *)

Record CoherenceResult := mkResult { success : bool; rating : JValue }.

(** [validateCoherence] (lines 446-500): [None] is a failed request or
    any other exception before parsing, [Some text] the reply text. *)
Definition validateCoherence (JSON_parse : string -> option JValue) (reply : option string)
  : CoherenceResult :=
  match reply with
  | None => mkResult false (JNumber 0)
  | Some text => mkResult true (p_rating (parseCoherenceResponse JSON_parse text))
  end.

(** The test of [validateAndRefine] (lines 84-90) that returns the plan:
    [nutritionResult.is_valid], then
    [coherenceResult.success && coherenceResult.rating >= 7]. *)
Definition passAccepted (nutritionValid : bool) (r : CoherenceResult) : bool :=
  nutritionValid && (success r && geSeven (rating r)).

End Coherence.

(** ** String helpers shared by the remaining code *)
Module JSString.

(** [s.includes(k)] *)
Definition includes (s k : string) : bool :=
  match String.index 0 k s with Some _ => true | None => false end.

(** [arr.join(sep)] *)
Definition join (sep : string) (l : list string) : string := String.concat sep l.

End JSString.

(** ** Nutrition validator, USDA calculation ([nutrition-validator/index.ts]) *)
Module ValidatorUSDA.
Local Open Scope Q_scope.
Import Validator.

(** [isMinorIngredient] (lines 465-471) *)
Definition minorIngredients : list string :=
  ["salt"; "pepper"; "water"; "vanilla"; "baking powder"; "garlic powder";
   "onion powder"; "paprika"; "oregano"; "basil"; "thyme"; "rosemary"].

Definition isMinorIngredient (n : string) : bool :=
  existsb (fun minor => JSString.includes (JS.toLowerCase n) minor) minorIngredients.

(** One iteration of the [for] loop: [usda] is the answer of
    [lookupUSDANutrition(ingredient.name)] ([None]: [null]), a row whose
    fields may be absent. *)
Definition addIngredient (lookupUSDANutrition : string -> option NutritionInfo)
    (acc : NutritionData) (ing : Ingredient) : NutritionData :=
  match lookupUSDANutrition (name ing) with
  | None => acc
  | Some usda =>
      match convertToGrams (amount ing) (unit ing) with
      | JS.Fin amountInGrams =>
          if negb (Qle_bool amountInGrams 0) then
            let multiplier := amountInGrams / 100 in
            addND acc (mkND (JS.orQ (i_calories usda) 0 * multiplier)
                            (JS.orQ (i_protein usda) 0 * multiplier)
                            (JS.orQ (i_fat usda) 0 * multiplier)
                            (JS.orQ (i_carbohydrates usda) 0 * multiplier)
                            (JS.orQ (i_fiber usda) 0 * multiplier))
          else acc
      | JS.NaN => acc
      end
  end.

(** [calculateFromUSDA] (lines 386-430) *)
Definition calculateFromUSDA (lookupUSDANutrition : string -> option NutritionInfo)
    (ingredients : list Ingredient) : option NutritionData :=
  let mainIngredients :=
    filter (fun ing => negb (Qle_bool (amount ing) 0) && negb (isMinorIngredient (name ing)))
      ingredients in
  let t := fold_left (addIngredient lookupUSDANutrition) mainIngredients zeroND in
  Some (mkND (JS.round (calories t)) (JS.round1 (protein t)) (JS.round1 (fat t))
          (JS.round1 (carbohydrates t)) (JS.round1 (fiber t))).

End ValidatorUSDA.

(** ** AI nutrition council, USDA calculation and suggestions
    ([agents/nutrition-council.ts]) *)
Module CouncilUSDA.
Local Open Scope Q_scope.
Import Validator.
Import Council.

(** [isMinorIngredient] (lines 676-679) *)
Definition minorIngredients : list string :=
  ["salt"; "pepper"; "oil"; "water"; "vanilla"; "baking powder"; "garlic powder"].

Definition isMinorIngredient (n : string) : bool :=
  existsb (fun minor => JSString.includes (JS.toLowerCase n) minor) minorIngredients.

Definition addIngredient (lookupUSDANutrition : string -> option NutritionInfo)
    (acc : Totals) (ing : Ingredient) : Totals :=
  match lookupUSDANutrition (name ing) with
  | None => acc
  | Some usda =>
      match convertToStandardAmount (amount ing) (unit ing) with
      | JS.Fin amountIn100g =>
          if negb (Qle_bool amountIn100g 0) then
            let multiplier := amountIn100g / 100 in
            mkTotals (t_calories acc + JS.orQ (i_calories usda) 0 * multiplier)
              (t_protein acc + JS.orQ (i_protein usda) 0 * multiplier)
              (t_fat acc + JS.orQ (i_fat usda) 0 * multiplier)
              (t_carbohydrates acc + JS.orQ (i_carbohydrates usda) 0 * multiplier)
          else acc
      | JS.NaN => acc
      end
  end.

(** [calculateRecipeNutritionFromUSDA] (lines 375-421). A [null]
    ingredient list makes [recipe.ingredients.filter] throw a
    [TypeError], caught: [null]. The returned object has no [fiber]. *)
Definition calculateRecipeNutritionFromUSDA
    (lookupUSDANutrition : string -> option NutritionInfo) (recipe : RecipeRow)
    : option NutritionInfo :=
  match ingredients recipe with
  | None => None
  | Some ings =>
      let mainIngredients :=
        filter (fun ing => negb (Qle_bool (amount ing) 0) && negb (isMinorIngredient (name ing)))
          ings in
      let t := fold_left (addIngredient lookupUSDANutrition) mainIngredients
                 (mkTotals 0 0 0 0) in
      Some (mkInfo (Some (JS.round (t_calories t))) (Some (JS.round1 (t_protein t)))
              (Some (JS.round1 (t_fat t))) (Some (JS.round1 (t_carbohydrates t))) None)
  end.

(** [generateNutritionSuggestions] (lines 700-718): [d > 0] is
    [~ d <= 0] and [d < 0] is [~ 0 <= d]. *)
Definition generateNutritionSuggestions (caloriesDeviation proteinDeviation : Q)
  : list string :=
  (if Qle_bool (Qabs caloriesDeviation) 15 then []
   else if Qle_bool caloriesDeviation 0
        then ["Add snacks or choose more calorie-dense recipes"]
        else ["Reduce portion sizes or choose lighter recipes"])
  ++ (if Qle_bool (Qabs proteinDeviation) 15 then []
      else if Qle_bool 0 proteinDeviation then []
      else ["Include more protein-rich foods like lean meats, legumes, or dairy"]).

(** The [is_valid] and [suggestions] fields of the object
    [validateNutrition] returns (lines 230-311). [c_deviations] lists
    the calories deviation first and the protein deviation second. *)
Record NutritionOutcome := mkNO { nr_is_valid : bool; nr_suggestions : list string }.

Definition nutritionResult (total : option Totals) (targets : option CouncilTargets)
    (dayCount : nat) : NutritionOutcome :=
  let v := validateNutrition total targets dayCount in
  mkNO (c_is_valid v)
    (match total, targets with
     | None, _ => ["Unable to validate nutrition - insufficient data"]
     | Some _, None => ["Complete user profile to enable nutritional validation"]
     | Some _, Some _ =>
         if c_within_15_percent_threshold v then []
         else match c_deviations v with
              | cd :: pd :: _ => generateNutritionSuggestions cd pd
              | _ => []
              end
     end).

End CouncilUSDA.

(** ** The refinement loop of [validateAndRefine]
    ([agents/nutrition-council.ts], lines 37-157) *)
Module Refine.
Local Open Scope Q_scope.
Import CouncilUSDA.

Definition MealPlan := Fallback.MealPlan.

(** The usage fields of a result object; each may be absent. *)
Record Usage := mkUsage { u_requests : option Q; u_tokens : option Q; u_cost : option Q }.

(** The object [assembleMealPlan] returns. *)
Inductive Assembly :=
| AssemblyFailed (err : option string) (u : Usage)
| Assembled (plan : MealPlan) (u : Usage).

(** The objects [improvePlanCoherence] and [fixNutritionalIssues] return. *)
Record StepResult := mkStep {
  st_success : bool; st_meal_plan : option MealPlan; st_error : option string;
  st_usage : Usage }.

(** [improvePlanCoherence] and [fixNutritionalIssues] (lines 733-741). *)
Definition improvePlanCoherence : StepResult :=
  mkStep false None (Some "Plan improvement not yet implemented") (mkUsage None None None).

Definition fixNutritionalIssues : StepResult :=
  mkStep false None (Some "Nutritional fixing not yet implemented") (mkUsage None None None).

(** A call of [validateCoherence]: the result and its usage fields. *)
Record CoherenceCall := mkCC {
  cc_result : Coherence.CoherenceResult; cc_tokens : option Q; cc_cost : option Q }.

(** [currentPlan] is [None] once it has been set to an absent
    [meal_plan]. *)
Record RefineState := mkRS {
  currentPlan : option MealPlan;
  retryCount : nat;
  lastValidationResult : option NutritionOutcome;
  claudeRequests : Q; totalTokensUsed : Q; totalCostCents : Q }.

Record RefineResult := mkRR {
  rr_success : bool; rr_meal_plan : option MealPlan; rr_error : option string;
  rr_claude_requests : Q; rr_tokens_used : Q; rr_cost_cents : Q }.

(** One iteration of the [while] loop. [nutrition p k] and
    [coherence p k] are what [validateNutrition] and [validateCoherence]
    return for plan [p] in round [k]. *)
Definition refineRound
    (nutrition : option MealPlan -> nat -> NutritionOutcome)
    (coherence : option MealPlan -> nat -> CoherenceCall)
    (st : RefineState) : RefineResult + RefineState :=
  let nutritionResult := nutrition (currentPlan st) (retryCount st) in
  if nr_is_valid nutritionResult then
    let cc := coherence (currentPlan st) (retryCount st) in
    let req := claudeRequests st + 1 in
    let tok := totalTokensUsed st + JS.orQ (cc_tokens cc) 0 in
    let cost := totalCostCents st + JS.orQ (cc_cost cc) 0 in
    if Coherence.success (cc_result cc) && Coherence.geSeven (Coherence.rating (cc_result cc))
    then inl (mkRR true (currentPlan st) None req tok cost)
    else
      let imp := improvePlanCoherence in
      inr (mkRS (if st_success imp then st_meal_plan imp else currentPlan st)
             (S (retryCount st)) (lastValidationResult st)
             (req + JS.orQ (u_requests (st_usage imp)) 0)
             (tok + JS.orQ (u_tokens (st_usage imp)) 0)
             (cost + JS.orQ (u_cost (st_usage imp)) 0))
  else
    let nutritionFix := fixNutritionalIssues in
    inr (mkRS (if st_success nutritionFix then st_meal_plan nutritionFix else currentPlan st)
           (S (retryCount st))
           (if st_success nutritionFix then lastValidationResult st else Some nutritionResult)
           (claudeRequests st) (totalTokensUsed st) (totalCostCents st)).

(** [while (retryCount < maxRetries)] with [maxRetries = 3]. *)
Fixpoint refineLoop (fuel : nat)
    (nutrition : option MealPlan -> nat -> NutritionOutcome)
    (coherence : option MealPlan -> nat -> CoherenceCall)
    (st : RefineState) : RefineResult + RefineState :=
  match fuel with
  | O => inr st
  | S fuel' =>
      if Nat.ltb (retryCount st) 3 then
        match refineRound nutrition coherence st with
        | inl r => inl r
        | inr st' => refineLoop fuel' nutrition coherence st'
        end
      else inr st
  end.

(** [lastValidationResult?.suggestions?.join(', ') || 'Unknown validation error'] *)
Definition lastIssue (l : option NutritionOutcome) : string :=
  match l with
  | None => "Unknown validation error"
  | Some r =>
      let j := JSString.join ", " (nr_suggestions r) in
      if String.eqb j "" then "Unknown validation error" else j
  end.

(** [validateAndRefine] *)
Definition validateAndRefine (assembly : Assembly)
    (nutrition : option MealPlan -> nat -> NutritionOutcome)
    (coherence : option MealPlan -> nat -> CoherenceCall) : RefineResult :=
  match assembly with
  | AssemblyFailed err u =>
      mkRR false None err (0 + JS.orQ (u_requests u) 0) (0 + JS.orQ (u_tokens u) 0)
        (0 + JS.orQ (u_cost u) 0)
  | Assembled plan u =>
      let st0 := mkRS (Some plan) 0 None (0 + JS.orQ (u_requests u) 0)
                   (0 + JS.orQ (u_tokens u) 0) (0 + JS.orQ (u_cost u) 0) in
      match refineLoop 3 nutrition coherence st0 with
      | inl r => r
      | inr st =>
          mkRR false None
            (Some ("Validation failed after 3 attempts. Last issue: "
                   ++ lastIssue (lastValidationResult st)))
            (claudeRequests st) (totalTokensUsed st) (totalCostCents st)
      end
  end.

End Refine.

(** ** Grocery list and prep schedule ([agents/wow-layer.ts]) *)
Module WowLayer.
Local Open Scope Q_scope.

(** [normalizeIngredientName] (lines 444-449) *)
Definition isAzDigit (c : ascii) : bool :=
  let n := nat_of_ascii c in
  (((97 <=? n) && (n <=? 122)) || ((48 <=? n) && (n <=? 57)))%nat.

(** [.replace(/[^a-z0-9\s]/g, '')] *)
Definition removeOthers (l : list ascii) : list ascii :=
  filter (fun c => isAzDigit c || Coherence.isStrWs c) l.

(** [.replace(/\s+/g, ' ')]: [inRun] tells whether the previous
    character was white space already replaced. *)
Fixpoint collapseWs (inRun : bool) (l : list ascii) : list ascii :=
  match l with
  | [] => []
  | c :: r =>
      if Coherence.isStrWs c then
        if inRun then collapseWs true r else " "%char :: collapseWs true r
      else c :: collapseWs false r
  end.

Definition normalizeIngredientName (n : string) : string :=
  string_of_list_ascii
    (Coherence.trimWs
       (collapseWs false (removeOthers (list_ascii_of_string (JS.toLowerCase n))))).

(** A name in normal form: small letters, digits and single spaces,
    with no space at either end. *)
Definition normalName (l : list ascii) : Prop :=
  Forall (fun c => isAzDigit c = true \/ c = " "%char) l /\
  (forall a b, l <> (a ++ " "%char :: " "%char :: b)%list) /\
  hd_error l <> Some " "%char /\ hd_error (rev l) <> Some " "%char.

(** [GroceryCategory] ([types/recipe.ts]) as far as the code produces it. *)
Inductive GroceryCategory := Produce | MeatSeafood | DairyEggs | Pantry | Spices | Condiments.

(** [categorizeIngredient] (lines 451-495); [Object.entries] lists the
    keys in the literal's order (none is an integer). *)
Definition categories : list (string * GroceryCategory) :=
  [("onion", Produce); ("garlic", Produce); ("tomato", Produce); ("lettuce", Produce);
   ("carrot", Produce); ("potato", Produce); ("bell pepper", Produce); ("spinach", Produce);
   ("apple", Produce); ("banana", Produce); ("lemon", Produce); ("lime", Produce);
   ("chicken", MeatSeafood); ("beef", MeatSeafood); ("pork", MeatSeafood); ("fish", MeatSeafood);
   ("salmon", MeatSeafood); ("shrimp", MeatSeafood); ("turkey", MeatSeafood);
   ("milk", DairyEggs); ("cheese", DairyEggs); ("butter", DairyEggs); ("egg", DairyEggs);
   ("yogurt", DairyEggs); ("cream", DairyEggs);
   ("rice", Pantry); ("pasta", Pantry); ("flour", Pantry); ("sugar", Pantry);
   ("oil", Pantry); ("vinegar", Pantry); ("beans", Pantry); ("lentils", Pantry);
   ("salt", Spices); ("pepper", Spices); ("garlic powder", Spices); ("paprika", Spices);
   ("soy sauce", Condiments); ("olive oil", Condiments); ("ketchup", Condiments)].

(** The [for ... of Object.entries(categories)] loop. *)
Fixpoint firstCategory (normalized : string) (l : list (string * GroceryCategory))
  : option GroceryCategory :=
  match l with
  | [] => None
  | (ingredient, category) :: r =>
      if JSString.includes normalized ingredient then Some category
      else firstCategory normalized r
  end.

Definition categorizeIngredient (n : string) : GroceryCategory :=
  let normalized := JS.toLowerCase n in
  match firstCategory normalized categories with
  | Some c => c
  | None =>
      if JSString.includes normalized "cheese" || JSString.includes normalized "milk"
         || JSString.includes normalized "butter" then DairyEggs
      else if JSString.includes normalized "chicken" || JSString.includes normalized "beef"
              || JSString.includes normalized "fish" then MeatSeafood
      else if JSString.includes normalized "oil" || JSString.includes normalized "sauce"
              || JSString.includes normalized "dressing" then Condiments
      else Pantry
  end.

(** An entry of [allIngredients]. *)
Record GroceryEntry := mkEntry {
  g_amount : Q; g_unit : string; g_category : GroceryCategory;
  source_recipes : list string }.

(** The own properties of [allIngredients], each key once. A key is
    updated in place and a new key is added at the end. *)
Fixpoint ownEntry (m : list (string * GroceryEntry)) (k : string) : option GroceryEntry :=
  match m with
  | [] => None
  | (k', v) :: r => if String.eqb k k' then Some v else ownEntry r k
  end.

Fixpoint setEntry (m : list (string * GroceryEntry)) (k : string) (v : GroceryEntry)
  : list (string * GroceryEntry) :=
  match m with
  | [] => [(k, v)]
  | (k', v') :: r => if String.eqb k k' then (k, v) :: r else (k', v') :: setEntry r k v
  end.

(** One iteration of the ingredient loop ([None]: a [TypeError], caught
    by the [catch] that returns [null]). [allIngredients[k]] for a key
    [k] that [allIngredients] inherits from [Object.prototype] is a
    function or an object, truthy: its [unit] is [undefined] and its
    [source_recipes.push] throws. *)
Definition addGroceryItem (recipeId : string) (m : list (string * GroceryEntry))
    (ingredient : Validator.Ingredient) : option (list (string * GroceryEntry)) :=
  let normalizedName := normalizeIngredientName (Validator.name ingredient) in
  let category := categorizeIngredient (Validator.name ingredient) in
  match ownEntry m normalizedName with
  | Some e =>
      Some (setEntry m normalizedName
              (mkEntry (if String.eqb (g_unit e) (Validator.unit ingredient)
                        then g_amount e + Validator.amount ingredient else g_amount e)
                       (g_unit e) (g_category e) (source_recipes e ++ [recipeId])%list))
  | None =>
      if existsb (String.eqb normalizedName) JS.objectPrototypeNames then None
      else Some (setEntry m normalizedName
                   (mkEntry (Validator.amount ingredient) (Validator.unit ingredient)
                            category [recipeId]))
  end.

Fixpoint addGroceryItems (recipeId : string) (m : list (string * GroceryEntry))
    (l : list Validator.Ingredient) : option (list (string * GroceryEntry)) :=
  match l with
  | [] => Some m
  | ing :: r =>
      match addGroceryItem recipeId m ing with
      | Some m' => addGroceryItems recipeId m' r
      | None => None
      end
  end.

(** One meal: [fetch] answers the [recipes] query ([None]: error or no
    row, the meal is skipped); [for (const ingredient of null)] throws. *)
Definition groceryMeal (fetch : string -> option Validator.RecipeRow)
    (m : list (string * GroceryEntry)) (meal : Fallback.MealSlot)
  : option (list (string * GroceryEntry)) :=
  match fetch (Fallback.recipe_id meal) with
  | None => Some m
  | Some recipe =>
      match Validator.ingredients recipe with
      | None => None
      | Some ings => addGroceryItems (Fallback.recipe_id meal) m ings
      end
  end.

Fixpoint groceryMeals fetch (m : list (string * GroceryEntry)) (meals : list Fallback.MealSlot) :=
  match meals with
  | [] => Some m
  | meal :: r =>
      match groceryMeal fetch m meal with
      | Some m' => groceryMeals fetch m' r
      | None => None
      end
  end.

Fixpoint groceryDays fetch (m : list (string * GroceryEntry)) (days : list Fallback.DayPlan) :=
  match days with
  | [] => Some m
  | d :: r =>
      match groceryMeals fetch m (Fallback.meals d) with
      | Some m' => groceryDays fetch m' r
      | None => None
      end
  end.

(** The [GroceryList] without its generated id and dates; [items] are
    the entries of [allIngredients] (the grouping by category and the
    [localeCompare] sort are not modelled). *)
Record GroceryList := mkGroceryList {
  items : list (string * GroceryEntry); total_items : nat }.

(** [generateSmartGroceryList] (lines 140-234) *)
Definition generateSmartGroceryList (fetch : string -> option Validator.RecipeRow)
    (mealPlan : Fallback.MealPlan) : option GroceryList :=
  match groceryDays fetch [] (Fallback.days (Fallback.plan_data mealPlan)) with
  | None => None
  | Some allIngredients => Some (mkGroceryList allIngredients (List.length allIngredients))
  end.

(** For stating properties of the list: the ingredients the loops
    visit, each with the id of its meal's recipe, in order; whether a
    fetched recipe has [null] ingredients; the sum of the amounts of the
    visited ingredients that normalise to [k] and have unit [u]. *)
Definition mealOccurrences (fetch : string -> option Validator.RecipeRow)
    (meal : Fallback.MealSlot) : list (string * Validator.Ingredient) :=
  match fetch (Fallback.recipe_id meal) with
  | Some recipe =>
      match Validator.ingredients recipe with
      | Some ings => map (pair (Fallback.recipe_id meal)) ings
      | None => []
      end
  | None => []
  end.

Definition groceryOccurrences fetch (days : list Fallback.DayPlan) :=
  flat_map (fun d => flat_map (mealOccurrences fetch) (Fallback.meals d)) days.

Definition mealHasNull (fetch : string -> option Validator.RecipeRow)
    (meal : Fallback.MealSlot) : bool :=
  match fetch (Fallback.recipe_id meal) with
  | Some recipe => match Validator.ingredients recipe with None => true | Some _ => false end
  | None => false
  end.

Definition hasNullIngredients fetch (days : list Fallback.DayPlan) : bool :=
  existsb (fun d => existsb (mealHasNull fetch) (Fallback.meals d)) days.

Fixpoint groceryAmount (k u : string) (os : list (string * Validator.Ingredient)) : Q :=
  match os with
  | [] => 0
  | (_, ing) :: r =>
      (if String.eqb (normalizeIngredientName (Validator.name ing)) k
          && String.eqb (Validator.unit ing) u
       then Validator.amount ing else 0) + groceryAmount k u r
  end.

(** [PrepTask] without its [uuidv4()] id. *)
Inductive Priority := High | Medium | Low.

Definition priorityOrder (p : Priority) : Z :=
  match p with High => 3 | Medium => 2 | Low => 1 end.

Record PrepTask := mkTask {
  description : string; estimated_time_minutes : Z; suggested_day : string;
  priority : Priority; enables_recipes : list string;
  requires_equipment : list string; storage_instructions : string }.

(** The row selected for the prep schedule. *)
Record PrepRow := mkPrepRow { p_id : string; p_ingredients : option (list Validator.Ingredient) }.

(** [identifyPrepTasks] (lines 497-541); [recipe.ingredients || []]. *)
Definition identifyPrepTasks (recipe : PrepRow) : list PrepTask :=
  let ingredients := match p_ingredients recipe with Some l => l | None => [] end in
  let lname ing := JS.toLowerCase (Validator.name ing) in
  let grains := filter (fun ing => JSString.includes (lname ing) "rice"
                          || JSString.includes (lname ing) "quinoa"
                          || JSString.includes (lname ing) "pasta") ingredients in
  let vegetables := filter (fun ing => JSString.includes (lname ing) "onion"
                              || JSString.includes (lname ing) "pepper"
                              || JSString.includes (lname ing) "carrot") ingredients in
  (if (0 <? List.length grains)%nat then
     [mkTask ("Cook " ++ JSString.join ", " (map Validator.name grains) ++ " in bulk")
             25 "sunday" Medium [p_id recipe] ["pot"; "stove"]
             "Store in refrigerator for up to 5 days"]
   else []) ++
  (if (2 <=? List.length vegetables)%nat then
     [mkTask "Chop vegetables for the week" 15 "sunday" High [p_id recipe]
             ["knife"; "cutting board"] "Store chopped vegetables in airtight containers"]
   else []).

(** [[...new Set(l)]]: the first occurrence of each element, in order. *)
Fixpoint dedupStrings (seen : list string) (l : list string) : list string :=
  match l with
  | [] => []
  | x :: r =>
      if existsb (String.eqb x) seen then dedupStrings seen r
      else x :: dedupStrings (x :: seen) r
  end.

(** [existingTask.enables_recipes = ...] on the first task with the same
    description and day ([prepTasks.find]). *)
Fixpoint mergeTask (prepTasks : list PrepTask) (task : PrepTask) : list PrepTask :=
  match prepTasks with
  | [] => []
  | t :: r =>
      if String.eqb (description t) (description task)
         && String.eqb (suggested_day t) (suggested_day task)
      then mkTask (description t) (estimated_time_minutes t) (suggested_day t) (priority t)
                  (dedupStrings [] (enables_recipes t ++ enables_recipes task)%list)
                  (requires_equipment t) (storage_instructions t) :: r
      else t :: mergeTask r task
  end.

Definition taskKey (task : PrepTask) : string :=
  description task ++ "_" ++ suggested_day task.

(** The loop body for one task: [processedIngredients] is the [Set]. *)
Definition addTask (st : list PrepTask * list string) (task : PrepTask)
  : list PrepTask * list string :=
  let '(prepTasks, processed) := st in
  if negb (existsb (String.eqb (taskKey task)) processed) then
    ((prepTasks ++ [task])%list, (processed ++ [taskKey task])%list)
  else (mergeTask prepTasks task, processed).

Definition prepMeal (fetch : string -> option PrepRow) (st : list PrepTask * list string)
    (meal : Fallback.MealSlot) : list PrepTask * list string :=
  match fetch (Fallback.recipe_id meal) with
  | None => st
  | Some recipe => fold_left addTask (identifyPrepTasks recipe) st
  end.

(** The comparator of [prepTasks.sort]: negative puts [a] first. *)
Definition compareTasks (a b : PrepTask) : Z :=
  let priorityDiff := (priorityOrder (priority b) - priorityOrder (priority a))%Z in
  if negb (Z.eqb priorityDiff 0) then priorityDiff
  else (estimated_time_minutes b - estimated_time_minutes a)%Z.

(** [Array.prototype.sort] is stable; for this comparator, which orders
    by a key, a stable insertion sort gives the same array. *)
Fixpoint insertTask (x : PrepTask) (l : list PrepTask) : list PrepTask :=
  match l with
  | [] => [x]
  | y :: r => if Z.leb (compareTasks y x) 0 then y :: insertTask x r else x :: y :: r
  end.

Definition sortTasks (l : list PrepTask) : list PrepTask :=
  fold_left (fun acc x => insertTask x acc) l [].

Record PrepSchedule := mkPrepSchedule {
  tasks : list PrepTask; total_prep_time_minutes : Z;
  recommended_prep_days : list string }.

(** [generatePrepSchedule] (lines 236-302) *)
Definition generatePrepSchedule (fetch : string -> option PrepRow)
    (mealPlan : Fallback.MealPlan) : PrepSchedule :=
  let '(prepTasks, _) :=
    fold_left (fun st day => fold_left (prepMeal fetch) (Fallback.meals day) st)
      (Fallback.days (Fallback.plan_data mealPlan)) ([], []) in
  let sorted := sortTasks prepTasks in
  mkPrepSchedule sorted
    (fold_left (fun sum task => sum + estimated_time_minutes task)%Z sorted 0%Z)
    ["sunday"; "wednesday"].

End WowLayer.

(** ** Claude API cost ([calculateCost]) *)
Module Cost.
Local Open Scope Q_scope.

(** [CandidateSelector.calculateCost] ([agents/wow-layer.ts], lines 1146-1155) *)
Definition calculateCost (inputTokens outputTokens : Q) : Q :=
  let inputCostPer1k := 0.003 in
  let outputCostPer1k := 0.015 in
  let inputCost := (inputTokens / 1000) * inputCostPer1k in
  let outputCost := (outputTokens / 1000) * outputCostPer1k in
  JS.round ((inputCost + outputCost) * 100).

(** [NutritionCouncil.calculateCost] ([agents/nutrition-council.ts], lines 743-747) *)
Definition councilCalculateCost (inputTokens outputTokens : Q) : Q :=
  let inputCostPer1k := 0.003 in
  let outputCostPer1k := 0.015 in
  JS.round (((inputTokens / 1000) * inputCostPer1k + (outputTokens / 1000) * outputCostPer1k) * 100).

End Cost.

(** ** Candidate selection ([selectCandidates], [agents/wow-layer.ts]) *)
Module Selection.
Local Open Scope Q_scope.
Import Selector.

(** The answer of the filtered [recipes] query: an error (thrown by
    [performSQLFiltering] as [SQL filtering failed: ...]) or [data],
    possibly [null]. *)
Inductive SqlAnswer := SqlFailed (message : string) | SqlData (data : option (list Recipe)).

(** The Claude call of [performAIScoring]: it fails ([fetch] rejects,
    the response is not ok, or [data.content[0].text] is missing) with a
    message, or answers with the parsed scores and [data.usage]. *)
Inductive ApiAnswer :=
| ApiFailed (message : string)
| ApiOk (parsed : ParsedScores) (input_tokens output_tokens : option Q).

Record ScoringResult := mkScoring {
  sr_success : bool; scoredCandidates : option (list RecipeCandidate);
  sr_error : option string; sr_tokens_used : option Q; sr_cost_cents : option Q }.

(** [data.usage?.input_tokens + data.usage?.output_tokens || 0]: a
    missing count makes the sum [NaN], which is falsy. *)
Definition tokensUsed (i o : option Q) : Q :=
  match i, o with
  | Some a, Some b => JS.orQ (Some (a + b)) 0
  | _, _ => 0
  end.

(** [performAIScoring] (lines 745-806) *)
Definition performAIScoring (api : ApiAnswer) (recipes : list Recipe) : ScoringResult :=
  match api with
  | ApiFailed msg => mkScoring false None (Some ("AI scoring failed: " ++ msg)) None None
  | ApiOk parsed i o =>
      let tokens := tokensUsed i o in
      let cost := Cost.calculateCost (JS.orQ i 0) (JS.orQ o 0) in
      match parseAIScoringResponse parsed recipes with
      | Throw e => mkScoring false None (Some (Controller.messageOf e)) (Some tokens) (Some cost)
      | Normal cands => mkScoring true (Some cands) None (Some tokens) (Some cost)
      end
  end.

Record SelectionResult := mkSelection {
  s_success : bool; candidates : option (list RecipeCandidate); s_error : option string;
  s_claude_requests : option Q; s_tokens_used : option Q; s_cost_cents : option Q }.

(** [selectCandidates] (lines 605-667); the thrown SQL error is caught
    and its message returned. *)
Definition selectCandidates (bp : Blueprint) (prefs : Preferences)
    (sql : SqlAnswer) (api : ApiAnswer) : SelectionResult :=
  match sql with
  | SqlFailed msg => mkSelection false None (Some ("SQL filtering failed: " ++ msg)) None None None
  | SqlData data =>
      let sqlCandidates := match data with Some l => l | None => [] end in
      if Nat.eqb (List.length sqlCandidates) 0 then
        mkSelection false None
          (Some "No recipes found matching dietary restrictions and constraints") None None None
      else
        let scoringResult := performAIScoring api sqlCandidates in
        if negb (sr_success scoringResult) then
          mkSelection false None (sr_error scoringResult) (Some 1)
            (Some (JS.orQ (sr_tokens_used scoringResult) 0))
            (Some (JS.orQ (sr_cost_cents scoringResult) 0))
        else
          mkSelection true
            (Some (rankAndSelectFinalCandidates
                     (match scoredCandidates scoringResult with Some l => l | None => [] end)
                     bp prefs))
            None (Some 1)
            (Some (JS.orQ (sr_tokens_used scoringResult) 0))
            (Some (JS.orQ (sr_cost_cents scoringResult) 0))
  end.

End Selection.

(** ** Nutritional targets ([calculateNutritionalTargets], part_001 lines 546-584) *)
Module Targets.
Local Open Scope Q_scope.

(** The profile fields read: [weight_kg] and [height_cm] ([None]:
    [null] or absent), [date_of_birth] ([None]: absent or empty; [Some
    None]: a string [new Date] cannot parse; [Some (Some y)]: a date in
    year [y]) and [activity_level]. *)
Record Profile := mkProfile {
  weight_kg : option Q; height_cm : option Q;
  date_of_birth : option (option Z); activity_level : option string }.

Definition numAdd (a b : JS.Num) : JS.Num :=
  match a, b with JS.Fin x, JS.Fin y => JS.Fin (x + y) | _, _ => JS.NaN end.
Definition numMul (a b : JS.Num) : JS.Num :=
  match a, b with JS.Fin x, JS.Fin y => JS.Fin (x * y) | _, _ => JS.NaN end.
Definition numSub (a b : JS.Num) : JS.Num :=
  match a, b with JS.Fin x, JS.Fin y => JS.Fin (x - y) | _, _ => JS.NaN end.
(** Division by a non-zero constant. *)
Definition numDiv (a : JS.Num) (d : Q) : JS.Num :=
  match a with JS.Fin x => JS.Fin (x / d) | JS.NaN => JS.NaN end.
Definition numRound (a : JS.Num) : JS.Num :=
  match a with JS.Fin x => JS.Fin (JS.round x) | JS.NaN => JS.NaN end.

(** [!x] on a number-valued property: [undefined], [null] and [0] are falsy. *)
Definition truthyQ (v : option Q) : bool :=
  match v with Some x => negb (Qeq_bool x 0) | None => false end.

Definition activityMultipliers : list (string * Q) :=
  [("sedentary", 1.2); ("light", 1.375); ("moderate", 1.55); ("active", 1.725);
   ("very_active", 1.9)].

(** [activityMultipliers[profile.activity_level] || 1.2]: an own entry, a
    member inherited from [Object.prototype] (a function, truthy, and
    [NaN] once multiplied), or [undefined]. *)
Definition multiplier (level : option string) : JS.Num :=
  match level with
  | None => JS.Fin 1.2
  | Some l =>
      match JS.getProp activityMultipliers l with
      | JS.PNumber q => JS.Fin (if Qeq_bool q 0 then 1.2 else q)
      | JS.PInherited => JS.NaN
      | JS.PUndefined => JS.Fin 1.2
      end
  end.

Record NutritionalTargets := mkNT {
  daily_calories : JS.Num; daily_protein : JS.Num; daily_fat : JS.Num;
  daily_carbohydrates : JS.Num; bmr : JS.Num; tdee : JS.Num }.

(** [currentYear] is [new Date().getFullYear()]. *)
Definition calculateNutritionalTargets (currentYear : Z) (profile : Profile)
  : option NutritionalTargets :=
  if negb (truthyQ (weight_kg profile)) || negb (truthyQ (height_cm profile)) then None
  else
    match date_of_birth profile with
    | None => None
    | Some dob =>
        let age := match dob with
                   | Some y => JS.Fin (inject_Z (currentYear - y))
                   | None => JS.NaN
                   end in
        let weight := JS.orQ (weight_kg profile) 0 in
        let height := JS.orQ (height_cm profile) 0 in
        let bmr := numAdd (numSub (JS.Fin (10 * weight + 6.25 * height))
                                  (numMul (JS.Fin 5) age)) (JS.Fin 5) in
        let tdee := numMul bmr (multiplier (activity_level profile)) in
        let proteinRatio := 0.25 in
        let fatRatio := 0.30 in
        let carbRatio := 0.45 in
        Some (mkNT (numRound tdee)
                   (numRound (numDiv (numMul tdee (JS.Fin proteinRatio)) 4))
                   (numRound (numDiv (numMul tdee (JS.Fin fatRatio)) 9))
                   (numRound (numDiv (numMul tdee (JS.Fin carbRatio)) 4))
                   (numRound bmr) (numRound tdee))
    end.

End Targets.

(** ** Next Monday ([getNextMonday], part_001 lines 536-544) *)
Module Calendar.

(** A local calendar day as the number of days since 1970-01-01, a
    Thursday: [getDay()] is [(d + 4) mod 7], 0 for Sunday. *)
Definition getDay (d : Z) : Z := ((d + 4) mod 7)%Z.

(** [setDate(today.getDate() + daysUntilMonday)] moves the date by that
    many days; [setHours(0, 0, 0, 0)] keeps the day. *)
Definition getNextMonday (today : Z) : Z :=
  let dayOfWeek := getDay today in
  let daysUntilMonday := if Z.eqb dayOfWeek 0 then 1%Z else (8 - dayOfWeek)%Z in
  (today + daysUntilMonday)%Z.

End Calendar.

(** ** Request validation and the handler (part_001) *)
Module Handler.

(** Decimal digits of a non-negative integer, as [String(n)]. *)
Fixpoint digits (fuel : nat) (n : Z) (acc : string) : string :=
  match fuel with
  | O => acc
  | S f =>
      let acc' := String (ascii_of_nat (48 + Z.to_nat (n mod 10))) acc in
      if Z.ltb n 10 then acc' else digits f (n / 10) acc'
  end.

Definition showZ (z : Z) : string :=
  if Z.ltb z 0 then "-" ++ digits (Pos.size_nat (Z.to_pos (- z))) (- z) ""
  else digits (Pos.size_nat (Z.to_pos z)) z "".

(** [PlanGenerationRequestSchema.parse] succeeds or fails with a message. *)
Inductive BodyCheck := BodyInvalid (message : string) | BodyValid.

Record Subscription := mkSubscription { plan_generation_limit : Z }.

Inductive RequestValidation :=
| VFail (error : string) (status : Z)
| VOk.

(** [validateRequest] (lines 174-270): [userFound] is [!userError &&
    user]; [subscription] is [None] on an error or no row;
    [monthlyPlans] is the [count] of the [meal_plans] query ([None]:
    [null], which [>=] converts to 0). *)
Definition validateRequest (userFound : bool) (body : BodyCheck)
    (subscription : option Subscription) (monthlyPlans : option Z) : RequestValidation :=
  if negb userFound then VFail "Unauthorized: Invalid or missing authentication" 401
  else
    match body with
    | BodyInvalid m => VFail ("Invalid request format: " ++ m) 422
    | BodyValid =>
        match subscription with
        | None => VFail "No active subscription found" 403
        | Some sub =>
            let planLimit := plan_generation_limit sub in
            if negb (Z.eqb planLimit (-1)) then
              let count := match monthlyPlans with Some c => c | None => 0%Z end in
              if Z.leb planLimit count then
                VFail ("Monthly plan generation limit reached (" ++ showZ planLimit ++ " plans)") 429
              else VOk
            else VOk
        end
    end.

Record Response := mkResponse { status : Z; error : option string }.

(** [createErrorResponse] (lines 519-534) *)
Definition createErrorResponse (message : string) (s : Z) : Response :=
  mkResponse s (Some message).

(** The identifiers in scope in the handler's [catch] block: the
    module's imports and top-level declarations, the handler's parameter
    and [const]s declared before the [try], and the caught [error]. The
    [const { supabase, user, requestData }] of the [try] block is not
    among them. *)
Definition catchScope : list string :=
  ["serve"; "createClient"; "z"; "uuidv4"; "validateUserBlueprint"; "CandidateSelector";
   "NutritionCouncil"; "WowLayerAgent"; "logGenerationEvent"; "PlanGenerationRequestSchema";
   "validateRequest"; "ingestUserBlueprint"; "generateMealPlanWithRetry";
   "createErrorResponse"; "getNextMonday"; "calculateNutritionalTargets";
   "generateFallbackPlan"; "saveMealPlan"; "req"; "generationId"; "startTime"; "error"].

Definition readIdent (sc : list string) (x : string) : Completion unit :=
  if existsb (String.eqb x) sc then Normal tt else Throw (ReferenceError x).

(** The [serve] handler (lines 51-171). [validation] is the result of
    [validateRequest], [blueprintError] that of [ingestUserBlueprint]
    ([None]: success). [logGenerationEvent] catches its own errors and
    is a no-op here; the response body is not modelled beyond the
    status. *)
Definition serve (method : string) (validation : RequestValidation)
    (blueprintError : option string) (rounds : Z -> Controller.Round) (weekStart : Z)
    (fetched : Fallback.FetchResult) : Completion Response :=
  if String.eqb method "OPTIONS" then Normal (mkResponse 200 None)
  else if negb (String.eqb method "POST") then
    Normal (createErrorResponse "Method not allowed" 405)
  else
    let tryBlock :=
      match validation with
      | VFail e s => Normal (createErrorResponse e s)
      | VOk =>
          match blueprintError with
          | Some e => Normal (createErrorResponse e 400)
          | None =>
              generationResult <- Controller.generateMealPlanWithRetry rounds weekStart fetched ;;
              Normal (mkResponse (if Controller.success generationResult then 200 else 500)%Z None)
          end
      end in
    match tryBlock with
    | Normal r => Normal r
    | Throw _ =>
        _ <- readIdent catchScope "supabase" ;;
        Normal (createErrorResponse "Internal server error" 500)
    end.

End Handler.

(** ** Concrete inputs used by the examples *)
Module Samples.
Local Open Scope Q_scope.
Import Validator.

(** A resolver that gives every meal the same nutrition. *)
Definition constResolve (n : NutritionData) : string -> Q -> bool -> option MealNutrition :=
  fun rid _ _ => Some (mkMN rid "sample" n Spoonacular).

Definition oneDay : list (list Meal) := [[mkMeal "r1" None]].

Definition bigTargets : Targets := mkTargets 10000 100 100 100 None.

Definition defaultOptions : Options := mkOptions 15 true true.

(** A recipe whose declared calories are 0: not reliable. *)
Definition unreliableRow : RecipeRow :=
  mkRow "Green salad" (Some (mkInfo (Some 0) (Some 5) (Some 1) (Some 1) None))
    (Some [mkIngredient "lettuce" 100 "g"]) (Some 1).


(** A recipe declaring positive calories and protein but negative fat. *)
Definition negativeFatRow : RecipeRow :=
  mkRow "Tofu stir fry" (Some (mkInfo (Some 400) (Some 20) (Some (-5)) (Some 50) None))
    (Some [mkIngredient "tofu" 200 "g"]) (Some 1).

(** An ingredient composition lookup answering for every recipe. *)
Definition councilFromUSDA : RecipeRow -> option NutritionInfo :=
  fun _ => Some (mkInfo (Some 300) (Some 25) (Some 10) (Some 20) None).

(** A selector candidate with the given id, cuisine and meal types. *)
Definition cand (i : string) (cu : option string) (mts : list Selector.MealType)
    (fs : Q) : Selector.RecipeCandidate :=
  Selector.mkCandidate (Selector.mkRecipe i 4 false cu mts) 80 80 fs [] [].

Definition italianSeven : list Selector.RecipeCandidate :=
  map (fun i => cand i (Some "italian") [] 80) ["r1"; "r2"; "r3"; "r4"; "r5"; "r6"; "r7"].

(** Sixteen candidates without a cuisine, then ten Italian ones: the
    Italian candidates all come after the first sixteen. *)
Definition plainThenItalian : list Selector.RecipeCandidate :=
  app (map (fun n => cand (String (ascii_of_nat (65 + n)) "") None [] 80) (seq 0 16))
      (map (fun n => cand (String (ascii_of_nat (97 + n)) "") (Some "italian") [] 80) (seq 0 10)).

(** Thirty scored recipes and one recipe [x] the scorer left out. *)
Definition scoredRecipe (n : nat) : Selector.Recipe :=
  Selector.mkRecipe (String (ascii_of_nat (65 + n)) "") 5 false None [].

Definition fullRecipes : list Selector.Recipe := map scoredRecipe (seq 0 30).

Definition missingRecipe : Selector.Recipe := Selector.mkRecipe "x" 5 false None [].

Definition partialScores : list (string * Selector.ScoreData) :=
  map (fun r => (Selector.id r, Selector.mkScoreData (Some 100) None None)) fullRecipes.

Definition plainBlueprint : Selector.Blueprint := Selector.mkBlueprint 0 None false None None.

Definition plainPrefs : Selector.Preferences := Selector.mkPreferences 0 None.

(** Coherence replies. JSON text is built with [quote], the byte 34. *)
Definition quote : string := String (ascii_of_nat 34) EmptyString.

Definition stringRatingReply : string :=
  ("Review: {" ++ quote ++ "rating" ++ quote ++ ": " ++ quote ++ "8" ++ quote ++ "}")%string.

Definition numberRatingReply : string :=
  ("{" ++ quote ++ "rating" ++ quote ++ ": 8, " ++ quote ++ "feedback" ++ quote ++ ": "
   ++ quote ++ "Good variety" ++ quote ++ "}")%string.

End Samples.

(** Further inputs used by the examples. *)
Module ExtraSamples.
Local Open Scope Q_scope.

Definition noLookup : string -> option Validator.NutritionInfo := fun _ => None.

Definition saltPinch : Validator.Ingredient := Validator.mkIngredient "Salt" 1 "pinch".

Definition riceCup : Validator.Ingredient := Validator.mkIngredient "rice" 1 "cup".

Definition oneMealPlan : Fallback.MealPlan :=
  Fallback.mkMealPlan "Week" "claude"
    (Fallback.mkPlanData [Fallback.mkDayPlan "monday" 0 [Fallback.mkMealSlot "lunch" "r1" false]] 1 1 0).

Definition twoMealPlan : Fallback.MealPlan :=
  Fallback.mkMealPlan "Week" "claude"
    (Fallback.mkPlanData [Fallback.mkDayPlan "monday" 0
       [Fallback.mkMealSlot "lunch" "r1" false; Fallback.mkMealSlot "dinner" "r2" false]] 2 2 0).

Definition noUsage : Refine.Usage := Refine.mkUsage None None None.

Definition nutritionOk : option Refine.MealPlan -> nat -> CouncilUSDA.NutritionOutcome :=
  fun _ _ => CouncilUSDA.mkNO true [].

Definition nutritionFails : option Refine.MealPlan -> nat -> CouncilUSDA.NutritionOutcome :=
  fun _ _ => CouncilUSDA.mkNO false ["Reduce portion sizes or choose lighter recipes"].

Definition coherenceEight : option Refine.MealPlan -> nat -> Refine.CoherenceCall :=
  fun _ _ => Refine.mkCC (Coherence.mkResult true (Coherence.JNumber 8)) (Some 120) (Some 1).

Definition fatHeavyTotals : Council.Totals := Council.mkTotals 2000 100 300 200.

Definition dailyTargets : Council.CouncilTargets := Council.mkCT 2000 100 50 200.

(** Two recipes sharing olive oil under two spellings. *)
Definition pastaRow : Validator.RecipeRow :=
  Validator.mkRow "Pasta" None
    (Some [Validator.mkIngredient "Olive Oil" 2 "tbsp"; Validator.mkIngredient "Garlic" 1 "clove"]) None.

Definition saladRow : Validator.RecipeRow :=
  Validator.mkRow "Salad" None
    (Some [Validator.mkIngredient "olive  oil!" 1 "tbsp"; Validator.mkIngredient "Lettuce" 1 "head"]) None.

Definition groceryFetch (rid : string) : option Validator.RecipeRow :=
  if String.eqb rid "r1" then Some pastaRow
  else if String.eqb rid "r2" then Some saladRow else None.

Definition adultProfile : Targets.Profile :=
  Targets.mkProfile (Some 70%Q) (Some 175%Q) (Some (Some 1990%Z)) (Some "moderate").

Definition sampleGroceryList : WowLayer.GroceryList :=
  Eval vm_compute in
    match WowLayer.generateSmartGroceryList groceryFetch twoMealPlan with
    | Some gl => gl
    | None => WowLayer.mkGroceryList [] 0
    end.

Definition fourRecipes : list Fallback.Recipe :=
  map Fallback.mkRecipe ["a"; "b"; "c"; "d"].

End ExtraSamples.

(** ** Predicates used in the statements *)

(** The declared nutrition of a fetched recipe is present and reliable. *)
Definition reliableInfo (row : Validator.RecipeRow) : Prop :=
  exists ni, Validator.nutrition_info row = Some ni /\
             Validator.isReliableNutrition ni = true.

(** The counters of [selectDiverseSet] record the counts of the
    selection. *)
Definition countersInv (sel : list Selector.RecipeCandidate) (cc mc : Selector.Counter) : Prop :=
  (forall k, ~ In k JS.objectPrototypeNames ->
     Selector.getCount cc k = Selector.CNum (Selector.cuisineTally k sel)) /\
  (forall m, Selector.getCount mc (Selector.mealTypeName m) = Selector.CNum (Selector.mealTypeOcc m sel)).

(** ** Predicates used in the statements of the further properties *)


Definition passesAt (nutrition : option Refine.MealPlan -> nat -> CouncilUSDA.NutritionOutcome)
    (coherence : option Refine.MealPlan -> nat -> Refine.CoherenceCall) (p : Refine.MealPlan) (k : nat) : bool :=
  Coherence.passAccepted (CouncilUSDA.nr_is_valid (nutrition (Some p) k))
    (Refine.cc_result (coherence (Some p) k)).

Fixpoint spaced (prevSpace : bool) (l : list ascii) : bool :=
  match l with
  | [] => true
  | c :: r =>
      if Ascii.eqb c " " then negb prevSpace && spaced true r
      else WowLayer.isAzDigit c && spaced false r
  end.

Definition noDbl (l : list ascii) : Prop :=
  forall a b, l <> (a ++ " "%char :: " "%char :: b)%list.

Definition okChars (l : list ascii) : Prop :=
  Forall (fun c => WowLayer.isAzDigit c = true \/ c = " "%char) l.

Definition norm (o : string * Validator.Ingredient) : string :=
  WowLayer.normalizeIngredientName (Validator.name (snd o)).

Fixpoint foldOcc (m : list (string * WowLayer.GroceryEntry))
    (os : list (string * Validator.Ingredient)) :=
  match os with
  | [] => Some m
  | (rid, ing) :: r =>
      match WowLayer.addGroceryItem rid m ing with
      | Some m' => foldOcc m' r
      | None => None
      end
  end.

Definition entrySpec (os : list (string * Validator.Ingredient)) (k : string)
    (e : WowLayer.GroceryEntry) : Prop :=
  WowLayer.source_recipes e = map fst (filter (fun o => String.eqb (norm o) k) os) /\
  exists o, find (fun o => String.eqb (norm o) k) os = Some o /\
    WowLayer.g_unit e = Validator.unit (snd o) /\
    WowLayer.g_category e = WowLayer.categorizeIngredient (Validator.name (snd o)) /\
    (WowLayer.g_amount e == WowLayer.groceryAmount k (Validator.unit (snd o)) os)%Q.

Definition storeInv (os : list (string * Validator.Ingredient))
    (m : list (string * WowLayer.GroceryEntry)) : Prop :=
  NoDup (map fst m) /\
  (forall k, match WowLayer.ownEntry m k with
             | None => forall o, In o os -> norm o <> k
             | Some e => entrySpec os k e
             end) /\
  (forall o, In o os -> ~ In (norm o) JS.objectPrototypeNames).

Definition fromPlan (fetch : string -> option WowLayer.PrepRow) (days : list Fallback.DayPlan)
    (r : string) : Prop :=
  exists d meal row, In d days /\ In meal (Fallback.meals d) /\
    fetch (Fallback.recipe_id meal) = Some row /\ WowLayer.p_id row = r.

Definition okTask (fetch : string -> option WowLayer.PrepRow) (days : list Fallback.DayPlan)
    (t : WowLayer.PrepTask) : Prop :=
  WowLayer.suggested_day t = "sunday" /\ NoDup (WowLayer.enables_recipes t) /\
  WowLayer.enables_recipes t <> [] /\
  (forall r, In r (WowLayer.enables_recipes t) -> fromPlan fetch days r).

Definition prepInv (fetch : string -> option WowLayer.PrepRow) (days : list Fallback.DayPlan)
    (st : list WowLayer.PrepTask * list string) : Prop :=
  snd st = map WowLayer.taskKey (fst st) /\ NoDup (snd st) /\ Forall (okTask fetch days) (fst st).

Definition taskLe (a b : WowLayer.PrepTask) : Prop := (WowLayer.compareTasks a b <= 0)%Z.

Definition planRecipeIds (p : Fallback.MealPlan) : list string :=
  flat_map (fun d => map Fallback.recipe_id (Fallback.meals d)) (Fallback.days (Fallback.plan_data p)).

Definition unresolved (resolve : string -> Q -> bool -> option Validator.MealNutrition)
    (opts : Validator.Options) (m : Validator.Meal) : bool :=
  match resolve (Validator.meal_recipe_id m) (JS.orQ (Validator.meal_servings m) 1)
          (Validator.use_usda_fallback opts) with
  | Some _ => false
  | None => true
  end.

(** * Properties *)

(** ** The controller *)

(** No binding named [retry_count] exists in the scope of
    [generateMealPlanWithRetry] (the counter is [retryCount]). *)
Lemma lookup_retry_count_unbound : forall st,
  Controller.lookup (Controller.scopeOf st) "retry_count"
  = Throw (ReferenceError "retry_count").
Proof. intros st. reflexivity. Qed.

Lemma successObject_throws : forall st b r,
  Controller.successObject st b r = Throw (ReferenceError "retry_count").
Proof.
  intros st b r. unfold Controller.successObject.
  rewrite lookup_retry_count_unbound. reflexivity.
Qed.

Lemma failureObject_throws : forall st,
  Controller.failureObject st = Throw (ReferenceError "retry_count").
Proof.
  intros st. unfold Controller.failureObject.
  rewrite lookup_retry_count_unbound. reflexivity.
Qed.

(** An iteration never returns from the function. *)
Lemma iteration_never_returns : forall st r,
  exists st', Controller.iteration st r = inr st'.
Proof.
  intros st r. unfold Controller.iteration.
  destruct r as [err | u1 u2 err | u1 u2 u3 [|]]; simpl;
    try rewrite successObject_throws; simpl; eauto.
Qed.

(** Each iteration that falls through increments [retryCount]. *)
Lemma iteration_increments : forall st r st',
  Controller.iteration st r = inr st' ->
  (Controller.retryCount st' = Controller.retryCount st + 1)%Z.
Proof.
  intros st r st' H. unfold Controller.iteration in H.
  destruct r as [err | u1 u2 err | u1 u2 u3 [|]]; simpl in H;
    try rewrite successObject_throws in H; simpl in H;
    inversion H; subst; reflexivity.
Qed.

Lemma loop_never_returns : forall fuel rounds st,
  exists st', Controller.loop fuel rounds st = inr st'.
Proof.
  induction fuel as [|fuel IH]; intros rounds st; simpl; eauto.
  destruct (Z.ltb _ _); eauto.
  destruct (iteration_never_returns st (rounds (Controller.retryCount st))) as [st' E].
  rewrite E. apply IH.
Qed.

(** The three non-returning iterations leave [retryCount] at 3. *)
Lemma loop_counts_three : forall rounds st,
  Controller.loop 3 rounds Controller.initialState = inr st ->
  Controller.retryCount st = 3%Z.
Proof.
  intros rounds st H. simpl in H.
  destruct (iteration_never_returns Controller.initialState (rounds 0%Z)) as [s1 E1].
  pose proof (iteration_increments _ _ _ E1) as R1. simpl in R1.
  rewrite E1 in H. rewrite R1 in H. simpl in H.
  destruct (iteration_never_returns s1 (rounds 1%Z)) as [s2 E2].
  pose proof (iteration_increments _ _ _ E2) as R2. rewrite R1 in R2. simpl in R2.
  rewrite E2 in H. rewrite R2 in H. simpl in H.
  destruct (iteration_never_returns s2 (rounds 2%Z)) as [s3 E3].
  pose proof (iteration_increments _ _ _ E3) as R3. rewrite R2 in R3. simpl in R3.
  rewrite E3 in H. inversion H; subst. exact R3.
Qed.

(** C1 (code_bug). All three rounds always run, whatever the
    collaborators return. After them, whatever the fallback query returns,
    [generateMealPlanWithRetry] rejects with
    [ReferenceError: retry_count is not defined]. So it never returns the
    fallback result with [used_fallback = true] and [retry_count = 3], and
    it never returns [COMPLETE_FAILURE]: every [return] object reads the
    unbound shorthand [retry_count]. *)
Theorem generate_rejects_with_reference_error : forall rounds weekStart fetched,
  (exists st, Controller.loop 3 rounds Controller.initialState = inr st
              /\ Controller.retryCount st = 3%Z) /\
  Controller.generateMealPlanWithRetry rounds weekStart fetched
  = Throw (ReferenceError "retry_count").
Proof.
  intros rounds weekStart fetched.
  destruct (loop_never_returns 3 rounds Controller.initialState) as [st E].
  split.
  - exists st. split; [exact E | exact (loop_counts_three rounds st E)].
  - unfold Controller.generateMealPlanWithRetry. rewrite E.
    unfold Controller.afterLoop.
    destruct (Fallback.generateFallbackPlan weekStart fetched);
      simpl; try rewrite successObject_throws; apply failureObject_throws.
Qed.

(** ** The fallback plan *)

Lemma nth_error_mod : forall (A : Type) (l : list A) (d : A) k,
  l <> [] ->
  nth_error l (k mod List.length l) = Some (nth (k mod List.length l) l d).
Proof.
  intros A l d k Hl. apply nth_error_nth'.
  apply Nat.mod_upper_bound. destruct l; [contradiction | discriminate].
Qed.

(** C9. With a non-empty fallback pool, the plan has exactly 3 day-slots
    (monday, tuesday, wednesday), each with exactly the 3 meal-slots
    breakfast, lunch, dinner. The recipe of day [d], meal [m] is the pool
    entry at index [(d*3 + m) mod poolSize]. *)
Theorem fallback_plan_three_by_three : forall weekStart rows,
  rows <> [] ->
  exists p,
    Fallback.generateFallbackPlan weekStart (Fallback.FetchData rows) = Normal p /\
    List.length (Fallback.days (Fallback.plan_data p)) = 3 /\
    map Fallback.day (Fallback.days (Fallback.plan_data p)) = Fallback.dayNames /\
    Forall (fun dp => map Fallback.meal_type (Fallback.meals dp) = Fallback.mealTypes)
      (Fallback.days (Fallback.plan_data p)) /\
    forall d m, d < 3 -> m < 3 ->
      exists dp slot r,
        nth_error (Fallback.days (Fallback.plan_data p)) d = Some dp /\
        nth_error (Fallback.meals dp) m = Some slot /\
        nth_error rows ((d * 3 + m) mod List.length rows) = Some r /\
        Fallback.recipe_id slot = Fallback.id r.
Proof.
  intros weekStart rows Hne.
  destruct rows as [|r0 rs]; [contradiction|].
  eexists. split; [reflexivity|].
  split; [reflexivity|]. split; [reflexivity|].
  split; [repeat constructor|].
  intros d m Hd Hm.
  set (rows := r0 :: rs).
  rewrite (nth_error_mod _ rows (Fallback.mkRecipe "") (d * 3 + m)) by discriminate.
  destruct d as [|[|[|d]]]; try lia; destruct m as [|[|[|m]]]; try lia;
    do 3 eexists; repeat split.
Qed.

Lemma fallback_plan_three_by_three_witness :
  [Fallback.mkRecipe "r1"; Fallback.mkRecipe "r2"] <> [] /\
  exists p,
    Fallback.generateFallbackPlan 0%Z
      (Fallback.FetchData [Fallback.mkRecipe "r1"; Fallback.mkRecipe "r2"]) = Normal p /\
    List.length (Fallback.days (Fallback.plan_data p)) = 3 /\
    map Fallback.day (Fallback.days (Fallback.plan_data p)) = Fallback.dayNames /\
    Forall (fun dp => map Fallback.meal_type (Fallback.meals dp) = Fallback.mealTypes)
      (Fallback.days (Fallback.plan_data p)) /\
    forall d m, d < 3 -> m < 3 ->
      exists dp slot r,
        nth_error (Fallback.days (Fallback.plan_data p)) d = Some dp /\
        nth_error (Fallback.meals dp) m = Some slot /\
        nth_error [Fallback.mkRecipe "r1"; Fallback.mkRecipe "r2"] ((d * 3 + m) mod List.length [Fallback.mkRecipe "r1"; Fallback.mkRecipe "r2"]) = Some r /\
        Fallback.recipe_id slot = Fallback.id r.
Proof.
  split; [discriminate|].
  apply (fallback_plan_three_by_three 0%Z _). discriminate.
Defined.

(** ** The threshold rule *)

Lemma forallb4_le : forall (t a b c d : Q),
  forallb (fun x => Qle_bool x t) [a; b; c; d] = true <->
  (a <= t /\ b <= t /\ c <= t /\ d <= t)%Q.
Proof.
  intros t a b c d. simpl.
  rewrite !andb_true_iff, !Qle_bool_iff. tauto.
Qed.

(** C2. For a plan with at least one day:
    - [within_threshold] holds iff each of the four core deviations has
      absolute value at most [deviation_threshold]. The bound is inclusive.
    - [is_valid] is [within_threshold] and, under [require_all_recipes],
      no missing nutrition data.
    The council's [validateNutrition], given plan totals and targets,
    applies the same rule with the fixed threshold 15. Its [is_valid] is the
    threshold result, and its missing-data list is empty. *)
Theorem within_threshold_iff_core_deviations :
  forall resolve planDays targets opts,
  planDays <> [] ->
  let r := Validator.validatePlan resolve planDays targets opts in
  let dv := Validator.target_deviations r in
  let thr := Validator.deviation_threshold opts in
  (Validator.within_threshold r = true <->
     (Qabs (Validator.calories_deviation dv) <= thr /\
      Qabs (Validator.protein_deviation dv) <= thr /\
      Qabs (Validator.fat_deviation dv) <= thr /\
      Qabs (Validator.carbohydrates_deviation dv) <= thr)%Q) /\
  Validator.is_valid r =
    Validator.within_threshold r &&
    (negb (Validator.require_all_recipes opts)
     || Nat.eqb (List.length (Validator.missing_nutrition_data r)) 0) /\
  (forall total tg n,
     let c := Council.validateNutrition (Some total) (Some tg) n in
     List.length (Council.c_deviations c) = 4 /\
     (Council.c_within_15_percent_threshold c = true <->
        Forall (fun dev => Qabs dev <= 15)%Q (Council.c_deviations c)) /\
     Council.c_is_valid c = Council.c_within_15_percent_threshold c /\
     Council.c_missing_nutrition_data c = []).
Proof.
  intros resolve planDays targets opts _ r dv thr.
  split; [|split].
  - subst r dv thr. unfold Validator.validatePlan.
    destruct (fold_left _ planDays _) as [tot missing]. simpl.
    apply forallb4_le.
  - subst r. unfold Validator.validatePlan.
    destruct (fold_left _ planDays _) as [tot missing]. simpl.
    destruct (Validator.require_all_recipes opts); simpl;
      [reflexivity | rewrite andb_true_r; reflexivity].
  - intros total tg n c. subst c. unfold Council.validateNutrition.
    cbn beta iota zeta delta [Council.c_deviations Council.c_is_valid
      Council.c_within_15_percent_threshold Council.c_missing_nutrition_data].
    split; [reflexivity|]. split; [|split; reflexivity].
    rewrite forallb_forall, Forall_forall.
    split; intros H x Hx; specialize (H x Hx).
    + apply Qle_bool_iff. exact H.
    + apply Qle_bool_iff. exact H.
Qed.

Lemma within_threshold_iff_core_deviations_witness :
  Samples.oneDay <> [] /\
  let r := Validator.validatePlan
             (Samples.constResolve (Validator.mkND 11500 100 100 100 0))
             Samples.oneDay Samples.bigTargets Samples.defaultOptions in
  let dv := Validator.target_deviations r in
  let thr := Validator.deviation_threshold Samples.defaultOptions in
  (Validator.within_threshold r = true <->
     (Qabs (Validator.calories_deviation dv) <= thr /\
      Qabs (Validator.protein_deviation dv) <= thr /\
      Qabs (Validator.fat_deviation dv) <= thr /\
      Qabs (Validator.carbohydrates_deviation dv) <= thr)%Q) /\
  Validator.is_valid r =
    Validator.within_threshold r &&
    (negb (Validator.require_all_recipes Samples.defaultOptions)
     || Nat.eqb (List.length (Validator.missing_nutrition_data r)) 0) /\
  (forall total tg n,
     let c := Council.validateNutrition (Some total) (Some tg) n in
     List.length (Council.c_deviations c) = 4 /\
     (Council.c_within_15_percent_threshold c = true <->
        Forall (fun dev => Qabs dev <= 15)%Q (Council.c_deviations c)) /\
     Council.c_is_valid c = Council.c_within_15_percent_threshold c /\
     Council.c_missing_nutrition_data c = []).
Proof.
  split; [discriminate|].
  apply within_threshold_iff_core_deviations. discriminate.
Defined.

(** The boundary: a daily average of 11500 kcal against 10000 kcal is a
    deviation of exactly 15 and is within the threshold; 11501 kcal
    (15.01) is not. *)
Example threshold_boundary_inclusive :
  let r := Validator.validatePlan
             (Samples.constResolve (Validator.mkND 11500 100 100 100 0))
             Samples.oneDay Samples.bigTargets Samples.defaultOptions in
  Qeq_bool (Validator.calories_deviation (Validator.target_deviations r)) 15 = true /\
  Validator.within_threshold r = true /\ Validator.is_valid r = true.
Proof. vm_compute. repeat split. Qed.

Example threshold_boundary_exceeded :
  let r := Validator.validatePlan
             (Samples.constResolve (Validator.mkND 11501 100 100 100 0))
             Samples.oneDay Samples.bigTargets Samples.defaultOptions in
  Qeq_bool (Validator.calories_deviation (Validator.target_deviations r)) (1501 # 100) = true /\
  Validator.within_threshold r = false.
Proof. vm_compute. repeat split. Qed.

(** ** Nutrient resolution tiers *)

Lemma gt0_spec : forall v, JS.gt0 v = true <-> exists c, v = Some c /\ (0 < c)%Q.
Proof.
  intros [c|]; simpl; split.
  - intros H. exists c. split; [reflexivity|].
    apply Qnot_le_lt. intros Hle. apply Qle_bool_iff in Hle. rewrite Hle in H. discriminate.
  - intros [c' [E Hc]]. inversion E; subst.
    destruct (Qle_bool c' 0) eqn:B; [|reflexivity].
    apply Qle_bool_iff in B. exfalso. apply (Qlt_not_le _ _ Hc B).
  - discriminate.
  - intros [c' [E _]]. discriminate.
Qed.

Lemma ge0_spec : forall v, JS.ge0 v = true <-> exists c, v = Some c /\ (0 <= c)%Q.
Proof.
  intros [c|]; simpl; split.
  - intros H. exists c. split; [reflexivity|]. apply Qle_bool_iff. exact H.
  - intros [c' [E Hc]]. inversion E; subst. apply Qle_bool_iff. exact Hc.
  - discriminate.
  - intros [c' [E _]]. discriminate.
Qed.

Lemma validator_reliable_spec : forall ni,
  Validator.isReliableNutrition ni = true <->
  (exists c, Validator.i_calories ni = Some c /\ (0 < c)%Q) /\
  (exists p, Validator.i_protein ni = Some p /\ (0 <= p)%Q) /\
  (exists f, Validator.i_fat ni = Some f /\ (0 <= f)%Q) /\
  (exists k, Validator.i_carbohydrates ni = Some k /\ (0 <= k)%Q).
Proof.
  intros ni. unfold Validator.isReliableNutrition.
  rewrite !andb_true_iff, gt0_spec, !ge0_spec. tauto.
Qed.

Lemma reliableInfo_dec : forall row,
  {reliableInfo row} + {~ reliableInfo row}.
Proof.
  intros row. unfold reliableInfo.
  destruct (Validator.nutrition_info row) as [ni|].
  - destruct (Validator.isReliableNutrition ni) eqn:E.
    + left. eauto.
    + right. intros [ni' [H1 H2]]. inversion H1; subst. congruence.
  - right. intros [ni' [H1 _]]. discriminate.
Qed.

(** In the validator's [calculateMealNutrition], for a fetched recipe:
    - the declared data (method [spoonacular]) is used iff it is present
      and reliable: calories > 0 and protein, fat, carbohydrates >= 0;
    - otherwise, when [use_usda_fallback] is set and the recipe has an
      ingredient list, the per-ingredient computation is used, and the
      keyword estimate only when that computation returned [null];
    - otherwise the meal is unresolved ([null]). *)
Theorem resolution_tier_order : forall fromUSDA rid row s use,
  let res := Validator.calculateMealNutrition fromUSDA rid (Some row) s use in
  (forall ni, Validator.isReliableNutrition ni = true <->
     (exists c, Validator.i_calories ni = Some c /\ (0 < c)%Q) /\
     (exists p, Validator.i_protein ni = Some p /\ (0 <= p)%Q) /\
     (exists f, Validator.i_fat ni = Some f /\ (0 <= f)%Q) /\
     (exists k, Validator.i_carbohydrates ni = Some k /\ (0 <= k)%Q)) /\
  (option_map Validator.calculation_method res = Some Validator.Spoonacular <->
     reliableInfo row) /\
  (~ reliableInfo row ->
     match use, Validator.ingredients row with
     | true, Some ings =>
         option_map Validator.calculation_method res =
           Some (match fromUSDA ings with
                 | Some _ => Validator.UsdaCalculated
                 | None => Validator.Estimated
                 end)
     | _, _ => res = None
     end).
Proof.
  intros fromUSDA rid row s use res.
  split; [exact validator_reliable_spec|].
  assert (Hnot : ~ reliableInfo row ->
     match use, Validator.ingredients row with
     | true, Some ings =>
         option_map Validator.calculation_method res =
           Some (match fromUSDA ings with
                 | Some _ => Validator.UsdaCalculated
                 | None => Validator.Estimated
                 end)
     | _, _ => res = None
     end).
  { intros Hn. subst res. unfold Validator.calculateMealNutrition.
    destruct (Validator.nutrition_info row) as [ni|] eqn:Eni;
      [destruct (Validator.isReliableNutrition ni) eqn:Er;
       [exfalso; apply Hn; exists ni; split; assumption|]|];
      destruct use, (Validator.ingredients row) as [ings|];
      try reflexivity;
      destruct (fromUSDA ings); reflexivity. }
  split; [|exact Hnot].
  split.
  - intros Hm. destruct (reliableInfo_dec row) as [Hr|Hn]; [exact Hr|].
    specialize (Hnot Hn).
    destruct use, (Validator.ingredients row) as [ings|];
      try (rewrite Hnot in Hm; discriminate).
    rewrite Hnot in Hm. destruct (fromUSDA ings); discriminate.
  - intros [ni [E R]]. subst res. unfold Validator.calculateMealNutrition.
    rewrite E, R. reflexivity.
Qed.

Lemma unreliableRow_not_reliable : ~ reliableInfo Samples.unreliableRow.
Proof.
  intros [ni [E R]]. inversion E; subst. vm_compute in R. discriminate.
Qed.

Lemma resolution_tier_order_witness :
  ~ reliableInfo Samples.unreliableRow /\
  option_map Validator.calculation_method
    (Validator.calculateMealNutrition (fun _ => None) "r1"
       (Some Samples.unreliableRow) 1 true) = Some Validator.Estimated.
Proof.
  split; [exact unreliableRow_not_reliable|].
  destruct (resolution_tier_order (fun _ => None) "r1" Samples.unreliableRow 1 true)
    as [_ [_ H]].
  exact (H unreliableRow_not_reliable).
Defined.

Lemma council_reliable_spec : forall ni,
  Council.isReliableNutrition ni = true <->
  (exists c, Validator.i_calories ni = Some c /\ (0 < c)%Q) /\
  (exists p, Validator.i_protein ni = Some p /\ (0 <= p)%Q).
Proof.
  intros ni. unfold Council.isReliableNutrition.
  rewrite andb_true_iff, gt0_spec, ge0_spec. tauto.
Qed.

(** C6. The council's [isReliableNutrition] checks only calories > 0 and
    protein >= 0, not fat or carbohydrates, unlike the validator's. A
    recipe declaring calories 400, protein 20, fat -5 and carbohydrates 50
    is unreliable for the validator, which resolves it from the
    ingredients, while [calculatePlanNutrition] of the council uses the
    declared data, so the plan's fat total is -5 g. *)
Theorem council_reliability_ignores_fat_and_carbs :
  (forall ni, Council.isReliableNutrition ni = true <->
     (exists c, Validator.i_calories ni = Some c /\ (0 < c)%Q) /\
     (exists p, Validator.i_protein ni = Some p /\ (0 <= p)%Q)) /\
  ~ reliableInfo Samples.negativeFatRow /\
  option_map Validator.calculation_method
    (Validator.calculateMealNutrition (fun _ => Some (Validator.mkND 300 25 10 20 0)) "r1"
       (Some Samples.negativeFatRow) 1 true) = Some Validator.UsdaCalculated /\
  (forall ni, Validator.nutrition_info Samples.negativeFatRow = Some ni ->
     Council.isReliableNutrition ni = true) /\
  (Council.t_fat (Council.calculatePlanNutrition (fun _ => Some Samples.negativeFatRow)
     Samples.councilFromUSDA Samples.oneDay) == -5)%Q.
Proof.
  split; [exact council_reliable_spec|].
  split; [intros [ni [E R]]; injection E as <-; vm_compute in R; discriminate R|].
  split; [vm_compute; reflexivity|].
  split; [intros ni E; injection E as <-; vm_compute; reflexivity|].
  vm_compute. reflexivity.
Qed.

(** ** Serving scaling *)






(** ** Unit conversion *)

Lemma assoc_notin : forall own k,
  ~ In k (map fst own) -> JS.assoc own k = None.
Proof.
  induction own as [|[k' v] own IH]; intros k Hk; simpl in *; [reflexivity|].
  destruct (String.eqb k k') eqn:E.
  - apply String.eqb_eq in E. subst. exfalso. apply Hk. left. reflexivity.
  - apply IH. intros H. apply Hk. right. exact H.
Qed.

Lemma existsb_eqb_notin : forall k l,
  ~ In k l -> existsb (String.eqb k) l = false.
Proof.
  intros k l Hk. apply Bool.not_true_is_false. intros H.
  apply existsb_exists in H. destruct H as [x [Hx E]].
  apply String.eqb_eq in E. subst. contradiction.
Qed.

Lemma existsb_eqb_in : forall k l,
  In k l -> existsb (String.eqb k) l = true.
Proof.
  intros k l Hk. apply existsb_exists. exists k. split; [exact Hk|].
  apply String.eqb_refl.
Qed.

Lemma timesFactor_default : forall own amount k,
  ~ In k (map fst own) -> ~ In k JS.objectPrototypeNames ->
  JS.timesFactor amount (JS.getProp own k) = JS.Fin (amount * 100)%Q.
Proof.
  intros own amount k H1 H2. unfold JS.getProp.
  rewrite (assoc_notin own k H1), (existsb_eqb_notin k _ H2). reflexivity.
Qed.

Lemma timesFactor_inherited : forall own amount k,
  ~ In k (map fst own) -> In k JS.objectPrototypeNames ->
  JS.timesFactor amount (JS.getProp own k) = JS.NaN.
Proof.
  intros own amount k H1 H2. unfold JS.getProp.
  rewrite (assoc_notin own k H1), (existsb_eqb_in k _ H2). reflexivity.
Qed.

(** The unit conversions, in five parts.
    - The validator's [convertToGrams] maps every key of its table, g,
      gram, grams, kg, kilogram, oz, ounce, ounces, lb, pound, pounds, cup,
      cups, tbsp, tablespoon, tablespoons, tsp, teaspoon, teaspoons, ml,
      milliliter, milliliters, l, liter and liters, to its fixed factor.
    - Every unit whose lower-cased form is neither a key of the table nor
      a property name inherited from [Object.prototype] is converted to
      [amount * 100]. The same holds for the council's
      [convertToStandardAmount].
    - An inherited name such as [constructor] gives [NaN] in both.
    - The council's table has no entry for ml, milliliter, l, liter,
      kilogram, ounce, tablespoon or teaspoon, so it converts them with the
      100 g default.
    - When [convertToGrams] gives [NaN], [calculateFromUSDA] skips the
      ingredient ([NaN > 0] is false) and goes on with the next one. *)
Theorem unit_conversion_table : forall amount,
  Forall (fun p => Validator.convertToGrams amount (fst p) = JS.Fin (amount * snd p)%Q)
    [("g", 1); ("gram", 1); ("grams", 1);
     ("kg", 1000); ("kilogram", 1000);
     ("oz", 28.35); ("ounce", 28.35); ("ounces", 28.35);
     ("lb", 453.59); ("pound", 453.59); ("pounds", 453.59);
     ("cup", 240); ("cups", 240);
     ("tbsp", 15); ("tablespoon", 15); ("tablespoons", 15);
     ("tsp", 5); ("teaspoon", 5); ("teaspoons", 5);
     ("ml", 1); ("milliliter", 1); ("milliliters", 1);
     ("l", 1000); ("liter", 1000); ("liters", 1000)]%Q /\
  (forall u,
     ~ In (JS.toLowerCase u) (map fst Validator.conversions) ->
     ~ In (JS.toLowerCase u) JS.objectPrototypeNames ->
     Validator.convertToGrams amount u = JS.Fin (amount * 100)%Q) /\
  (forall u,
     ~ In (JS.toLowerCase u) (map fst Council.conversions) ->
     ~ In (JS.toLowerCase u) JS.objectPrototypeNames ->
     Council.convertToStandardAmount amount u = JS.Fin (amount * 100)%Q) /\
  (forall u,
     In (JS.toLowerCase u) JS.objectPrototypeNames ->
     Validator.convertToGrams amount u = JS.NaN /\
     Council.convertToStandardAmount amount u = JS.NaN) /\
  Forall (fun u => Council.convertToStandardAmount amount u = JS.Fin (amount * 100)%Q)
    ["ml"; "milliliter"; "l"; "liter"; "kilogram"; "ounce"; "tablespoon"; "teaspoon"] /\
  (forall lookup acc ing, Validator.convertToGrams (Validator.amount ing) (Validator.unit ing) = JS.NaN ->
     ValidatorUSDA.addIngredient lookup acc ing = acc).
Proof.
  intros amount.
  split; [repeat constructor|].
  split; [intros u H1 H2; apply timesFactor_default; assumption|].
  split; [intros u H1 H2; apply timesFactor_default; assumption|].
  split; [|split; [repeat constructor|]].
  2: { intros lookup acc ing E. unfold ValidatorUSDA.addIngredient.
       destruct (lookup (Validator.name ing)); [rewrite E|]; reflexivity. }
  intros u Hp. split; apply timesFactor_inherited; try exact Hp;
    intros Hin; simpl in Hp, Hin;
    repeat (destruct Hin as [Hin|Hin]; [rewrite <- Hin in Hp; simpl in Hp;
      repeat (destruct Hp as [Hp|Hp]; [discriminate Hp|]); exact Hp|]);
    exact Hin.
Qed.

Lemma unit_conversion_table_witness :
  ~ In (JS.toLowerCase "Furlong") (map fst Validator.conversions) /\
  ~ In (JS.toLowerCase "Furlong") JS.objectPrototypeNames /\
  Validator.convertToGrams 2 "Furlong" = JS.Fin (2 * 100)%Q /\
  In (JS.toLowerCase "Constructor") JS.objectPrototypeNames /\
  Validator.convertToGrams 2 "Constructor" = JS.NaN.
Proof.
  assert (H1 : ~ In (JS.toLowerCase "Furlong") (map fst Validator.conversions))
    by (simpl; intuition discriminate).
  assert (H2 : ~ In (JS.toLowerCase "Furlong") JS.objectPrototypeNames)
    by (simpl; intuition discriminate).
  assert (H3 : In (JS.toLowerCase "Constructor") JS.objectPrototypeNames)
    by (vm_compute; left; reflexivity).
  destruct (unit_conversion_table 2) as [_ [Hd [_ [Hi _]]]].
  refine (conj H1 (conj H2 (conj (Hd "Furlong" H1 H2) (conj H3 _)))).
  exact (proj1 (Hi "Constructor" H3)).
Defined.

(** C8. The default of [convertToGrams] is written
    [conversions[unit.toLowerCase()] || 100], but an inherited
    [Object.prototype] property such as [constructor] is not a missing
    key: [conversions["constructor"]] is the [Object] function, so the
    result is [amount * Object = NaN], not [amount * 100], in the validator
    and in the council. The validator's [calculateFromUSDA] then drops the
    ingredient instead of counting 100 g per unit of amount. Also the
    council's table lacks the millilitre and litre units the claim lists:
    1 ml and 1 liter both convert to 100 g. *)
Lemma unrecognized_unit_not_default :
  ~ In "constructor" (map fst Validator.conversions) /\
  ~ In "constructor" (map fst Council.conversions) /\
  (forall amount, Validator.convertToGrams amount "constructor" = JS.NaN /\
                  Council.convertToStandardAmount amount "constructor" = JS.NaN) /\
  (forall lookup acc, ValidatorUSDA.addIngredient lookup acc
                        (Validator.mkIngredient "flour" 2 "constructor") = acc) /\
  Council.convertToStandardAmount 1 "ml" = JS.Fin 100%Q /\
  Council.convertToStandardAmount 1 "liter" = JS.Fin 100%Q.
Proof.
  split; [simpl; intuition discriminate|].
  split; [simpl; intuition discriminate|].
  split; [intros amount; split; reflexivity|].
  split; [intros lookup acc; unfold ValidatorUSDA.addIngredient;
          cbn [Validator.name Validator.amount Validator.unit];
          destruct (lookup "flour"); reflexivity|].
  split; reflexivity.
Qed.

Lemma existsb_filter : forall (A : Type) (f g : A -> bool) l,
  existsb f (filter g l) = existsb (fun x => g x && f x) l.
Proof.
  intros A f g l. induction l as [|x l IH]; simpl; [reflexivity|].
  destruct (g x); simpl; rewrite IH; reflexivity.
Qed.

Lemma clamp_compat : forall x y : Q, (x == y)%Q ->
  (Qmin (Qmax x 0) 100 == Qmin (Qmax y 0) 100)%Q.
Proof. intros x y H. rewrite H. reflexivity. Qed.

(** C3. For every candidate, blueprint and preferences, the final score
    computed with the criteria of [buildScoringCriteria] is
    [0.3 * base_score + 0.4 * ai_personalization_score], multiplied by 1.3
    when a 'love' rating of the recent ratings has the recipe's id, by 1.1
    when the recipe is premium and the user has premium access, and by 0.7
    when a recent swap has the recipe as its original recipe, then clamped
    to [0, 100]. *)
Theorem final_score_formula : forall c prefs bp,
  let r := Selector.recipe c in
  let loved := existsb (fun x => String.eqb (Selector.rating x) "love" &&
                                 String.eqb (Selector.r_recipe_id x) (Selector.id r))
                 (match Selector.recent_ratings bp with Some l => l | None => [] end) in
  let swapped := existsb (fun x => String.eqb (Selector.original_recipe_id x) (Selector.id r))
                 (match Selector.recent_swaps bp with Some l => l | None => [] end) in
  (Selector.calculateFinalScore c (Selector.buildScoringCriteria bp prefs) bp ==
   Qmin (Qmax ((0.3 * Selector.base_score c + 0.4 * Selector.ai_personalization_score c)
               * (if loved then 1.3 else 1)
               * (if Selector.is_premium r && Selector.access_to_premium_content bp
                  then 1.1 else 1)
               * (if swapped then 0.7 else 1)) 0) 100)%Q.
Proof.
  intros c prefs bp r loved swapped.
  unfold Selector.calculateFinalScore, Selector.getRecentFavoriteBonus,
    Selector.getSwapPenalty, Selector.buildScoringCriteria; cbn [Selector.premium_bonus].
  rewrite existsb_filter. fold r. fold loved. fold swapped.
  apply clamp_compat.
  destruct loved, swapped, (Selector.is_premium r), (Selector.access_to_premium_content bp);
    simpl; ring.
Qed.

(** ** Diversity selection *)

Lemma getCount_bump_same : forall m k,
  Selector.getCount (Selector.bump m k) k =
  match Selector.getCount m k with
  | Selector.CNum n => Selector.CNum (S n) | Selector.COther => Selector.COther end.
Proof. intros m k. unfold Selector.bump, Selector.getCount at 1. simpl. rewrite String.eqb_refl. reflexivity. Qed.

Lemma getCount_bump_other : forall m k k', k <> k' ->
  Selector.getCount (Selector.bump m k') k = Selector.getCount m k.
Proof.
  intros m k k' H. unfold Selector.bump, Selector.getCount at 1. simpl.
  apply String.eqb_neq in H. rewrite H. reflexivity.
Qed.

Lemma sameMealType_iff : forall m x, Selector.sameMealType m x = true <-> x = m.
Proof.
  intros m x. unfold Selector.sameMealType.
  destruct m, x; simpl; split; intros H; (reflexivity || discriminate H).
Qed.

Lemma mealTypeName_not_proto : forall m, ~ In (Selector.mealTypeName m) JS.objectPrototypeNames.
Proof. intros m. destruct m; simpl; intuition discriminate. Qed.

Lemma fold_bump_count : forall l mc m n,
  Selector.getCount mc (Selector.mealTypeName m) = Selector.CNum n ->
  Selector.getCount
    (fold_left (fun acc mt => Selector.bump acc (Selector.mealTypeName mt)) l mc)
    (Selector.mealTypeName m) =
  Selector.CNum (n + List.length (filter (Selector.sameMealType m) l)).
Proof.
  induction l as [|x l IH]; intros mc m n H; simpl.
  - rewrite H. f_equal. lia.
  - destruct (Selector.sameMealType m x) eqn:E.
    + apply sameMealType_iff in E. subst x.
      rewrite (IH _ m (S n)); [f_equal; simpl; lia|].
      rewrite getCount_bump_same, H. reflexivity.
    + rewrite (IH _ m n); [reflexivity|].
      rewrite getCount_bump_other; [exact H|].
      intros Hn. assert (x = m) as Hx.
      { apply sameMealType_iff. unfold Selector.sameMealType. rewrite Hn. apply String.eqb_refl. }
      subst x. rewrite (proj2 (sameMealType_iff m m) eq_refl) in E. discriminate E.
Qed.

Lemma countersInv_nil : countersInv [] [] [].
Proof.
  split.
  - intros k Hk. unfold Selector.getCount. cbn [Selector.ownCount].
    rewrite (existsb_eqb_notin k _ Hk). reflexivity.
  - intros m. unfold Selector.getCount. cbn [Selector.ownCount].
    rewrite (existsb_eqb_notin _ _ (mealTypeName_not_proto m)). reflexivity.
Qed.

Lemma cuisineTally_snoc : forall k sel c,
  Selector.cuisineTally k (sel ++ [c]) =
  Selector.cuisineTally k sel +
  match Selector.cuisineKey (Selector.recipe c) with
  | Some k' => if String.eqb k' k then 1 else 0 | None => 0 end.
Proof.
  intros k sel c. unfold Selector.cuisineTally. rewrite filter_app, length_app. simpl.
  destruct (Selector.cuisineKey (Selector.recipe c)); [destruct (String.eqb s k)|]; reflexivity.
Qed.

Lemma mealTypeOcc_snoc : forall m sel c,
  Selector.mealTypeOcc m (sel ++ [c]) =
  Selector.mealTypeOcc m sel + List.length (filter (Selector.sameMealType m) (Selector.meal_type (Selector.recipe c))).
Proof.
  intros m sel c. induction sel as [|x sel IH]; simpl; [lia|]. rewrite IH. lia.
Qed.

Lemma mealTypeTally_snoc : forall m sel c,
  Selector.mealTypeTally m (sel ++ [c]) =
  Selector.mealTypeTally m sel +
  (if existsb (Selector.sameMealType m) (Selector.meal_type (Selector.recipe c)) then 1 else 0).
Proof.
  intros m sel c. unfold Selector.mealTypeTally. rewrite filter_app, length_app. simpl.
  destruct (existsb _ _); reflexivity.
Qed.

Lemma existsb_le_filter : forall (A : Type) (f : A -> bool) l,
  (if existsb f l then 1 else 0) <= List.length (filter f l).
Proof.
  intros A f l. induction l as [|x l IH]; simpl; [lia|].
  destruct (f x); simpl; [lia|exact IH].
Qed.

Lemma mealTypeTally_le_occ : forall m sel,
  Selector.mealTypeTally m sel <= Selector.mealTypeOcc m sel.
Proof.
  intros m sel. induction sel as [|c sel IH]; [apply le_n|].
  unfold Selector.mealTypeTally in *. cbn [filter Selector.mealTypeOcc fold_right].
  fold (Selector.mealTypeOcc m sel).
  pose proof (existsb_le_filter _ (Selector.sameMealType m) (Selector.meal_type (Selector.recipe c))).
  destruct (existsb _ _); simpl in *; lia.
Qed.

Lemma countersInv_step : forall sel cc mc c,
  countersInv sel cc mc ->
  countersInv (sel ++ [c])
    (match Selector.cuisineKey (Selector.recipe c) with
     | Some k => Selector.bump cc k | None => cc end)
    (fold_left (fun m mt => Selector.bump m (Selector.mealTypeName mt))
       (Selector.meal_type (Selector.recipe c)) mc).
Proof.
  intros sel cc mc c [Hc Hm]. split.
  - intros k Hk. rewrite cuisineTally_snoc.
    destruct (Selector.cuisineKey (Selector.recipe c)) as [k'|].
    + destruct (String.eqb k' k) eqn:E.
      * apply String.eqb_eq in E. subst k'.
        rewrite getCount_bump_same, (Hc k Hk). f_equal. lia.
      * rewrite getCount_bump_other.
        -- rewrite (Hc k Hk). f_equal. lia.
        -- intros ->. rewrite String.eqb_refl in E. discriminate E.
    + rewrite (Hc k Hk). f_equal. lia.
  - intros m. rewrite mealTypeOcc_snoc. apply fold_bump_count. apply Hm.
Qed.

(** Phase one: while fewer than 16 candidates are selected, every candidate
    is accepted. *)
Lemma select_first_sixteen : forall n cands sel cc mc,
  countersInv sel cc mc -> List.length sel + n <= 16 ->
  exists cc' mc', countersInv (sel ++ firstn n cands) cc' mc' /\
    Selector.selectLoop cands sel cc mc =
    Selector.selectLoop (skipn n cands) (sel ++ firstn n cands) cc' mc'.
Proof.
  induction n as [|n IH]; intros cands sel cc mc Hinv Hlen.
  - exists cc, mc. rewrite app_nil_r. split; [exact Hinv | reflexivity].
  - destruct cands as [|c rest].
    + exists cc, mc. simpl. rewrite app_nil_r. split; [exact Hinv | reflexivity].
    + cbn [Selector.selectLoop].
      assert (E1 : Nat.leb Selector.targetCount (List.length sel) = false)
        by (apply Nat.leb_gt; unfold Selector.targetCount; lia).
      assert (E2 : Nat.ltb 15 (List.length sel) = false) by (apply Nat.ltb_ge; lia).
      rewrite E1, E2, andb_false_r.
      destruct (IH rest (app sel [c]) _ _ (countersInv_step sel cc mc c Hinv))
        as [cc' [mc' [Hi He]]].
      { rewrite length_app. simpl. lia. }
      exists cc', mc'. rewrite <- app_assoc in Hi, He. simpl in Hi, He.
      split; [exact Hi | exact He].
Qed.

(** Phase two: once 16 candidates are selected, a candidate is accepted
    only under both caps. *)
Lemma select_after_sixteen : forall cands sel cc mc,
  countersInv sel cc mc -> 16 <= List.length sel -> List.length sel <= 30 ->
  let res := Selector.selectLoop cands sel cc mc in
  (exists tail, res = app sel tail) /\
  List.length res <= 30 /\
  (forall k, ~ In k JS.objectPrototypeNames ->
     Selector.cuisineTally k res <= Nat.max 6 (Selector.cuisineTally k sel)) /\
  (forall m, Selector.mealTypeTally m res <= Nat.max 10 (Selector.mealTypeTally m sel)).
Proof.
  induction cands as [|c rest IH]; intros sel cc mc Hinv H16 H30 res; subst res.
  - cbn [Selector.selectLoop]. split; [exists []; rewrite app_nil_r; reflexivity|].
    split; [exact H30|]. split; intros; apply Nat.le_max_r.
  - cbn [Selector.selectLoop].
    destruct (Nat.leb Selector.targetCount (List.length sel)) eqn:E1.
    { split; [exists []; rewrite app_nil_r; reflexivity|].
      split; [exact H30|]. split; intros; apply Nat.le_max_r. }
    apply Nat.leb_gt in E1. unfold Selector.targetCount in E1.
    assert (E2 : Nat.ltb 15 (List.length sel) = true) by (apply Nat.ltb_lt; lia).
    rewrite E2, andb_true_r.
    destruct (match Selector.cuisineKey (Selector.recipe c) with
              | Some k => Selector.reached (Selector.getCount cc k) Selector.cuisineLimit
              | None => false end) eqn:Ec;
    [cbn [orb andb]; apply IH; assumption|].
    destruct (existsb (fun mt => Selector.reached
                (Selector.getCount mc (Selector.mealTypeName mt)) Selector.mealTypeLimit)
              (Selector.meal_type (Selector.recipe c))) eqn:Em;
    [cbn [orb andb]; apply IH; assumption|].
    cbn [orb andb].
    destruct (IH (app sel [c]) _ _ (countersInv_step sel cc mc c Hinv)) as [[tl Ht] [Hl [Hc Hm]]];
      [rewrite length_app; simpl; lia | rewrite length_app; simpl; lia |].
    destruct Hinv as [Ic Im].
    split; [exists (c :: tl)%list; rewrite Ht, <- app_assoc; reflexivity|].
    split; [exact Hl|]. split.
    + intros k Hk. specialize (Hc k Hk). rewrite cuisineTally_snoc in Hc.
      destruct (Selector.cuisineKey (Selector.recipe c)) as [k'|]; [|lia].
      destruct (String.eqb k' k) eqn:Ek; [|lia].
      apply String.eqb_eq in Ek. subst k'.
      rewrite (Ic k Hk) in Ec. unfold Selector.reached, Selector.cuisineLimit in Ec.
      change (Selector.ceilDiv Selector.targetCount 5) with 6 in Ec.
      apply Nat.leb_gt in Ec. lia.
    + intros m. specialize (Hm m). rewrite mealTypeTally_snoc in Hm.
      destruct (existsb (Selector.sameMealType m) (Selector.meal_type (Selector.recipe c))) eqn:Ex;
        [|lia].
      apply existsb_exists in Ex. destruct Ex as [x [Hx Ex]].
      apply sameMealType_iff in Ex. subst x.
      assert (Hr : Selector.reached (Selector.getCount mc (Selector.mealTypeName m))
                     Selector.mealTypeLimit = false).
      { destruct (Selector.reached _ _) eqn:R; [|reflexivity].
        rewrite <- Em. symmetry. apply existsb_exists. exists m. split; assumption. }
      rewrite (Im m) in Hr. unfold Selector.reached, Selector.mealTypeLimit in Hr.
      change (Selector.ceilDiv Selector.targetCount 3) with 10 in Hr.
      apply Nat.leb_gt in Hr.
      pose proof (mealTypeTally_le_occ m sel). lia.
Qed.

(** C4 (amended). [selectDiverseSet] accepts the first 16 candidates
    (at most 30) without looking at the caps, since it skips a candidate
    only when [selected.length > 15]. After that a candidate is accepted only
    when its cuisine count is below [ceil(30/5) = 6] and each of its meal
    type counts is below [ceil(30/3) = 10]. So the result starts with the
    first 16 candidates, has at most 30 entries, and every cuisine (other
    than a name inherited from [Object.prototype]) and every meal type has
    at most the larger of its cap and its count among the first 16. *)
Theorem diverse_set_caps_after_sixteen : forall cands,
  let res := Selector.selectDiverseSet cands in
  (exists tail, res = app (firstn 16 cands) tail) /\
  List.length res <= 30 /\
  (forall k, ~ In k JS.objectPrototypeNames ->
     Selector.cuisineTally k res <= Nat.max 6 (Selector.cuisineTally k (firstn 16 cands))) /\
  (forall m, Selector.mealTypeTally m res <= Nat.max 10 (Selector.mealTypeTally m (firstn 16 cands))).
Proof.
  intros cands res. subst res. unfold Selector.selectDiverseSet.
  destruct (select_first_sixteen 16 cands [] [] [] countersInv_nil) as [cc [mc [Hi He]]];
    [simpl; lia|].
  rewrite He. cbn [app] in Hi |- *.
  destruct (Nat.le_gt_cases 16 (List.length cands)) as [Hl|Hl].
  - apply select_after_sixteen; [exact Hi| |];
      rewrite firstn_length_le by exact Hl; lia.
  - rewrite (skipn_all2 cands) by lia. cbn [Selector.selectLoop].
    split; [exists []; rewrite app_nil_r; reflexivity|].
    split; [rewrite firstn_all2 by lia; lia|].
    split; intros; apply Nat.le_max_r.
Qed.

Lemma diverse_set_caps_after_sixteen_witness :
  ~ In "italian" JS.objectPrototypeNames /\
  Selector.cuisineTally "italian" (firstn 16 Samples.plainThenItalian) = 0 /\
  Selector.cuisineTally "italian" (Selector.selectDiverseSet Samples.plainThenItalian) = 6 /\
  Selector.cuisineTally "italian" (Selector.selectDiverseSet Samples.plainThenItalian) <=
    Nat.max 6 (Selector.cuisineTally "italian" (firstn 16 Samples.plainThenItalian)).
Proof.
  assert (H : ~ In "italian" JS.objectPrototypeNames) by (simpl; intuition discriminate).
  split; [exact H|].
  split; [vm_compute; reflexivity|].
  split; [vm_compute; reflexivity|].
  exact (proj1 (proj2 (proj2 (diverse_set_caps_after_sixteen Samples.plainThenItalian)))
           "italian" H).
Defined.

(** C4 (counterexample). Seven Italian candidates are all selected: the
    seventh is accepted when six Italian recipes (the cap [ceil(30/5)]) are
    already selected and only six of the target 30 have been accepted. *)
Lemma cuisine_cap_exceeded_early :
  Selector.selectDiverseSet Samples.italianSeven = Samples.italianSeven /\
  Selector.cuisineTally "italian" (firstn 6 Samples.italianSeven) = Selector.cuisineLimit /\
  Selector.cuisineTally "italian" (Selector.selectDiverseSet Samples.italianSeven) = 7.
Proof. vm_compute. split; [reflexivity|]. split; reflexivity. Qed.

(** ** Partial scorer output *)

Lemma selectLoop_incl : forall cands sel cc mc x,
  In x (Selector.selectLoop cands sel cc mc) -> In x sel \/ In x cands.
Proof.
  induction cands as [|c rest IH]; intros sel cc mc x H; [left; exact H|].
  cbn [Selector.selectLoop] in H.
  destruct (Nat.leb _ _); [left; exact H|].
  match type of H with In _ (if ?b then _ else _) => destruct b end.
  - destruct (IH _ _ _ _ H) as [H1|H1]; [left; exact H1 | right; right; exact H1].
  - destruct (IH _ _ _ _ H) as [H1|H1]; [|right; right; exact H1].
    apply in_app_or in H1. destruct H1 as [H1|[H1|[]]]; [left; exact H1|].
    right; left; exact H1.
Qed.

Lemma insertDesc_in : forall c l x, In x (Selector.insertDesc c l) -> x = c \/ In x l.
Proof.
  intros c l x. induction l as [|y l IH]; simpl; intros H.
  - destruct H as [H|[]]; left; symmetry; exact H.
  - destruct (Qle_bool (Selector.final_score c) (Selector.final_score y)).
    + destruct H as [H|H]; [right; left; exact H|].
      destruct (IH H) as [H1|H1]; [left; exact H1 | right; right; exact H1].
    + destruct H as [H|H]; [left; symmetry; exact H | right; exact H].
Qed.

Lemma sort_in : forall l x, In x (Selector.sortByFinalScore l) -> In x l.
Proof.
  unfold Selector.sortByFinalScore.
  assert (G : forall l acc x,
    In x (fold_left (fun acc c => Selector.insertDesc c acc) l acc) -> In x acc \/ In x l).
  { induction l as [|c l IH]; intros acc x H; simpl in H; [left; exact H|].
    destruct (IH _ _ H) as [H1|H1]; [|right; right; exact H1].
    destruct (insertDesc_in _ _ _ H1) as [H2|H2]; [right; left; symmetry; exact H2 | left; exact H2]. }
  intros l x H. destruct (G l [] x H) as [[]|H1]. exact H1.
Qed.

(** C5 (amended). When the response has a [recipe_scores] object, whatever
    its entries, [parseAIScoringResponse] succeeds with one candidate per
    recipe. A recipe without an entry gets base score 50, personalization
    score 50, provisional final score 50 and the penalty reason
    'No AI score available'. [rankAndSelectFinalCandidates] then
    recomputes its final score with [calculateFinalScore] (35 before the
    bonuses), and if the recipe is among the at most 30 selected candidates
    it is that candidate with the recomputed score. *)
Theorem missing_score_defaults : forall scores recipes bp prefs,
  exists cands,
    Selector.parseAIScoringResponse (Some (Some scores)) recipes = Normal cands /\
    map Selector.recipe cands = recipes /\
    (forall r, In r recipes -> Selector.lookupScore scores (Selector.id r) = None ->
       let dflt := Selector.mkCandidate r 50 50 50 [] ["No AI score available"] in
       In dflt cands /\
       (forall c, In c (Selector.rankAndSelectFinalCandidates cands bp prefs) ->
          Selector.recipe c = r ->
          c = Selector.withFinalScore dflt
                (Selector.calculateFinalScore dflt (Selector.buildScoringCriteria bp prefs) bp))).
Proof.
  intros scores recipes bp prefs. eexists. split; [reflexivity|].
  split.
  - rewrite map_map. rewrite <- (map_id recipes) at 2. apply map_ext.
    intros r. destruct (Selector.lookupScore scores (Selector.id r)); reflexivity.
  - intros r Hr Hn dflt. split.
    + apply in_map_iff. exists r. split; [|exact Hr]. rewrite Hn. reflexivity.
    + intros c Hc Hrc. unfold Selector.rankAndSelectFinalCandidates, Selector.selectDiverseSet in Hc.
      destruct (selectLoop_incl _ _ _ _ _ Hc) as [[]|Hc1].
      apply sort_in in Hc1. apply in_map_iff in Hc1. destruct Hc1 as [c0 [E0 Hc0]].
      apply in_map_iff in Hc0. destruct Hc0 as [r0 [E1 Hr0]].
      subst c. assert (Er : r0 = r).
      { rewrite <- Hrc. subst c0. simpl.
        destruct (Selector.lookupScore scores (Selector.id r0)); reflexivity. }
      subst r0 c0. rewrite Hn. reflexivity.
Qed.

Lemma missing_score_defaults_witness :
  In Samples.missingRecipe (Samples.fullRecipes ++ [Samples.missingRecipe])%list /\
  Selector.lookupScore Samples.partialScores (Selector.id Samples.missingRecipe) = None /\
  exists cands,
    Selector.parseAIScoringResponse (Some (Some Samples.partialScores))
      (Samples.fullRecipes ++ [Samples.missingRecipe])%list = Normal cands /\
    In (Selector.mkCandidate Samples.missingRecipe 50 50 50 [] ["No AI score available"]) cands.
Proof.
  assert (H1 : In Samples.missingRecipe (Samples.fullRecipes ++ [Samples.missingRecipe])%list)
    by (apply in_or_app; right; left; reflexivity).
  assert (H2 : Selector.lookupScore Samples.partialScores (Selector.id Samples.missingRecipe) = None)
    by (vm_compute; reflexivity).
  split; [exact H1|]. split; [exact H2|].
  destruct (missing_score_defaults Samples.partialScores
              (Samples.fullRecipes ++ [Samples.missingRecipe])%list
              Samples.plainBlueprint Samples.plainPrefs) as [cands [Hp [_ Hd]]].
  exists cands. split; [exact Hp|].
  exact (proj1 (Hd Samples.missingRecipe H1 H2)).
Defined.

(** C5 (counterexample). With thirty scored recipes (final score 70) and
    one recipe [x] without an entry, [x] is a candidate with score 50 after
    parsing, but its final score is recomputed as 35 and it is not among
    the 30 candidates [rankAndSelectFinalCandidates] returns. *)
Lemma missing_recipe_dropped :
  exists cands,
    Selector.parseAIScoringResponse (Some (Some Samples.partialScores))
      (Samples.fullRecipes ++ [Samples.missingRecipe])%list = Normal cands /\
    In (Selector.mkCandidate Samples.missingRecipe 50 50 50 [] ["No AI score available"]) cands /\
    (Selector.calculateFinalScore
       (Selector.mkCandidate Samples.missingRecipe 50 50 50 [] ["No AI score available"])
       (Selector.buildScoringCriteria Samples.plainBlueprint Samples.plainPrefs)
       Samples.plainBlueprint == 35)%Q /\
    ~ In Samples.missingRecipe
        (map Selector.recipe
           (Selector.rankAndSelectFinalCandidates cands Samples.plainBlueprint Samples.plainPrefs)).
Proof.
  eexists. split; [reflexivity|]. split.
  - apply in_map_iff. exists Samples.missingRecipe. split; [vm_compute; reflexivity|].
    apply in_or_app; right; left; reflexivity.
  - split; [vm_compute; reflexivity|].
    intros H. apply (in_map Selector.id) in H. vm_compute in H.
    repeat (destruct H as [H|H]; [discriminate H|]). exact H.
Qed.

(** ** Coherence rating *)

Lemma parse_rating_cases : forall JP response,
  Coherence.p_rating (Coherence.parseCoherenceResponse JP response) = Coherence.JNumber 0 \/
  exists m v x, Coherence.matchBraces response = Some m /\ JP m = Some v /\
    Coherence.getField v "rating" = Some x /\ Coherence.truthy x = true /\
    Coherence.p_rating (Coherence.parseCoherenceResponse JP response) = x.
Proof.
  intros JP response. unfold Coherence.parseCoherenceResponse.
  destruct (Coherence.matchBraces response) as [m|] eqn:Em; [|left; reflexivity].
  destruct (JP m) as [v|] eqn:Ev; [|left; reflexivity].
  destruct (Coherence.isNull v); [left; reflexivity|].
  cbn [Coherence.p_rating]. unfold Coherence.jsOr.
  destruct (Coherence.getField v "rating") as [x|] eqn:Ex; [|left; reflexivity].
  destruct (Coherence.truthy x) eqn:Et; [|left; reflexivity].
  right. exists m, v, x. repeat split; assumption.
Qed.

Lemma parse_rating_unchanged : forall JP response m v x,
  Coherence.matchBraces response = Some m -> JP m = Some v ->
  Coherence.getField v "rating" = Some x -> Coherence.truthy x = true ->
  Coherence.p_rating (Coherence.parseCoherenceResponse JP response) = x.
Proof.
  intros JP response m v x Hm Hv Hx Ht. unfold Coherence.parseCoherenceResponse.
  rewrite Hm, Hv. destruct v; try discriminate Hx.
  all: cbn [Coherence.isNull Coherence.p_rating]; unfold Coherence.jsOr; rewrite Hx, Ht;
    reflexivity.
Qed.

(** C10 (amended). For every [JSON.parse] and every reply, the parsed
    rating is 0 unless the reply has a [{...}] span that parses to a value
    whose [rating] field is truthy, and then it is that value unchanged,
    whatever its type. A pass is accepted only in that case and only when
    the value coerces to a number [>= 7]; a failed request is never
    accepted. *)
Theorem coherence_rating_defaults : forall JP response,
  (forall m v x, Coherence.matchBraces response = Some m -> JP m = Some v ->
     Coherence.getField v "rating" = Some x -> Coherence.truthy x = true ->
     Coherence.p_rating (Coherence.parseCoherenceResponse JP response) = x) /\
  (Coherence.p_rating (Coherence.parseCoherenceResponse JP response) = Coherence.JNumber 0 \/
   exists m v x, Coherence.matchBraces response = Some m /\ JP m = Some v /\
     Coherence.getField v "rating" = Some x /\ Coherence.truthy x = true /\
     Coherence.p_rating (Coherence.parseCoherenceResponse JP response) = x) /\
  (forall nv, Coherence.passAccepted nv (Coherence.validateCoherence JP (Some response)) = true ->
     exists m v x, Coherence.matchBraces response = Some m /\ JP m = Some v /\
       Coherence.getField v "rating" = Some x /\ Coherence.truthy x = true /\
       Coherence.geSeven x = true) /\
  (forall nv, Coherence.passAccepted nv (Coherence.validateCoherence JP None) = false).
Proof.
  intros JP response. split; [apply parse_rating_unchanged|].
  split; [apply parse_rating_cases|]. split.
  - intros nv H. unfold Coherence.passAccepted, Coherence.validateCoherence in H.
    cbn [Coherence.success Coherence.rating] in H.
    apply andb_prop in H. destruct H as [_ H]. cbn [andb] in H.
    destruct (parse_rating_cases JP response) as [H0|[m [v [x [Hm [Hv [Hx [Ht Hr]]]]]]]].
    + rewrite H0 in H. discriminate H.
    + exists m, v, x. rewrite Hr in H. repeat split; assumption.
  - intros nv. unfold Coherence.passAccepted. simpl. apply andb_false_r.
Qed.

Lemma coherence_rating_defaults_witness :
  Coherence.passAccepted true
    (Coherence.validateCoherence Coherence.JSON_parse (Some Samples.numberRatingReply)) = true /\
  exists m v x, Coherence.matchBraces Samples.numberRatingReply = Some m /\
    Coherence.JSON_parse m = Some v /\ Coherence.getField v "rating" = Some x /\
    Coherence.truthy x = true /\ Coherence.geSeven x = true.
Proof.
  assert (H : Coherence.passAccepted true
    (Coherence.validateCoherence Coherence.JSON_parse (Some Samples.numberRatingReply)) = true)
    by (vm_compute; reflexivity).
  split; [exact H|].
  exact (proj1 (proj2 (proj2 (coherence_rating_defaults Coherence.JSON_parse
           Samples.numberRatingReply))) true H).
Defined.

(** C10 (counterexample). The reply [Review: {"rating": "8"}] has no
    numeric rating: its rating is the string "8", which is truthy and is
    kept. [>= 7] converts it to 8, so the pass is accepted. *)
Lemma string_rating_accepted :
  Coherence.matchBraces Samples.stringRatingReply <> None /\
  Coherence.JSON_parse
    (match Coherence.matchBraces Samples.stringRatingReply with Some m => m | None => "" end) =
    Some (Coherence.JObject [("rating", Coherence.JString "8")]) /\
  Coherence.p_rating (Coherence.parseCoherenceResponse Coherence.JSON_parse Samples.stringRatingReply) =
    Coherence.JString "8" /\
  Coherence.passAccepted true
    (Coherence.validateCoherence Coherence.JSON_parse (Some Samples.stringRatingReply)) = true.
Proof.
  split; [vm_compute; discriminate|].
  split; [vm_compute; reflexivity|].
  split; vm_compute; reflexivity.
Qed.

(** * Further properties *)

(** ** Rounding *)



(** ** The validator's USDA calculation *)

Lemma addIngredient_skip : forall lookup acc ing,
  (lookup (Validator.name ing) = None \/
   (forall g, Validator.convertToGrams (Validator.amount ing) (Validator.unit ing) = JS.Fin g ->
              (g <= 0)%Q)) ->
  ValidatorUSDA.addIngredient lookup acc ing = acc.
Proof.
  intros lookup acc ing [H | H]; unfold ValidatorUSDA.addIngredient.
  - rewrite H. reflexivity.
  - destruct (lookup (Validator.name ing)); [|reflexivity].
    destruct (Validator.convertToGrams _ _) as [g|] eqn:E; [|reflexivity].
    specialize (H g eq_refl). apply Qle_bool_iff in H. rewrite H. reflexivity.
Qed.

(** An ingredient with a non-positive amount, a minor ingredient, one the USDA lookup does not know, or one whose gram weight is not positive adds nothing to the validator's USDA-based nutrition ([calculateFromUSDA]). *)
Theorem calculateFromUSDA_skips : forall lookup l1 l2 ing,
  ((Validator.amount ing <= 0)%Q \/
   ValidatorUSDA.isMinorIngredient (Validator.name ing) = true \/
   lookup (Validator.name ing) = None \/
   (forall g, Validator.convertToGrams (Validator.amount ing) (Validator.unit ing) = JS.Fin g ->
              (g <= 0)%Q)) ->
  ValidatorUSDA.calculateFromUSDA lookup (l1 ++ ing :: l2)
  = ValidatorUSDA.calculateFromUSDA lookup (l1 ++ l2).
Proof.
  intros lookup l1 l2 ing H. unfold ValidatorUSDA.calculateFromUSDA.
  rewrite !filter_app. cbn [filter].
  destruct (negb (Qle_bool (Validator.amount ing) 0)
            && negb (ValidatorUSDA.isMinorIngredient (Validator.name ing))) eqn:K;
    [|reflexivity].
  rewrite !fold_left_app. cbn [fold_left].
  rewrite addIngredient_skip; [reflexivity|].
  destruct H as [H | [H | H]]; [| |exact H].
  - apply Qle_bool_iff in H. rewrite H in K. discriminate.
  - rewrite H in K. rewrite andb_false_r in K. discriminate.
Qed.



(** With the validator's [calculateFromUSDA] as the ingredient tier, which never returns [null], [calculateMealNutrition] never falls back to the keyword estimate. *)
Theorem usda_tier_never_estimates : forall lookup rid row servingsReq useFallback mn,
  Validator.calculateMealNutrition (ValidatorUSDA.calculateFromUSDA lookup) rid row
    servingsReq useFallback = Some mn ->
  Validator.calculation_method mn <> Validator.Estimated.
Proof.
  intros lookup rid row s b mn H. unfold Validator.calculateMealNutrition in H.
  destruct row as [r|]; [|discriminate].
  destruct (Validator.nutrition_info r) as [ni|];
    [destruct (Validator.isReliableNutrition ni)|];
    [ | destruct b, (Validator.ingredients r) | destruct b, (Validator.ingredients r) ];
    cbn [ValidatorUSDA.calculateFromUSDA] in H;
    try discriminate; inversion H; subst; simpl; discriminate.
Qed.

(** ** Lower-casing *)

Lemma lowerChar_idem : forall c, JS.lowerChar (JS.lowerChar c) = JS.lowerChar c.
Proof.
  intros [b0 b1 b2 b3 b4 b5 b6 b7].
  destruct b0, b1, b2, b3, b4, b5, b6, b7; vm_compute; reflexivity.
Qed.

Lemma toLowerCase_idem : forall s, JS.toLowerCase (JS.toLowerCase s) = JS.toLowerCase s.
Proof.
  induction s as [|c s IH]; simpl; [reflexivity|]. rewrite lowerChar_idem, IH. reflexivity.
Qed.

(** [estimateNutrition] and [convertToGrams] lower-case their key first, so the case of the title or of the unit does not matter. *)
Theorem matching_ignores_case : forall t a u,
  Validator.estimateNutrition (JS.toLowerCase t) = Validator.estimateNutrition t /\
  Validator.convertToGrams a (JS.toLowerCase u) = Validator.convertToGrams a u.
Proof.
  intros t a u. unfold Validator.estimateNutrition, Validator.convertToGrams.
  rewrite !toLowerCase_idem. split; reflexivity.
Qed.

(** ** The council's USDA calculation *)

Lemma council_addIngredient_skip : forall lookup acc ing,
  (lookup (Validator.name ing) = None \/
   (forall g, Council.convertToStandardAmount (Validator.amount ing) (Validator.unit ing) = JS.Fin g ->
              (g <= 0)%Q)) ->
  CouncilUSDA.addIngredient lookup acc ing = acc.
Proof.
  intros lookup acc ing [H | H]; unfold CouncilUSDA.addIngredient.
  - rewrite H. reflexivity.
  - destruct (lookup (Validator.name ing)); [|reflexivity].
    destruct (Council.convertToStandardAmount _ _) as [g|] eqn:E; [|reflexivity].
    specialize (H g eq_refl). apply Qle_bool_iff in H. rewrite H. reflexivity.
Qed.

(** In the council's [calculateRecipeNutritionFromUSDA], an ingredient with a non-positive amount, a minor ingredient, one without USDA data, or one whose standard amount is not positive does not change the result. *)
Theorem council_usda_skips : forall lookup t ni s l1 l2 ing,
  ((Validator.amount ing <= 0)%Q \/
   CouncilUSDA.isMinorIngredient (Validator.name ing) = true \/
   lookup (Validator.name ing) = None \/
   (forall g, Council.convertToStandardAmount (Validator.amount ing) (Validator.unit ing) = JS.Fin g ->
              (g <= 0)%Q)) ->
  CouncilUSDA.calculateRecipeNutritionFromUSDA lookup
    (Validator.mkRow t ni (Some (l1 ++ ing :: l2)%list) s)
  = CouncilUSDA.calculateRecipeNutritionFromUSDA lookup
      (Validator.mkRow t ni (Some (l1 ++ l2)%list) s).
Proof.
  intros lookup t ni s l1 l2 ing H. unfold CouncilUSDA.calculateRecipeNutritionFromUSDA.
  cbn [Validator.ingredients].
  rewrite !filter_app. cbn [filter].
  destruct (negb (Qle_bool (Validator.amount ing) 0)
            && negb (CouncilUSDA.isMinorIngredient (Validator.name ing))) eqn:K;
    [|reflexivity].
  rewrite !fold_left_app. cbn [fold_left].
  rewrite council_addIngredient_skip; [reflexivity|].
  destruct H as [H | [H | H]]; [| |exact H].
  - apply Qle_bool_iff in H. rewrite H in K. discriminate.
  - rewrite H in K. rewrite andb_false_r in K. discriminate.
Qed.

Lemma plan_fold_skip : forall fetch fromUSDA pre post d1 d2 meal acc,
  Council.mealContribution fetch fromUSDA meal = None ->
  fold_left (fun acc day =>
      fold_left (fun a m => Council.addContribution a (Council.mealContribution fetch fromUSDA m))
        day acc) (pre ++ (d1 ++ meal :: d2) :: post)%list acc
  = fold_left (fun acc day =>
      fold_left (fun a m => Council.addContribution a (Council.mealContribution fetch fromUSDA m))
        day acc) (pre ++ (d1 ++ d2) :: post)%list acc.
Proof.
  intros fetch fromUSDA pre post d1 d2 meal acc H.
  rewrite !fold_left_app. cbn [fold_left]. rewrite !fold_left_app. cbn [fold_left].
  rewrite H. reflexivity.
Qed.

(** A meal whose recipe is not found, or has neither an ingredient list nor reliable declared nutrition, contributes nothing to the council's plan totals. *)
Theorem meal_without_data_adds_nothing : forall fetch lookup pre post d1 d2 meal,
  (fetch (Validator.meal_recipe_id meal) = None \/
   exists row, fetch (Validator.meal_recipe_id meal) = Some row /\
               Validator.ingredients row = None /\
               (forall ni, Validator.nutrition_info row = Some ni ->
                           Council.isReliableNutrition ni = false)) ->
  Council.calculatePlanNutrition fetch (CouncilUSDA.calculateRecipeNutritionFromUSDA lookup)
    (pre ++ (d1 ++ meal :: d2) :: post)%list
  = Council.calculatePlanNutrition fetch (CouncilUSDA.calculateRecipeNutritionFromUSDA lookup)
      (pre ++ (d1 ++ d2) :: post)%list.
Proof.
  intros fetch lookup pre post d1 d2 meal H. unfold Council.calculatePlanNutrition.
  rewrite plan_fold_skip; [reflexivity|].
  unfold Council.mealContribution.
  destruct H as [H | [row [E [Hi Hr]]]]; rewrite ?H; [reflexivity|].
  rewrite E. unfold CouncilUSDA.calculateRecipeNutritionFromUSDA. rewrite Hi.
  destruct (Validator.nutrition_info row) as [ni|] eqn:N; [|reflexivity].
  rewrite (Hr ni eq_refl). reflexivity.
Qed.

(** ** Nutrition suggestions *)

Lemma nutrition_suggestions_facts : forall cd pd,
  (CouncilUSDA.generateNutritionSuggestions cd pd = [] <->
   (Qabs cd <= 15)%Q /\ (-15 <= pd)%Q) /\
  List.length (CouncilUSDA.generateNutritionSuggestions cd pd) <= 2 /\
  (forall s, In s (CouncilUSDA.generateNutritionSuggestions cd pd) ->
     s = "Add snacks or choose more calorie-dense recipes" \/
     s = "Reduce portion sizes or choose lighter recipes" \/
     s = "Include more protein-rich foods like lean meats, legumes, or dairy").
Proof.
  intros cd pd. unfold CouncilUSDA.generateNutritionSuggestions.
  assert (Hlen : forall a b : list string, List.length a <= 1 -> List.length b <= 1 ->
                 List.length (a ++ b)%list <= 2)
    by (intros a b Ha Hb; rewrite length_app; lia).
  destruct (Qle_bool (Qabs cd) 15) eqn:C.
  - apply Qle_bool_iff in C.
    destruct (Qle_bool (Qabs pd) 15) eqn:P.
    + apply Qle_bool_iff in P. apply Qabs_Qle_condition in P. simpl.
      split; [tauto|]. split; [lia|]. intros s [].
    + destruct (Qle_bool 0 pd) eqn:P0.
      * apply Qle_bool_iff in P0. simpl.
        split; [split; [intros _; split; [exact C|] | reflexivity]|].
        { apply (Qle_trans _ 0); [discriminate | exact P0]. }
        split; [lia|]. intros s [].
      * simpl. split; [|split; [lia|intros s [Hs|[]]; subst; auto]].
        split; [discriminate|]. intros [_ Y]. exfalso.
        assert (Hn : ~ (0 <= pd)%Q) by (intro X; apply Qle_bool_iff in X; congruence).
        assert (Ha : ~ (Qabs pd <= 15)%Q) by (intro X; apply Qle_bool_iff in X; congruence).
        apply Ha. apply Qabs_Qle_condition. split; [exact Y|].
        apply Qlt_le_weak, Qnot_le_lt. intro Z. apply Hn. apply (Qle_trans _ 15); [discriminate|].
        exact Z.
  - assert (Hc : ~ (Qabs cd <= 15)%Q) by (intro X; apply Qle_bool_iff in X; congruence).
    split; [split; [intro X; destruct (Qle_bool cd 0); discriminate | intros [X _]; contradiction]|].
    split.
    + apply Hlen; [destruct (Qle_bool cd 0); simpl; lia|].
      destruct (Qle_bool (Qabs pd) 15); [simpl; lia|]. destruct (Qle_bool 0 pd); simpl; lia.
    + intros s Hs. apply in_app_or in Hs. destruct Hs as [Hs|Hs].
      * destruct (Qle_bool cd 0); destruct Hs as [Hs|[]]; subst; auto.
      * destruct (Qle_bool (Qabs pd) 15); simpl in Hs; [destruct Hs|].
        destruct (Qle_bool 0 pd); simpl in Hs; [destruct Hs|].
        destruct Hs as [Hs|[]]; subst; auto.
Qed.

(** [generateNutritionSuggestions] returns no suggestion exactly when the calorie deviation is within 15 in absolute value and the protein deviation is at least -15; otherwise it returns at most two of its three fixed texts. *)
Theorem suggestions_shape : forall cd pd,
  (CouncilUSDA.generateNutritionSuggestions cd pd = [] <->
   (Qabs cd <= 15)%Q /\ (-15 <= pd)%Q) /\
  List.length (CouncilUSDA.generateNutritionSuggestions cd pd) <= 2 /\
  (forall s, In s (CouncilUSDA.generateNutritionSuggestions cd pd) ->
     s = "Add snacks or choose more calorie-dense recipes" \/
     s = "Reduce portion sizes or choose lighter recipes" \/
     s = "Include more protein-rich foods like lean meats, legumes, or dairy").
Proof. exact nutrition_suggestions_facts. Qed.

Lemma refineLoop_S : forall f n c st,
  Refine.refineLoop (S f) n c st =
  if Nat.ltb (Refine.retryCount st) 3 then
    match Refine.refineRound n c st with
    | inl r => inl r
    | inr st' => Refine.refineLoop f n c st'
    end
  else inr st.
Proof. reflexivity. Qed.

Lemma refineLoop_O : forall n c st, Refine.refineLoop 0 n c st = inr st.
Proof. reflexivity. Qed.

Ltac refine_cases :=
  repeat (first
    [ rewrite refineLoop_S
    | rewrite refineLoop_O
    | progress unfold Refine.refineRound, Refine.improvePlanCoherence, Refine.fixNutritionalIssues
    | progress cbn [Refine.retryCount Refine.currentPlan Refine.lastValidationResult
                    Refine.claudeRequests Refine.totalTokensUsed Refine.totalCostCents
                    Refine.st_success Refine.st_usage Refine.u_requests Refine.u_tokens
                    Refine.u_cost Refine.st_meal_plan Nat.ltb Nat.leb Refine.rr_success
                    Refine.rr_meal_plan Refine.rr_error Refine.rr_claude_requests
                    CouncilUSDA.nr_is_valid CouncilUSDA.nr_suggestions] in *
    | match goal with |- context[if ?b then _ else _] => let E := fresh "E" in destruct b eqn:E end ]).

Ltac rewrite_flags :=
  repeat match goal with H : ?x = _ |- context[?x] => rewrite H end.

Ltac count_q :=
  cbn [filter seq]; rewrite_flags;
  cbn [List.length Z.of_nat Pos.of_succ_nat Pos.succ inject_Z JS.orQ]; ring.

Ltac solve_round :=
  solve [ split; [lia|];
          split; [unfold passesAt, Coherence.passAccepted; rewrite_flags; reflexivity|];
          split; [intros j Hj; destruct j as [|[|]]; try lia;
                  unfold passesAt, Coherence.passAccepted; rewrite_flags; reflexivity|];
          count_q ].

(** When [validateAndRefine] succeeds it returns the assembled plan itself; the first round whose nutrition and coherence checks pass is among the first three, and one Claude request is counted per round whose nutrition check passed. *)
Theorem refine_success_keeps_plan : forall plan u nutrition coherence,
  Refine.rr_success (Refine.validateAndRefine (Refine.Assembled plan u) nutrition coherence) = true ->
  Refine.rr_meal_plan (Refine.validateAndRefine (Refine.Assembled plan u) nutrition coherence)
    = Some plan /\
  exists k, k < 3 /\ passesAt nutrition coherence plan k = true /\
    (forall j, j < k -> passesAt nutrition coherence plan j = false) /\
    (Refine.rr_claude_requests
       (Refine.validateAndRefine (Refine.Assembled plan u) nutrition coherence)
     == JS.orQ (Refine.u_requests u) 0
        + inject_Z (Z.of_nat (List.length
            (filter (fun j => CouncilUSDA.nr_is_valid (nutrition (Some plan) j)) (seq 0 (S k))))))%Q.
Proof.
  intros plan u nutrition coherence.
  unfold Refine.validateAndRefine. refine_cases; intro H; try discriminate;
    (split; [reflexivity|]);
    first [ exists 0; solve_round | exists 1; solve_round | exists 2; solve_round ].
Qed.

(** When no round passes both checks, [validateAndRefine] fails with no plan and the error names the suggestions of the last failing nutrition check, and it counts one Claude request per round whose nutrition check passed. *)
Theorem refine_failure_report : forall plan u nutrition coherence,
  (forall k, k < 3 -> passesAt nutrition coherence plan k = false) ->
  Refine.rr_success (Refine.validateAndRefine (Refine.Assembled plan u) nutrition coherence)
    = false /\
  Refine.rr_meal_plan (Refine.validateAndRefine (Refine.Assembled plan u) nutrition coherence)
    = None /\
  Refine.rr_error (Refine.validateAndRefine (Refine.Assembled plan u) nutrition coherence)
    = Some ("Validation failed after 3 attempts. Last issue: "
            ++ Refine.lastIssue
                 (find (fun o => negb (CouncilUSDA.nr_is_valid o))
                    (map (nutrition (Some plan)) [2; 1; 0]))) /\
  (Refine.rr_claude_requests
     (Refine.validateAndRefine (Refine.Assembled plan u) nutrition coherence)
   == JS.orQ (Refine.u_requests u) 0
      + inject_Z (Z.of_nat (List.length
          (filter (fun j => CouncilUSDA.nr_is_valid (nutrition (Some plan) j)) (seq 0 3)))))%Q.
Proof.
  intros plan u nutrition coherence Hk.
  pose proof (Hk 0 ltac:(lia)) as P0. pose proof (Hk 1 ltac:(lia)) as P1.
  pose proof (Hk 2 ltac:(lia)) as P2. clear Hk.
  unfold passesAt, Coherence.passAccepted in P0, P1, P2.
  unfold Refine.validateAndRefine. refine_cases;
    try (rewrite_flags; discriminate);
    (split; [reflexivity|]); (split; [reflexivity|]);
    (split; [cbn [map find]; rewrite_flags; reflexivity | count_q]).
Qed.

(** When the nutrition check fails only on fat or carbohydrates (or on a protein excess), the council gives no suggestion and [validateAndRefine] reports [Unknown validation error] without any coherence request. *)
Theorem refine_unknown_issue : forall plan u t tg n coherence,
  Council.c_is_valid (Council.validateNutrition (Some t) (Some tg) n) = false ->
  (Qabs (Validator.calculateDeviation (Council.t_calories (Council.calculateDailyAverage t n))
           (Council.c_daily_calories tg)) <= 15)%Q ->
  (-15 <= Validator.calculateDeviation (Council.t_protein (Council.calculateDailyAverage t n))
            (Council.c_daily_protein tg))%Q ->
  Refine.rr_error (Refine.validateAndRefine (Refine.Assembled plan u)
                     (fun _ _ => CouncilUSDA.nutritionResult (Some t) (Some tg) n) coherence)
  = Some "Validation failed after 3 attempts. Last issue: Unknown validation error" /\
  (Refine.rr_claude_requests
     (Refine.validateAndRefine (Refine.Assembled plan u)
        (fun _ _ => CouncilUSDA.nutritionResult (Some t) (Some tg) n) coherence)
   == JS.orQ (Refine.u_requests u) 0)%Q.
Proof.
  intros plan u t tg n coherence Hv Hc Hp.
  assert (Hs : CouncilUSDA.nutritionResult (Some t) (Some tg) n = CouncilUSDA.mkNO false []).
  { unfold CouncilUSDA.nutritionResult.
    assert (Hw : Council.c_within_15_percent_threshold
                   (Council.validateNutrition (Some t) (Some tg) n) = false).
    { rewrite <- Hv. reflexivity. }
    rewrite Hv, Hw. cbn [Council.c_deviations Council.validateNutrition].
    f_equal. apply (proj2 (proj1 (nutrition_suggestions_facts _ _))). split; assumption. }
  rewrite Hs. unfold Refine.validateAndRefine. refine_cases.
  split; [reflexivity | ring].
Qed.

(** ** Normalised ingredient names *)

Lemma lowerChar_keeps_normal : forall c,
  WowLayer.isAzDigit c = true \/ c = " "%char -> JS.lowerChar c = c.
Proof.
  intros c H.
  assert (B : forall c, (WowLayer.isAzDigit c || Ascii.eqb c " ") = true -> JS.lowerChar c = c).
  { intros [b0 b1 b2 b3 b4 b5 b6 b7].
    destruct b0, b1, b2, b3, b4, b5, b6, b7; vm_compute;
      first [intros _; reflexivity | discriminate]. }
  apply B. destruct H as [H|H]; [rewrite H; reflexivity | subst; reflexivity].
Qed.

Lemma azDigit_not_ws : forall c, WowLayer.isAzDigit c = true -> Coherence.isStrWs c = false.
Proof.
  intros [b0 b1 b2 b3 b4 b5 b6 b7].
  destruct b0, b1, b2, b3, b4, b5, b6, b7; vm_compute; first [reflexivity | discriminate].
Qed.

Lemma list_toLowerCase : forall s,
  list_ascii_of_string (JS.toLowerCase s) = map JS.lowerChar (list_ascii_of_string s).
Proof. induction s as [|c s IH]; simpl; [reflexivity|]. rewrite IH. reflexivity. Qed.

Lemma spaced_nodbl : forall l b, spaced b l = true ->
  forall a r, l <> (a ++ " "%char :: " "%char :: r)%list.
Proof.
  intros l b H a. revert l b H. induction a as [|x a IH]; intros l b H r E; subst l.
  - simpl in H. destruct b; simpl in H; discriminate.
  - simpl in H. destruct (Ascii.eqb x " "); apply andb_true_iff in H; destruct H as [_ H];
      exact (IH _ _ H r eq_refl).
Qed.

Lemma collapse_spaced : forall l b,
  Forall (fun c => WowLayer.isAzDigit c = true \/ Coherence.isStrWs c = true) l ->
  spaced b (WowLayer.collapseWs b l) = true /\
  Forall (fun c => WowLayer.isAzDigit c = true \/ c = " "%char) (WowLayer.collapseWs b l).
Proof.
  induction l as [|c l IH]; intros b H; [split; [reflexivity | constructor]|].
  inversion H as [|? ? Hc Hl]; subst. simpl.
  destruct (Coherence.isStrWs c) eqn:W.
  - destruct b.
    + apply IH; exact Hl.
    + destruct (IH true Hl) as [S F]. simpl. split; [exact S | constructor; [right; reflexivity | exact F]].
  - assert (A : WowLayer.isAzDigit c = true) by (destruct Hc; [assumption | congruence]).
    destruct (IH false Hl) as [S F]. split.
    + simpl. destruct (Ascii.eqb c " ") eqn:E.
      * apply Ascii.eqb_eq in E. subst. discriminate.
      * rewrite A. exact S.
    + constructor; [left; exact A | exact F].
Qed.

Lemma dropWs_suffix : forall l, exists p, l = (p ++ Coherence.dropWs l)%list.
Proof.
  induction l as [|c l IH]; [exists []; reflexivity|]. simpl.
  destruct (Coherence.isStrWs c).
  - destruct IH as [p E]. exists (c :: p). simpl. rewrite <- E. reflexivity.
  - exists []. reflexivity.
Qed.

Lemma dropWs_head : forall l,
  match Coherence.dropWs l with [] => True | c :: _ => Coherence.isStrWs c = false end.
Proof.
  induction l as [|c l IH]; [exact I|]. simpl.
  destruct (Coherence.isStrWs c) eqn:W; [exact IH | exact W].
Qed.

Lemma noDbl_suffix : forall p l, noDbl (p ++ l)%list -> noDbl l.
Proof.
  intros p l H a b E. apply (H (p ++ a)%list b). rewrite E, app_assoc. reflexivity.
Qed.

Lemma noDbl_rev : forall l, noDbl l -> noDbl (rev l).
Proof.
  intros l H a b E. apply (H (rev b) (rev a)).
  rewrite <- (rev_involutive l), E. rewrite rev_app_distr. simpl.
  rewrite <- !app_assoc. reflexivity.
Qed.

Lemma okChars_suffix : forall p l, okChars (p ++ l)%list -> okChars l.
Proof. intros p l H. apply Forall_app in H. apply H. Qed.

Lemma head_not_space : forall l,
  match l with [] => True | c :: _ => Coherence.isStrWs c = false end ->
  hd_error l <> Some " "%char.
Proof. intros [|c l] H; simpl; [discriminate|]. intro E. inversion E; subst. discriminate. Qed.

Lemma trimWs_normal : forall l, okChars l -> noDbl l -> WowLayer.normalName (Coherence.trimWs l).
Proof.
  intros l Hc Hd. unfold Coherence.trimWs.
  destruct (dropWs_suffix l) as [p1 E1].
  set (l1 := Coherence.dropWs l) in *.
  assert (C1 : okChars l1) by (apply (okChars_suffix p1); rewrite <- E1; exact Hc).
  assert (D1 : noDbl l1) by (apply (noDbl_suffix p1); rewrite <- E1; exact Hd).
  assert (H1 := dropWs_head l). fold l1 in H1.
  destruct (dropWs_suffix (rev l1)) as [p3 E3].
  set (l3 := Coherence.dropWs (rev l1)) in *.
  assert (C3 : okChars l3)
    by (apply (okChars_suffix p3); rewrite <- E3; apply Forall_rev; exact C1).
  assert (D3 : noDbl l3)
    by (apply (noDbl_suffix p3); rewrite <- E3; apply noDbl_rev; exact D1).
  assert (H3 := dropWs_head (rev l1)). fold l3 in H3.
  split; [apply Forall_rev; exact C3|].
  split; [apply noDbl_rev; exact D3|].
  split.
  - destruct l3 as [|c3 r3] eqn:L3; [simpl; discriminate|].
    assert (R : rev l1 = (p3 ++ l3)%list) by (rewrite L3; exact E3).
    assert (R' : l1 = (rev l3 ++ rev p3)%list)
      by (rewrite <- rev_app_distr, <- R, rev_involutive; reflexivity).
    rewrite L3 in R'. rewrite R' in H1. simpl in H1 |- *.
    destruct (rev r3 ++ [c3])%list as [|x xs] eqn:X.
    + destruct (rev r3); discriminate.
    + simpl in H1. apply head_not_space. exact H1.
  - rewrite rev_involutive. apply head_not_space. exact H3.
Qed.

Lemma removeOthers_chars : forall l,
  Forall (fun c => WowLayer.isAzDigit c = true \/ Coherence.isStrWs c = true)
    (WowLayer.removeOthers l).
Proof.
  intro l. apply Forall_forall. intros c Hc. unfold WowLayer.removeOthers in Hc.
  apply filter_In in Hc. destruct Hc as [_ Hc]. apply orb_true_iff in Hc. exact Hc.
Qed.

Lemma normalize_is_normal : forall s,
  WowLayer.normalName (list_ascii_of_string (WowLayer.normalizeIngredientName s)).
Proof.
  intro s. unfold WowLayer.normalizeIngredientName.
  rewrite list_ascii_of_string_of_list_ascii.
  destruct (collapse_spaced (WowLayer.removeOthers (list_ascii_of_string (JS.toLowerCase s))) false
              (removeOthers_chars _)) as [S F].
  apply trimWs_normal; [exact F|].
  intros a b. apply (spaced_nodbl _ false S).
Qed.

Lemma normal_removeOthers : forall l, okChars l -> WowLayer.removeOthers l = l.
Proof.
  induction l as [|c l IH]; intro H; [reflexivity|].
  inversion H as [|? ? Hc Hl]; subst. unfold WowLayer.removeOthers. simpl.
  replace (WowLayer.isAzDigit c || Coherence.isStrWs c) with true.
  - f_equal. apply IH. exact Hl.
  - destruct Hc as [Hc|Hc]; [rewrite Hc; reflexivity | subst; reflexivity].
Qed.

Lemma normal_collapse : forall l b, okChars l -> noDbl l ->
  (b = true -> hd_error l <> Some " "%char) -> WowLayer.collapseWs b l = l.
Proof.
  induction l as [|c l IH]; intros b Hc Hd Hh; [reflexivity|].
  inversion Hc as [|? ? Hc0 Hl]; subst. simpl.
  assert (Dl : noDbl l) by (apply (noDbl_suffix [c]); exact Hd).
  destruct Hc0 as [A|A].
  - rewrite (azDigit_not_ws c A). f_equal. apply IH; [exact Hl | exact Dl | discriminate].
  - subst c. replace (Coherence.isStrWs " ") with true by reflexivity.
    destruct b.
    + exfalso. apply (Hh eq_refl). reflexivity.
    + f_equal. apply IH; [exact Hl | exact Dl|]. intros _.
      destruct l as [|d l]; [simpl; discriminate|]. simpl. intro E. inversion E; subst.
      apply (Hd [] l). reflexivity.
Qed.

Lemma normal_dropWs : forall l, hd_error l <> Some " "%char -> okChars l ->
  Coherence.dropWs l = l.
Proof.
  intros [|c l] Hh Hc; [reflexivity|]. simpl.
  inversion Hc as [|? ? Hc0 _]; subst.
  destruct Hc0 as [A|A]; [rewrite (azDigit_not_ws c A); reflexivity|].
  subst. exfalso. apply Hh. reflexivity.
Qed.

Lemma normal_fixed : forall l, WowLayer.normalName l ->
  Coherence.trimWs (WowLayer.collapseWs false (WowLayer.removeOthers (map JS.lowerChar l))) = l.
Proof.
  intros l [Hc [Hd [Hh Ht]]].
  assert (M : map JS.lowerChar l = l).
  { clear Hd Hh Ht. induction Hc as [|c l Hc0 _ IH]; [reflexivity|].
    simpl. rewrite lowerChar_keeps_normal by exact Hc0. rewrite IH. reflexivity. }
  rewrite M, normal_removeOthers by exact Hc.
  rewrite normal_collapse by (exact Hc || exact Hd || discriminate).
  unfold Coherence.trimWs. rewrite (normal_dropWs l Hh Hc).
  rewrite normal_dropWs; [apply rev_involutive | exact Ht | apply Forall_rev; exact Hc].
Qed.

(** [normalizeIngredientName] returns small letters, digits and single inner spaces only; it leaves a name unchanged exactly when the name is already of that form, and it is idempotent. *)
Theorem normalizeIngredientName_normal_form : forall s,
  WowLayer.normalName (list_ascii_of_string (WowLayer.normalizeIngredientName s)) /\
  (WowLayer.normalizeIngredientName s = s <-> WowLayer.normalName (list_ascii_of_string s)) /\
  WowLayer.normalizeIngredientName (WowLayer.normalizeIngredientName s)
  = WowLayer.normalizeIngredientName s.
Proof.
  intro s.
  assert (Fix : forall t, WowLayer.normalName (list_ascii_of_string t) ->
                WowLayer.normalizeIngredientName t = t).
  { intros t Ht. unfold WowLayer.normalizeIngredientName.
    rewrite list_toLowerCase, normal_fixed by exact Ht.
    apply string_of_list_ascii_of_string. }
  split; [apply normalize_is_normal|]. split.
  - split; [intro E; rewrite <- E; apply normalize_is_normal | apply Fix].
  - apply Fix, normalize_is_normal.
Qed.

(** ** Categories *)

Lemma firstCategory_prefix : forall s l1 k c l2,
  JSString.includes s k = true ->
  exists c', WowLayer.firstCategory s (l1 ++ (k, c) :: l2)%list = Some c' /\
             In c' (c :: map snd l1).
Proof.
  intros s l1 k c l2 H. induction l1 as [|[k' c'] l1 IH]; simpl.
  - rewrite H. exists c. split; [reflexivity | left; reflexivity].
  - destruct (JSString.includes s k').
    + exists c'. split; [reflexivity | right; left; reflexivity].
    + destruct IH as [c0 [E I]]. exists c0. split; [exact E|].
      destruct I as [I|I]; [left; exact I | right; right; exact I].
Qed.

Lemma firstCategory_none : forall s l, WowLayer.firstCategory s l = None ->
  forall k c, In (k, c) l -> JSString.includes s k = false.
Proof.
  intros s l H k c I. induction l as [|[k' c'] l IH]; [destruct I|].
  simpl in H. destruct (JSString.includes s k') eqn:E; [discriminate|].
  destruct I as [I|I]; [inversion I; subst; exact E | exact (IH H I)].
Qed.

(** In [categorizeIngredient] the earlier table keys shadow the later ones: a name containing garlic is Produce (also garlic powder), and a name containing oil is never Spices or Condiments (also olive oil); without a table match the sauce/dressing default applies. *)
Theorem categorizeIngredient_shadowing : forall n,
  (JSString.includes (JS.toLowerCase n) "garlic" = true ->
   WowLayer.categorizeIngredient n = WowLayer.Produce) /\
  (JSString.includes (JS.toLowerCase n) "oil" = true ->
   WowLayer.categorizeIngredient n <> WowLayer.Spices /\
   WowLayer.categorizeIngredient n <> WowLayer.Condiments) /\
  (WowLayer.firstCategory (JS.toLowerCase n) WowLayer.categories = None ->
   WowLayer.categorizeIngredient n =
   if JSString.includes (JS.toLowerCase n) "sauce"
      || JSString.includes (JS.toLowerCase n) "dressing"
   then WowLayer.Condiments else WowLayer.Pantry).
Proof.
  intro n. unfold WowLayer.categorizeIngredient.
  set (s := JS.toLowerCase n).
  split; [|split].
  - intro H.
    assert (E : WowLayer.categories =
                (firstn 1 WowLayer.categories ++ ("garlic", WowLayer.Produce)
                   :: skipn 2 WowLayer.categories)%list) by reflexivity.
    destruct (firstCategory_prefix s (firstn 1 WowLayer.categories) "garlic" WowLayer.Produce
                (skipn 2 WowLayer.categories) H) as [c [F I]].
    rewrite E, F. cbn in I. intuition congruence.
  - intro H.
    assert (E : WowLayer.categories =
                (firstn 29 WowLayer.categories ++ ("oil", WowLayer.Pantry)
                   :: skipn 30 WowLayer.categories)%list) by reflexivity.
    destruct (firstCategory_prefix s (firstn 29 WowLayer.categories) "oil" WowLayer.Pantry
                (skipn 30 WowLayer.categories) H) as [c [F I]].
    rewrite E, F. cbn in I. intuition congruence.
  - intro H. rewrite H.
    assert (K : forall k c, In (k, c) WowLayer.categories -> JSString.includes s k = false)
      by exact (firstCategory_none s _ H).
    rewrite (K "cheese" WowLayer.DairyEggs), (K "milk" WowLayer.DairyEggs),
      (K "butter" WowLayer.DairyEggs), (K "chicken" WowLayer.MeatSeafood),
      (K "beef" WowLayer.MeatSeafood), (K "fish" WowLayer.MeatSeafood),
      (K "oil" WowLayer.Pantry) by (cbn; tauto).
    reflexivity.
Qed.

(** ** Grocery list *)

Lemma addGroceryItems_foldOcc : forall rid l m,
  WowLayer.addGroceryItems rid m l = foldOcc m (map (pair rid) l).
Proof.
  intros rid l. induction l as [|x l IH]; intro m; simpl; [reflexivity|].
  destruct (WowLayer.addGroceryItem rid m x); [apply IH | reflexivity].
Qed.

Lemma foldOcc_app : forall a b m,
  foldOcc m (a ++ b)%list = match foldOcc m a with Some m' => foldOcc m' b | None => None end.
Proof.
  induction a as [|[rid ing] a IH]; intros b m; simpl; [reflexivity|].
  destruct (WowLayer.addGroceryItem rid m ing); [apply IH | reflexivity].
Qed.

Lemma groceryMeals_foldOcc : forall fetch meals m,
  WowLayer.groceryMeals fetch m meals =
  if existsb (WowLayer.mealHasNull fetch) meals then None
  else foldOcc m (flat_map (WowLayer.mealOccurrences fetch) meals).
Proof.
  intros fetch meals. induction meals as [|meal r IH]; intro m; [reflexivity|].
  simpl. unfold WowLayer.groceryMeal, WowLayer.mealHasNull, WowLayer.mealOccurrences.
  destruct (fetch (Fallback.recipe_id meal)) as [recipe|]; [|apply IH].
  destruct (Validator.ingredients recipe) as [ings|]; [|reflexivity].
  simpl. rewrite addGroceryItems_foldOcc, foldOcc_app.
  destruct (foldOcc m (map (pair (Fallback.recipe_id meal)) ings)) as [m'|].
  - apply IH.
  - destruct (existsb _ r); reflexivity.
Qed.

Lemma groceryDays_foldOcc : forall fetch days m,
  WowLayer.groceryDays fetch m days =
  if WowLayer.hasNullIngredients fetch days then None
  else foldOcc m (WowLayer.groceryOccurrences fetch days).
Proof.
  intros fetch days. induction days as [|d r IH]; intro m; [reflexivity|].
  unfold WowLayer.hasNullIngredients, WowLayer.groceryOccurrences in *. simpl.
  rewrite groceryMeals_foldOcc, foldOcc_app.
  destruct (existsb (WowLayer.mealHasNull fetch) (Fallback.meals d)); [reflexivity|].
  simpl. destruct (foldOcc m _) as [m'|].
  - apply IH.
  - destruct (existsb _ r); reflexivity.
Qed.

Lemma ownEntry_setEntry : forall m k v k',
  WowLayer.ownEntry (WowLayer.setEntry m k v) k' =
  if String.eqb k' k then Some v else WowLayer.ownEntry m k'.
Proof.
  induction m as [|[k0 v0] m IH]; intros k v k'; simpl.
  - reflexivity.
  - destruct (String.eqb k k0) eqn:E.
    + apply String.eqb_eq in E. subst. simpl. destruct (String.eqb k' k0); reflexivity.
    + simpl. rewrite IH. destruct (String.eqb k' k0) eqn:E0; [|reflexivity].
      apply String.eqb_eq in E0. subst.
      destruct (String.eqb k0 k) eqn:E1; [|reflexivity].
      apply String.eqb_eq in E1. subst. rewrite String.eqb_refl in E. discriminate.
Qed.

Lemma ownEntry_None : forall m k, WowLayer.ownEntry m k = None <-> ~ In k (map fst m).
Proof.
  induction m as [|[k0 v0] m IH]; intro k; simpl; [tauto|].
  destruct (String.eqb k k0) eqn:E.
  - apply String.eqb_eq in E. subst. split; [discriminate | intro H; exfalso; apply H; left; reflexivity].
  - rewrite IH. apply String.eqb_neq in E. split; [intros H [H'|H']; [congruence | tauto] | tauto].
Qed.

Lemma setEntry_keys_old : forall m k v, In k (map fst m) ->
  map fst (WowLayer.setEntry m k v) = map fst m.
Proof.
  induction m as [|[k0 v0] m IH]; intros k v H; simpl in *; [destruct H|].
  destruct (String.eqb k k0) eqn:E.
  - apply String.eqb_eq in E. subst. reflexivity.
  - simpl. f_equal. apply IH. destruct H as [H|H]; [|exact H].
    subst. rewrite String.eqb_refl in E. discriminate.
Qed.

Lemma setEntry_keys_new : forall m k v, ~ In k (map fst m) ->
  map fst (WowLayer.setEntry m k v) = (map fst m ++ [k])%list.
Proof.
  induction m as [|[k0 v0] m IH]; intros k v H; simpl in *; [reflexivity|].
  destruct (String.eqb k k0) eqn:E.
  - apply String.eqb_eq in E. subst. exfalso. apply H. left. reflexivity.
  - simpl. f_equal. apply IH. tauto.
Qed.

Lemma ownEntry_In : forall m k e, NoDup (map fst m) ->
  (In (k, e) m <-> WowLayer.ownEntry m k = Some e).
Proof.
  induction m as [|[k0 v0] m IH]; intros k e D; simpl; [split; [tauto | discriminate]|].
  inversion D as [|? ? N D']; subst.
  destruct (String.eqb k k0) eqn:E.
  - apply String.eqb_eq in E. subst. split.
    + intros [H|H]; [inversion H; reflexivity|].
      exfalso. apply N. apply (in_map fst) in H. exact H.
    + intro H. inversion H. left. reflexivity.
  - rewrite <- IH by exact D'. apply String.eqb_neq in E.
    split; [intros [H|H]; [inversion H; congruence | exact H] | intro H; right; exact H].
Qed.

Lemma groceryAmount_app : forall k u a b,
  (WowLayer.groceryAmount k u (a ++ b)%list ==
   WowLayer.groceryAmount k u a + WowLayer.groceryAmount k u b)%Q.
Proof.
  intros k u a b. induction a as [|[rid ing] a IH]; simpl; [ring|].
  rewrite IH. ring.
Qed.

Lemma groceryAmount_none : forall k u os, (forall o, In o os -> norm o <> k) ->
  (WowLayer.groceryAmount k u os == 0)%Q.
Proof.
  intros k u os. induction os as [|[rid ing] os IH]; intro H; simpl; [reflexivity|].
  assert (N : norm (rid, ing) <> k) by (apply H; left; reflexivity).
  unfold norm in N. simpl in N. apply String.eqb_neq in N. rewrite N. simpl.
  rewrite IH; [ring|]. intros o I. apply H. right. exact I.
Qed.

Lemma find_app_none : forall {A} (f : A -> bool) a b,
  find f a = None -> find f (a ++ b)%list = find f b.
Proof. intros A f a b. induction a as [|x a IH]; simpl; [reflexivity|]. destruct (f x); [discriminate | exact IH]. Qed.

Lemma find_app_some : forall {A} (f : A -> bool) a b x,
  find f a = Some x -> find f (a ++ b)%list = Some x.
Proof. intros A f a b y. induction a as [|x a IH]; simpl; [discriminate|]. destruct (f x); [exact id | exact IH]. Qed.

Lemma find_none_all : forall {A} (f : A -> bool) l, (forall x, In x l -> f x = false) -> find f l = None.
Proof.
  intros A f l H. induction l as [|x l IH]; simpl; [reflexivity|].
  rewrite (H x (or_introl eq_refl)). apply IH. intros y I. apply H. right. exact I.
Qed.

Lemma filter_all_false : forall {A} (f : A -> bool) l,
  (forall x, In x l -> f x = false) -> filter f l = [].
Proof.
  intros A f l H. induction l as [|x l IH]; simpl; [reflexivity|].
  rewrite (H x (or_introl eq_refl)). apply IH. intros y I. apply H. right. exact I.
Qed.

Lemma existsb_eqb_In : forall k l, existsb (String.eqb k) l = true <-> In k l.
Proof.
  intros k l. rewrite existsb_exists. split.
  - intros [x [I E]]. apply String.eqb_eq in E. subst. exact I.
  - intro I. exists k. split; [exact I | apply String.eqb_refl].
Qed.

Lemma foldOcc_step : forall os x,
  foldOcc [] (os ++ [x])%list =
  match foldOcc [] os with
  | Some m => WowLayer.addGroceryItem (fst x) m (snd x)
  | None => None
  end.
Proof.
  intros os [rid ing]. rewrite foldOcc_app. destruct (foldOcc [] os); [|reflexivity].
  simpl. destruct (WowLayer.addGroceryItem rid l ing); reflexivity.
Qed.

Lemma foldOcc_spec : forall os,
  match foldOcc [] os with
  | Some m => storeInv os m
  | None => exists o, In o os /\ In (norm o) JS.objectPrototypeNames
  end.
Proof.
  induction os as [|x os IH] using rev_ind.
  - simpl. split; [constructor|]. split; [intros k o []|intros o []].
  - rewrite foldOcc_step. destruct (foldOcc [] os) as [m|].
    2:{ destruct IH as [o [I P]]. exists o. split; [apply in_or_app; left; exact I | exact P]. }
    destruct IH as [D [S P]]. destruct x as [rid ing].
    unfold WowLayer.addGroceryItem. cbn [fst snd].
    set (k := WowLayer.normalizeIngredientName (Validator.name ing)).
    assert (Nx : norm (rid, ing) = k) by reflexivity.
    assert (Fx : forall k', String.eqb (norm (rid, ing)) k' = String.eqb k k')
      by (intro; rewrite Nx; reflexivity).
    destruct (WowLayer.ownEntry m k) as [e|] eqn:O.
    + (* an existing key *)
      assert (Se := S k). rewrite O in Se. destruct Se as [Src [o [Fo [U [C A]]]]].
      assert (Io : In o os /\ norm o = k).
      { apply find_some in Fo. destruct Fo as [I E]. apply String.eqb_eq in E. tauto. }
      split; [|split].
      * rewrite setEntry_keys_old; [exact D|].
        destruct (in_dec string_dec k (map fst m)) as [I|I]; [exact I|].
        apply ownEntry_None in I. congruence.
      * intro k'. rewrite ownEntry_setEntry.
        destruct (String.eqb k' k) eqn:E.
        -- apply String.eqb_eq in E. subst k'. split.
           ++ cbn. rewrite Src, filter_app. cbn [filter]. rewrite Fx, String.eqb_refl.
              rewrite map_app. reflexivity.
           ++ exists o. split; [apply find_app_some; exact Fo|]. cbn.
              split; [exact U|]. split; [exact C|].
              rewrite groceryAmount_app. cbn [WowLayer.groceryAmount snd].
              fold k. rewrite String.eqb_refl. rewrite U. rewrite (String.eqb_sym (Validator.unit ing)).
              destruct (String.eqb (Validator.unit (snd o)) (Validator.unit ing)); cbn [andb];
                rewrite A; ring.
        -- assert (Sk := S k'). destruct (WowLayer.ownEntry m k') as [e'|].
           ++ destruct Sk as [Src' [o' [Fo' [U' [C' A']]]]]. split.
              ** rewrite Src', filter_app. cbn [filter]. rewrite Fx.
                 rewrite String.eqb_sym, E. rewrite app_nil_r. reflexivity.
              ** exists o'. split; [apply find_app_some; exact Fo'|].
                 split; [exact U'|]. split; [exact C'|].
                 rewrite groceryAmount_app. cbn [WowLayer.groceryAmount snd]. fold k.
                 rewrite String.eqb_sym in E. rewrite E. cbn [andb]. rewrite A'. ring.
           ++ intros o0 I. apply in_app_or in I. destruct I as [I|[I|[]]].
              ** exact (Sk o0 I).
              ** subst o0. rewrite Nx. apply String.eqb_neq in E. congruence.
      * intros o0 I. apply in_app_or in I. destruct I as [I|[I|[]]]; [exact (P o0 I)|].
        subst o0. rewrite Nx. destruct Io as [Io No]. rewrite <- No. apply P. exact Io.
    + destruct (existsb (String.eqb k) JS.objectPrototypeNames) eqn:Pk.
      * exists (rid, ing). split; [apply in_or_app; right; left; reflexivity|].
        rewrite Nx. apply existsb_eqb_In. exact Pk.
      * assert (NI : ~ In k (map fst m)) by (apply ownEntry_None; exact O).
        split; [|split].
        -- rewrite setEntry_keys_new by exact NI. apply NoDup_app; [exact D | constructor; [intros []| constructor] |].
           intros y Iy [Ey|[]]. subst y. contradiction.
        -- intro k'. rewrite ownEntry_setEntry.
           assert (Sk := S k').
           destruct (String.eqb k' k) eqn:E.
           ++ apply String.eqb_eq in E. subst k'. rewrite O in Sk. split.
              ** cbn. rewrite filter_app. cbn [filter]. rewrite Fx, String.eqb_refl.
                 rewrite filter_all_false; [reflexivity|].
                 intros o I. apply String.eqb_neq. apply Sk. exact I.
              ** exists (rid, ing). split.
                 { rewrite find_app_none; [cbn; rewrite Fx, String.eqb_refl; reflexivity|].
                   apply find_none_all. intros o I. apply String.eqb_neq. apply Sk. exact I. }
                 cbn. split; [reflexivity|]. split; [reflexivity|].
                 rewrite groceryAmount_app, groceryAmount_none by exact Sk.
                 cbn [WowLayer.groceryAmount snd]. fold k. rewrite !String.eqb_refl. cbn [andb]. ring.
           ++ destruct (WowLayer.ownEntry m k') as [e'|].
              ** destruct Sk as [Src' [o' [Fo' [U' [C' A']]]]]. split.
                 --- rewrite Src', filter_app. cbn [filter]. rewrite Fx.
                     rewrite String.eqb_sym, E. rewrite app_nil_r. reflexivity.
                 --- exists o'. split; [apply find_app_some; exact Fo'|].
                     split; [exact U'|]. split; [exact C'|].
                     rewrite groceryAmount_app. cbn [WowLayer.groceryAmount snd]. fold k.
                     rewrite String.eqb_sym in E. rewrite E. cbn [andb]. rewrite A'. ring.
              ** intros o0 I. apply in_app_or in I. destruct I as [I|[I|[]]].
                 --- exact (Sk o0 I).
                 --- subst o0. rewrite Nx. apply String.eqb_neq in E. congruence.
        -- intros o0 I. apply in_app_or in I. destruct I as [I|[I|[]]]; [exact (P o0 I)|].
           subst o0. rewrite Nx. intro X. apply existsb_eqb_In in X. congruence.
Qed.

(** [generateSmartGroceryList] fails (rejects) exactly when a fetched recipe has [null] ingredients or an ingredient name normalises to a member of [Object.prototype]. *)
Theorem generateSmartGroceryList_null : forall fetch plan,
  WowLayer.generateSmartGroceryList fetch plan = None <->
  WowLayer.hasNullIngredients fetch (Fallback.days (Fallback.plan_data plan)) = true \/
  exists o, In o (WowLayer.groceryOccurrences fetch (Fallback.days (Fallback.plan_data plan))) /\
            In (WowLayer.normalizeIngredientName (Validator.name (snd o))) JS.objectPrototypeNames.
Proof.
  intros fetch plan. unfold WowLayer.generateSmartGroceryList.
  rewrite groceryDays_foldOcc.
  destruct (WowLayer.hasNullIngredients _ _); [tauto|].
  assert (H := foldOcc_spec (WowLayer.groceryOccurrences fetch (Fallback.days (Fallback.plan_data plan)))).
  destruct (foldOcc [] _) as [m|].
  - destruct H as [_ [_ P]]. split; [discriminate|].
    intros [X|[o [I Po]]]; [discriminate|]. exfalso. exact (P o I Po).
  - tauto.
Qed.

(** The grocery list has one entry per distinct normalised ingredient name, [total_items] is their number, and each entry lists the recipes in visiting order, takes unit and category from the first occurrence, and sums the amounts of the occurrences with that unit. *)
Theorem generateSmartGroceryList_entries : forall fetch plan gl,
  WowLayer.generateSmartGroceryList fetch plan = Some gl ->
  NoDup (map fst (WowLayer.items gl)) /\
  (forall k, In k (map fst (WowLayer.items gl)) <->
     exists o, In o (WowLayer.groceryOccurrences fetch (Fallback.days (Fallback.plan_data plan))) /\
               WowLayer.normalizeIngredientName (Validator.name (snd o)) = k) /\
  WowLayer.total_items gl =
    List.length (nodup string_dec
      (map (fun o => WowLayer.normalizeIngredientName (Validator.name (snd o)))
         (WowLayer.groceryOccurrences fetch (Fallback.days (Fallback.plan_data plan))))) /\
  (forall k e, In (k, e) (WowLayer.items gl) ->
     WowLayer.source_recipes e =
       map fst (filter (fun o => String.eqb (WowLayer.normalizeIngredientName (Validator.name (snd o))) k)
                  (WowLayer.groceryOccurrences fetch (Fallback.days (Fallback.plan_data plan)))) /\
     exists o,
       find (fun o => String.eqb (WowLayer.normalizeIngredientName (Validator.name (snd o))) k)
         (WowLayer.groceryOccurrences fetch (Fallback.days (Fallback.plan_data plan))) = Some o /\
       WowLayer.g_unit e = Validator.unit (snd o) /\
       WowLayer.g_category e = WowLayer.categorizeIngredient (Validator.name (snd o)) /\
       (WowLayer.g_amount e ==
        WowLayer.groceryAmount k (Validator.unit (snd o))
          (WowLayer.groceryOccurrences fetch (Fallback.days (Fallback.plan_data plan))))%Q).
Proof.
  intros fetch plan gl H. unfold WowLayer.generateSmartGroceryList in H.
  rewrite groceryDays_foldOcc in H.
  destruct (WowLayer.hasNullIngredients _ _); [discriminate|].
  set (os := WowLayer.groceryOccurrences fetch (Fallback.days (Fallback.plan_data plan))) in *.
  assert (Sp := foldOcc_spec os).
  destruct (foldOcc [] os) as [m|]; [|discriminate].
  injection H as <-. cbn [WowLayer.items WowLayer.total_items].
  destruct Sp as [D [S _]].
  assert (Keys : forall k, In k (map fst m) <-> exists o, In o os /\ norm o = k).
  { intro k. assert (Sk := S k). split.
    - intro I. destruct (WowLayer.ownEntry m k) as [e|] eqn:O.
      + destruct Sk as [_ [o [Fo _]]]. apply find_some in Fo. destruct Fo as [Io E].
        apply String.eqb_eq in E. exists o. tauto.
      + apply ownEntry_None in O. contradiction.
    - intros [o [I E]]. destruct (WowLayer.ownEntry m k) as [e|] eqn:O.
      + assert (Ie := proj2 (ownEntry_In m k e D) O). apply (in_map fst) in Ie. exact Ie.
      + exfalso. exact (Sk o I E). }
  split; [exact D|]. split; [exact Keys|]. split.
  - rewrite <- (length_map fst). apply Permutation_length.
    apply NoDup_Permutation; [exact D | apply NoDup_nodup|].
    intro k. rewrite nodup_In, Keys, in_map_iff.
    split; intros [o [A B]]; exists o; tauto.
  - intros k e I. apply (ownEntry_In m k e D) in I. assert (Sk := S k). rewrite I in Sk.
    exact Sk.
Qed.

(** ** Prep schedule *)

Lemma dedupStrings_spec : forall l seen,
  NoDup (WowLayer.dedupStrings seen l) /\
  (forall x, In x (WowLayer.dedupStrings seen l) -> In x l /\ ~ In x seen).
Proof.
  induction l as [|y l IH]; intro seen; simpl; [split; [constructor | tauto]|].
  destruct (existsb (String.eqb y) seen) eqn:E.
  - destruct (IH seen) as [N I]. split; [exact N|]. intros x Ix. destruct (I x Ix). tauto.
  - destruct (IH (y :: seen)) as [N I]. split.
    + constructor; [|exact N]. intro Iy. destruct (I y Iy) as [_ X]. apply X. left. reflexivity.
    + intros x [Ex|Ix].
      * subst x. split; [left; reflexivity|]. intro X.
        assert (existsb (String.eqb y) seen = true)
          by (apply existsb_exists; exists y; split; [exact X | apply String.eqb_refl]).
        congruence.
      * destruct (I x Ix) as [A B]. split; [right; exact A|]. intro X. apply B. right. exact X.
Qed.

Lemma dedupStrings_nonempty : forall x l, WowLayer.dedupStrings [] (x :: l) <> [].
Proof. intros x l. simpl. discriminate. Qed.

Section PrepInvariant.
Variable fetch : string -> option WowLayer.PrepRow.
Variable days : list Fallback.DayPlan.

Lemma mergeTask_keys : forall ts task,
  map WowLayer.taskKey (WowLayer.mergeTask ts task) = map WowLayer.taskKey ts.
Proof.
  induction ts as [|t ts IH]; intro task; simpl; [reflexivity|].
  destruct (_ && _); simpl; [reflexivity|]. rewrite IH. reflexivity.
Qed.

Lemma mergeTask_ok : forall ts task, Forall (okTask fetch days) ts -> okTask fetch days task ->
  Forall (okTask fetch days) (WowLayer.mergeTask ts task).
Proof.
  induction ts as [|t ts IH]; intros task Hs Ht; simpl; [constructor|].
  inversion Hs as [|? ? Ht0 Hs']; subst.
  destruct (_ && _).
  - constructor; [|exact Hs'].
    destruct Ht0 as [D0 [N0 [E0 F0]]]. destruct Ht as [_ [_ [_ F]]].
    destruct (dedupStrings_spec (WowLayer.enables_recipes t ++ WowLayer.enables_recipes task)%list [])
      as [N I].
    split; [exact D0|]. split; [exact N|]. split.
    + destruct (WowLayer.enables_recipes t) as [|x l]; [contradiction|]. apply dedupStrings_nonempty.
    + intros r Ir. destruct (I r Ir) as [Ir' _]. apply in_app_or in Ir'.
      destruct Ir'; [apply F0 | apply F]; assumption.
  - constructor; [exact Ht0 | apply IH; assumption].
Qed.

Lemma addTask_inv : forall st task, prepInv fetch days st -> okTask fetch days task ->
  prepInv fetch days (WowLayer.addTask st task).
Proof.
  intros [ts processed] task [K [N F]] Ht. cbn [fst snd] in *. unfold WowLayer.addTask.
  destruct (existsb (String.eqb (WowLayer.taskKey task)) processed) eqn:E; cbn [negb];
    unfold prepInv; cbn [fst snd].
  - split; [rewrite mergeTask_keys; exact K|]. split; [exact N|]. apply mergeTask_ok; assumption.
  - split; [cbn; rewrite map_app, K; reflexivity|]. split.
    + apply NoDup_app; [exact N | constructor; [intros []|constructor]|].
      intros y Iy [Ey|[]]. subst y.
      assert (existsb (String.eqb (WowLayer.taskKey task)) processed = true)
        by (apply existsb_exists; exists (WowLayer.taskKey task); split; [exact Iy | apply String.eqb_refl]).
      congruence.
    + apply Forall_app. split; [exact F | constructor; [exact Ht | constructor]].
Qed.

Lemma identifyPrepTasks_ok : forall d meal row,
  In d days -> In meal (Fallback.meals d) -> fetch (Fallback.recipe_id meal) = Some row ->
  Forall (okTask fetch days) (WowLayer.identifyPrepTasks row).
Proof.
  intros d meal row Id Im Ef.
  assert (Single : forall t, WowLayer.suggested_day t = "sunday" ->
                   WowLayer.enables_recipes t = [WowLayer.p_id row] -> okTask fetch days t).
  { intros t D Er. split; [exact D|]. rewrite Er. split; [constructor; [intros []|constructor]|].
    split; [discriminate|]. intros r [Er'|[]]. subst r. exists d, meal, row. tauto. }
  unfold WowLayer.identifyPrepTasks.
  apply Forall_app. split.
  - destruct (_ <? _)%nat; constructor; try constructor; apply Single; reflexivity.
  - destruct (_ <=? _)%nat; constructor; try constructor; apply Single; reflexivity.
Qed.

Lemma prepMeals_inv : forall d meals st, In d days -> incl meals (Fallback.meals d) ->
  prepInv fetch days st -> prepInv fetch days (fold_left (WowLayer.prepMeal fetch) meals st).
Proof.
  intros d meals. induction meals as [|meal meals IH]; intros st Id Inc H; [exact H|].
  simpl. apply IH; [exact Id | intros x Ix; apply Inc; right; exact Ix|].
  unfold WowLayer.prepMeal.
  destruct (fetch (Fallback.recipe_id meal)) as [row|] eqn:Ef; [|exact H].
  assert (Ok := identifyPrepTasks_ok d meal row Id (Inc meal (or_introl eq_refl)) Ef).
  generalize dependent st. induction (WowLayer.identifyPrepTasks row) as [|t ts IHt];
    intros st H; [exact H|].
  inversion Ok as [|? ? Ot Ots]; subst. simpl. apply IHt; [exact Ots|].
  apply addTask_inv; assumption.
Qed.

Lemma prepDays_inv : forall ds st, incl ds days -> prepInv fetch days st ->
  prepInv fetch days (fold_left (fun st day => fold_left (WowLayer.prepMeal fetch) (Fallback.meals day) st) ds st).
Proof.
  induction ds as [|d ds IH]; intros st Inc H; [exact H|].
  simpl. apply IH; [intros x Ix; apply Inc; right; exact Ix|].
  apply (prepMeals_inv d); [apply Inc; left; reflexivity | apply incl_refl | exact H].
Qed.

End PrepInvariant.

Lemma compareTasks_antisym : forall a b,
  WowLayer.compareTasks b a = (- WowLayer.compareTasks a b)%Z.
Proof.
  intros a b. unfold WowLayer.compareTasks.
  destruct (Z.eqb (WowLayer.priorityOrder (WowLayer.priority b) - WowLayer.priorityOrder (WowLayer.priority a)) 0) eqn:E1;
  destruct (Z.eqb (WowLayer.priorityOrder (WowLayer.priority a) - WowLayer.priorityOrder (WowLayer.priority b)) 0) eqn:E2;
  cbn [negb]; apply Z.eqb_eq in E1 || apply Z.eqb_neq in E1;
  apply Z.eqb_eq in E2 || apply Z.eqb_neq in E2; lia.
Qed.

Lemma insertTask_perm : forall x l, Permutation (WowLayer.insertTask x l) (x :: l).
Proof.
  intros x l. induction l as [|y l IH]; simpl; [reflexivity|].
  destruct (Z.leb _ 0); [|reflexivity].
  rewrite IH. apply perm_swap.
Qed.

Lemma insertTask_sorted : forall x l, Sorted taskLe l -> Sorted taskLe (WowLayer.insertTask x l).
Proof.
  intros x l. induction l as [|y l IH]; intro H; simpl; [repeat constructor|].
  destruct (Z.leb (WowLayer.compareTasks y x) 0) eqn:E.
  - apply Sorted_inv in H. destruct H as [Hl Hh]. constructor; [apply IH; exact Hl|].
    destruct l as [|z l]; simpl.
    + constructor. apply Z.leb_le. exact E.
    + destruct (Z.leb (WowLayer.compareTasks z x) 0); constructor;
        [inversion Hh; assumption | apply Z.leb_le; exact E].
  - constructor; [exact H|]. constructor. unfold taskLe.
    rewrite compareTasks_antisym. apply Z.leb_gt in E. lia.
Qed.

Lemma sortTasks_spec : forall l,
  Permutation (WowLayer.sortTasks l) l /\ Sorted taskLe (WowLayer.sortTasks l).
Proof.
  intro l. unfold WowLayer.sortTasks.
  assert (G : forall l acc, Sorted taskLe acc ->
            Permutation (fold_left (fun acc x => WowLayer.insertTask x acc) l acc) (l ++ acc)%list /\
            Sorted taskLe (fold_left (fun acc x => WowLayer.insertTask x acc) l acc)).
  { induction l0 as [|x l0 IH]; intros acc S; simpl; [split; [reflexivity | exact S]|].
    destruct (IH (WowLayer.insertTask x acc) (insertTask_sorted x acc S)) as [P S'].
    split; [|exact S'].
    rewrite P. rewrite insertTask_perm. apply Permutation_sym, Permutation_middle. }
  destruct (G l [] (Sorted_nil _)) as [P S]. rewrite app_nil_r in P. split; assumption.
Qed.

(** The prep schedule has tasks with distinct descriptions, sorted by priority, all suggested for Sunday, each enabling a non-empty duplicate-free list of recipes fetched for meals of the plan. *)
Theorem generatePrepSchedule_tasks : forall fetch plan,
  NoDup (map WowLayer.description (WowLayer.tasks (WowLayer.generatePrepSchedule fetch plan))) /\
  Sorted (fun a b => (WowLayer.compareTasks a b <= 0)%Z)
    (WowLayer.tasks (WowLayer.generatePrepSchedule fetch plan)) /\
  (forall t, In t (WowLayer.tasks (WowLayer.generatePrepSchedule fetch plan)) ->
     WowLayer.suggested_day t = "sunday" /\ NoDup (WowLayer.enables_recipes t) /\
     WowLayer.enables_recipes t <> [] /\
     forall r, In r (WowLayer.enables_recipes t) ->
       exists d meal row, In d (Fallback.days (Fallback.plan_data plan)) /\
         In meal (Fallback.meals d) /\ fetch (Fallback.recipe_id meal) = Some row /\
         WowLayer.p_id row = r).
Proof.
  intros fetch plan. unfold WowLayer.generatePrepSchedule.
  set (days := Fallback.days (Fallback.plan_data plan)).
  assert (H := prepDays_inv fetch days days ([], []) (incl_refl _)).
  destruct (fold_left _ days ([], [])) as [ts processed].
  destruct H as [K [N F]]; [split; [reflexivity | split; constructor]|].
  cbn [fst snd WowLayer.tasks] in *.
  destruct (sortTasks_spec ts) as [P S].
  split; [|split; [exact S|]].
  - assert (NK : NoDup (map WowLayer.taskKey ts)) by (rewrite <- K; exact N).
    assert (DK : map WowLayer.taskKey ts =
                 map (fun d => d ++ "_" ++ "sunday") (map WowLayer.description ts)).
    { rewrite map_map. apply map_ext_in. intros t It.
      rewrite Forall_forall in F. destruct (F t It) as [D _].
      unfold WowLayer.taskKey. rewrite D. reflexivity. }
    rewrite DK in NK. apply NoDup_map_inv in NK.
    apply (Permutation_NoDup (Permutation_map _ (Permutation_sym P))). exact NK.
  - intros t It. apply (Permutation_in _ P) in It.
    rewrite Forall_forall in F. exact (F t It).
Qed.

(** ** Rounding bounds *)

Lemma round_bounds : forall x : Q, (x - (1 # 2) < JS.round x <= x + (1 # 2))%Q.
Proof.
  intro x. unfold JS.round.
  assert (A := Qfloor_le (x + (1 # 2))). assert (B := Qlt_floor (x + (1 # 2))).
  rewrite inject_Z_plus in B. change (inject_Z 1) with 1%Q in B.
  split; lra.
Qed.

Lemma round_mono : forall x y, (x <= y)%Q -> (JS.round x <= JS.round y)%Q.
Proof.
  intros x y H. unfold JS.round. rewrite <- Zle_Qle. apply Qfloor_resp_le. lra.
Qed.

Lemma round_small : forall x : Q, (0 <= x)%Q -> (x < (1 # 2))%Q -> (JS.round x == 0)%Q.
Proof.
  intros x H0 H1. unfold JS.round.
  assert (A := Qfloor_le (x + (1 # 2))). assert (B := Qlt_floor (x + (1 # 2))).
  rewrite inject_Z_plus in B. change (inject_Z 1) with 1%Q in B.
  assert (Lo : (-1 < Qfloor (x + (1 # 2)))%Z).
  { apply Z.lt_nge. intro C. rewrite Zle_Qle in C. change (inject_Z (-1)) with (-1)%Q in C. lra. }
  assert (Hi : (Qfloor (x + (1 # 2)) < 1)%Z).
  { apply Z.lt_nge. intro C. rewrite Zle_Qle in C. change (inject_Z 1) with 1%Q in C. lra. }
  assert (E : Qfloor (x + (1 # 2)) = 0%Z) by lia. rewrite E. reflexivity.
Qed.

(** ** Cost *)

Lemma calculateCost_arg : forall i o,
  ((i / 1000 * 0.003 + o / 1000 * 0.015) * 100 == (3 * i + 15 * o) / 10000)%Q.
Proof. intros i o. field. Qed.

(** The council and the wow layer compute the same cost, and the cost is monotone in both token counts. *)
Theorem calculateCost_agree_monotone : forall i o i' o',
  Cost.councilCalculateCost i o = Cost.calculateCost i o /\
  ((i <= i')%Q -> (o <= o')%Q -> (Cost.calculateCost i o <= Cost.calculateCost i' o')%Q).
Proof.
  intros i o i' o'. split; [reflexivity|]. intros Hi Ho. unfold Cost.calculateCost.
  apply round_mono. rewrite !calculateCost_arg.
  apply Qmult_le_compat_r; [lra | discriminate].
Qed.

(** A call with 3 * input + 15 * output below 5000 tokens costs 0 cents after rounding. *)
Theorem calculateCost_small_calls_free : forall i o,
  (0 <= i)%Q -> (0 <= o)%Q -> (3 * i + 15 * o < 5000)%Q ->
  (Cost.calculateCost i o == 0)%Q.
Proof.
  intros i o Hi Ho H. unfold Cost.calculateCost. cbv zeta.
  assert (E : ((i / 1000 * 0.003 + o / 1000 * 0.015) * 100 == (3 * i + 15 * o) / 10000)%Q)
    by apply calculateCost_arg.
  assert (R : forall x y, (x == y)%Q -> JS.round x = JS.round y).
  { intros x y Exy. unfold JS.round. f_equal. apply Qfloor_comp. rewrite Exy. reflexivity. }
  rewrite (R _ _ E). apply round_small.
  - apply Qle_shift_div_l; [reflexivity|]. lra.
  - apply Qlt_shift_div_r; [reflexivity|]. lra.
Qed.

(** ** Candidate selection *)

Lemma selectLoop_length : forall cands sel cc mc,
  List.length sel <= 30 -> List.length (Selector.selectLoop cands sel cc mc) <= 30.
Proof.
  induction cands as [|c rest IH]; intros sel cc mc H; [exact H|].
  cbn [Selector.selectLoop]. destruct (Nat.leb Selector.targetCount (List.length sel)) eqn:T;
    [exact H|].
  apply Nat.leb_gt in T. unfold Selector.targetCount in T.
  match goal with |- context [if ?b then _ else _] => destruct b end.
  - apply IH. exact H.
  - apply IH. rewrite length_app. simpl. lia.
Qed.

Lemma parse_recipes : forall parsed recipes cands,
  Selector.parseAIScoringResponse parsed recipes = Normal cands ->
  forall c, In c cands -> In (Selector.recipe c) recipes.
Proof.
  intros parsed recipes cands H c Ic. unfold Selector.parseAIScoringResponse in H.
  destruct parsed as [[scores|]|]; try discriminate.
  injection H as <-. apply in_map_iff in Ic. destruct Ic as [r [E Ir]]. subst c.
  destruct (Selector.lookupScore scores (Selector.id r)); exact Ir.
Qed.

Lemma rank_recipes : forall scored bp prefs c,
  In c (Selector.rankAndSelectFinalCandidates scored bp prefs) ->
  exists c0, In c0 scored /\ Selector.recipe c = Selector.recipe c0.
Proof.
  intros scored bp prefs c H. unfold Selector.rankAndSelectFinalCandidates, Selector.selectDiverseSet in H.
  destruct (selectLoop_incl _ _ _ _ _ H) as [[]|H1].
  apply sort_in in H1. apply in_map_iff in H1. destruct H1 as [c0 [E I]].
  exists c0. split; [exact I | subst c; reflexivity].
Qed.

(** [selectCandidates] succeeds only with SQL rows and returns at most 30 of them; it reports no Claude request exactly when the SQL step failed or found nothing, and otherwise exactly one. *)
Theorem selectCandidates_outcomes : forall bp prefs sql api,
  (Selection.s_success (Selection.selectCandidates bp prefs sql api) = true ->
   exists rows cs,
     sql = Selection.SqlData (Some rows) /\
     Selection.candidates (Selection.selectCandidates bp prefs sql api) = Some cs /\
     List.length cs <= 30 /\
     (forall c, In c cs -> In (Selector.recipe c) rows)) /\
  (Selection.s_claude_requests (Selection.selectCandidates bp prefs sql api) = None <->
   match sql with
   | Selection.SqlFailed _ => True
   | Selection.SqlData d => match d with Some l => l | None => [] end = []
   end) /\
  (forall n, Selection.s_claude_requests (Selection.selectCandidates bp prefs sql api) = Some n ->
   n = 1%Q) /\
  (Selection.s_claude_requests (Selection.selectCandidates bp prefs sql api) = None ->
   Selection.s_success (Selection.selectCandidates bp prefs sql api) = false).
Proof.
  intros bp prefs sql api. unfold Selection.selectCandidates.
  destruct sql as [msg | data]; cbn [Selection.s_success Selection.s_claude_requests Selection.candidates].
  - split; [discriminate|]. split; [tauto|]. split; [discriminate | reflexivity].
  - set (rows := match data with Some l => l | None => [] end).
    destruct (Nat.eqb (List.length rows) 0) eqn:L.
    + cbn. split; [discriminate|]. split.
      * split; [intros _ | reflexivity]. destruct rows; [reflexivity | discriminate].
      * split; [discriminate | reflexivity].
    + assert (Ne : rows <> []) by (intro E; rewrite E in L; discriminate).
      destruct (negb (Selection.sr_success (Selection.performAIScoring api rows))) eqn:S; cbn.
      * split; [discriminate|]. split; [split; [discriminate | intro E; contradiction]|].
        split; [intros n E; injection E; auto | discriminate].
      * split.
        -- intros _. destruct data as [l|]; [|subst rows; discriminate].
           exists l. eexists. split; [reflexivity|]. split; [reflexivity|]. split.
           ++ unfold Selector.rankAndSelectFinalCandidates, Selector.selectDiverseSet.
              apply selectLoop_length. simpl. lia.
           ++ intros c Ic. destruct (rank_recipes _ _ _ _ Ic) as [c0 [I0 E0]]. rewrite E0.
              unfold Selection.performAIScoring in S, I0.
              destruct api as [m | parsed i o]; [discriminate|].
              destruct (Selector.parseAIScoringResponse parsed rows) as [cands|e] eqn:P;
                [|discriminate].
              cbn in I0. exact (parse_recipes _ _ _ P c0 I0).
        -- split; [split; [discriminate | intro E; contradiction]|].
           split; [intros n E; injection E; auto | discriminate].
Qed.

(** ** Nutritional targets *)

(** For a profile with a parsable birth date and an activity level that is not an [Object.prototype] member, the macro targets are numbers whose energy 4 * protein + 9 * fat + 4 * carbohydrates is within 9 kcal of the calorie target. *)
Theorem targets_macro_energy : forall year p t,
  Targets.calculateNutritionalTargets year p = Some t ->
  (exists y, Targets.date_of_birth p = Some (Some y)) ->
  (forall l, Targets.activity_level p = Some l -> ~ In l JS.objectPrototypeNames) ->
  exists cal pr f c,
    Targets.daily_calories t = JS.Fin cal /\ Targets.daily_protein t = JS.Fin pr /\
    Targets.daily_fat t = JS.Fin f /\ Targets.daily_carbohydrates t = JS.Fin c /\
    (Qabs (4 * pr + 9 * f + 4 * c - cal) <= 9)%Q.
Proof.
  intros year p t H [y Hy] Hl. unfold Targets.calculateNutritionalTargets in H.
  destruct (negb _ || negb _); [discriminate|]. rewrite Hy in H.
  assert (M : exists m, Targets.multiplier (Targets.activity_level p) = JS.Fin m).
  { unfold Targets.multiplier. destruct (Targets.activity_level p) as [l|]; [|eauto].
    unfold JS.getProp. destruct (JS.assoc _ l); [eauto|].
    destruct (existsb (String.eqb l) JS.objectPrototypeNames) eqn:P; [|eauto].
    exfalso. apply (Hl l eq_refl). apply existsb_exists in P. destruct P as [x [Ix Ex]].
    apply String.eqb_eq in Ex. subst. exact Ix. }
  destruct M as [m M]. rewrite M in H. injection H as <-.
  cbn [Targets.daily_calories Targets.daily_protein Targets.daily_fat
       Targets.daily_carbohydrates Targets.numRound Targets.numDiv Targets.numMul
       Targets.numAdd Targets.numSub].
  set (T := ((10 * JS.orQ (Targets.weight_kg p) 0 + 6.25 * JS.orQ (Targets.height_cm p) 0 -
              5 * inject_Z (year - y) + 5) * m)%Q).
  do 4 eexists. split; [reflexivity|]. split; [reflexivity|]. split; [reflexivity|].
  split; [reflexivity|].
  destruct (round_bounds T) as [A1 A2].
  destruct (round_bounds (T * 0.25 / 4)) as [B1 B2].
  destruct (round_bounds (T * 0.30 / 9)) as [C1 C2].
  destruct (round_bounds (T * 0.45 / 4)) as [D1 D2].
  apply Qabs_Qle_condition.
  generalize dependent (JS.round T); generalize dependent (JS.round (T * 0.25 / 4));
  generalize dependent (JS.round (T * 0.30 / 9)); generalize dependent (JS.round (T * 0.45 / 4)).
  unfold Qdiv. change (/ 4)%Q with (1 # 4). change (/ 9)%Q with (1 # 9).
  intros; split; lra.
Qed.

(** An unknown activity level gives the targets of [sedentary] (the 1.2 multiplier), the same as no level; a level naming an [Object.prototype] member makes the calorie and macro targets [NaN]. *)
Theorem activity_level_fallback : forall year w h d l,
  ~ In l (map fst Targets.activityMultipliers) ->
  (~ In l JS.objectPrototypeNames ->
   Targets.calculateNutritionalTargets year (Targets.mkProfile w h d (Some l)) =
   Targets.calculateNutritionalTargets year (Targets.mkProfile w h d (Some "sedentary")) /\
   Targets.calculateNutritionalTargets year (Targets.mkProfile w h d (Some l)) =
   Targets.calculateNutritionalTargets year (Targets.mkProfile w h d None)) /\
  (In l JS.objectPrototypeNames ->
   forall t, Targets.calculateNutritionalTargets year (Targets.mkProfile w h d (Some l)) = Some t ->
   Targets.daily_calories t = JS.NaN /\ Targets.daily_protein t = JS.NaN /\
   Targets.daily_fat t = JS.NaN /\ Targets.daily_carbohydrates t = JS.NaN /\
   Targets.tdee t = JS.NaN).
Proof.
  intros year w h d l Hn.
  assert (A : JS.assoc Targets.activityMultipliers l = None).
  { unfold Targets.activityMultipliers in *. simpl in Hn. simpl.
    repeat match goal with |- context [String.eqb l ?k] =>
      let E := fresh in destruct (String.eqb l k) eqn:E;
        [apply String.eqb_eq in E; subst; tauto|] end.
    reflexivity. }
  split.
  - intro Hp.
    assert (Ml : Targets.multiplier (Some l) = JS.Fin 1.2).
    { unfold Targets.multiplier, JS.getProp. rewrite A.
      destruct (existsb (String.eqb l) JS.objectPrototypeNames) eqn:P; [|reflexivity].
      exfalso. apply Hp. apply existsb_exists in P. destruct P as [x [Ix Ex]].
      apply String.eqb_eq in Ex. subst. exact Ix. }
    unfold Targets.calculateNutritionalTargets. cbn [Targets.activity_level].
    rewrite Ml. split; reflexivity.
  - intros Hp t H.
    assert (Ml : Targets.multiplier (Some l) = JS.NaN).
    { unfold Targets.multiplier, JS.getProp. rewrite A.
      replace (existsb (String.eqb l) JS.objectPrototypeNames) with true; [reflexivity|].
      symmetry. apply existsb_exists. exists l. split; [exact Hp | apply String.eqb_refl]. }
    unfold Targets.calculateNutritionalTargets in H. cbn [Targets.activity_level Targets.weight_kg
      Targets.height_cm Targets.date_of_birth] in H.
    rewrite Ml in H. destruct (negb _ || negb _); [discriminate|].
    destruct d as [dob|]; [|discriminate].
    injection H as <-. cbn.
    destruct (Targets.numAdd _ _); cbn; repeat split.
Qed.

(** ** Next Monday *)

(** [getNextMonday] returns a Monday one to seven days after today (a week later when today is Monday). *)
Theorem getNextMonday_is_next_monday : forall today,
  Calendar.getDay (Calendar.getNextMonday today) = 1%Z /\
  (1 <= Calendar.getNextMonday today - today <= 7)%Z.
Proof.
  intro today. unfold Calendar.getNextMonday, Calendar.getDay.
  set (r := ((today + 4) mod 7)%Z).
  assert (R : (0 <= r < 7)%Z) by (apply Z.mod_pos_bound; lia).
  assert (S : forall k, ((today + k + 4) mod 7 = (r + k) mod 7)%Z).
  { intro k. unfold r. rewrite Zplus_mod_idemp_l. f_equal. lia. }
  destruct (Z.eqb r 0) eqn:E.
  - apply Z.eqb_eq in E. rewrite S, E. split; [reflexivity | lia].
  - apply Z.eqb_neq in E. rewrite S.
    replace (r + (8 - r))%Z with 8%Z by lia. split; [reflexivity | lia].
Qed.

(** ** Request validation *)

(** A subscription limit of -1 never blocks generation; any other limit
    at or below the month's plan count (a [null] count compares as 0), such
    as a limit of 5 with 5 plans or a limit of 0, gives status 429. *)
Theorem validateRequest_limit : forall sub count,
  (Handler.plan_generation_limit sub = (-1)%Z ->
   Handler.validateRequest true Handler.BodyValid (Some sub) count = Handler.VOk) /\
  (Handler.plan_generation_limit sub <> (-1)%Z ->
   (Handler.plan_generation_limit sub <= match count with Some c => c | None => 0 end)%Z ->
   exists msg, Handler.validateRequest true Handler.BodyValid (Some sub) count =
               Handler.VFail msg 429).
Proof.
  intros sub count. unfold Handler.validateRequest. cbn [negb].
  split.
  - intro E. rewrite E. reflexivity.
  - intros E L. apply Z.eqb_neq in E. rewrite E. cbn [negb].
    apply Z.leb_le in L. rewrite L. eexists; reflexivity.
Qed.

(** ** The handler *)

Lemma generate_always_throws : forall rounds weekStart fetched,
  Controller.generateMealPlanWithRetry rounds weekStart fetched
  = Throw (ReferenceError "retry_count").
Proof.
  intros rounds weekStart fetched.
  destruct (loop_never_returns 3 rounds Controller.initialState) as [st E].
  unfold Controller.generateMealPlanWithRetry. rewrite E.
  unfold Controller.afterLoop.
  destruct (Fallback.generateFallbackPlan weekStart fetched);
    simpl; try rewrite successObject_throws; apply failureObject_throws.
Qed.

(** The handler answers OPTIONS with 200, other non-POST methods with 405, failed validation with its status and a blueprint error with 400; a valid POST rejects with a ReferenceError for [supabase], read in the catch block after the generation threw. *)
Theorem serve_outcomes : forall method validation blueprintError rounds weekStart fetched,
  Handler.serve "POST" Handler.VOk None rounds weekStart fetched
    = Throw (ReferenceError "supabase") /\
  Handler.serve "OPTIONS" validation blueprintError rounds weekStart fetched
    = Normal (Handler.mkResponse 200 None) /\
  (method <> "OPTIONS" -> method <> "POST" ->
   Handler.serve method validation blueprintError rounds weekStart fetched
   = Normal (Handler.createErrorResponse "Method not allowed" 405)) /\
  (forall e s, Handler.serve "POST" (Handler.VFail e s) blueprintError rounds weekStart fetched
               = Normal (Handler.createErrorResponse e s)) /\
  (forall e, Handler.serve "POST" Handler.VOk (Some e) rounds weekStart fetched
             = Normal (Handler.createErrorResponse e 400)).
Proof.
  intros method validation blueprintError rounds weekStart fetched.
  split; [|split; [reflexivity|split; [|split; [reflexivity | reflexivity]]]].
  - unfold Handler.serve. cbn -[Controller.generateMealPlanWithRetry].
    rewrite generate_always_throws. reflexivity.
  - intros H1 H2. unfold Handler.serve.
    apply String.eqb_neq in H1, H2. rewrite H1, H2. reflexivity.
Qed.

(** ** The fallback plan's distinct recipes *)

Lemma NoDup_map_nth_seq : forall (rows : list Fallback.Recipe) k,
  NoDup (map Fallback.id rows) -> k <= List.length rows ->
  NoDup (map (fun j => Fallback.id (nth j rows (Fallback.mkRecipe ""))) (seq 0 k)).
Proof.
  intros rows k D K.
  set (f := fun j => Fallback.id (nth j rows (Fallback.mkRecipe ""))).
  apply (proj2 (NoDup_nth _ "")).
  intros i j Hi Hj E. rewrite length_map, length_seq in Hi, Hj.
  rewrite (nth_indep _ "" (f 0)) in E by (rewrite length_map, length_seq; exact Hi).
  rewrite (nth_indep _ "" (f 0) ) in E by (rewrite length_map, length_seq; exact Hj).
  rewrite !map_nth, !seq_nth in E by assumption. unfold f in E. cbn in E.
  rewrite <- !(map_nth Fallback.id rows (Fallback.mkRecipe "")) in E.
  apply (proj1 (NoDup_nth (map Fallback.id rows) (Fallback.id (Fallback.mkRecipe "")))) in E;
    [exact E | exact D | rewrite length_map; lia | rewrite length_map; lia].
Qed.

Lemma fallback_ids : forall ws rows p,
  Fallback.generateFallbackPlan ws (Fallback.FetchData rows) = Normal p ->
  rows <> [] /\
  planRecipeIds p = map (fun j => Fallback.id (nth (j mod List.length rows) rows (Fallback.mkRecipe "")))
                        (seq 0 9) /\
  Fallback.unique_recipes (Fallback.plan_data p) = Nat.min 9 (List.length rows).
Proof.
  intros ws rows p H. destruct rows as [|r rows']; [discriminate|].
  injection H as <-. split; [discriminate|]. split; reflexivity.
Qed.

(** When the fallback pool has distinct ids, the [unique_recipes] of the fallback plan is the number of distinct recipe ids in the plan. *)
Theorem fallback_unique_recipes : forall ws rows p,
  Fallback.generateFallbackPlan ws (Fallback.FetchData rows) = Normal p ->
  NoDup (map Fallback.id rows) ->
  List.length (nodup string_dec (planRecipeIds p)) = Fallback.unique_recipes (Fallback.plan_data p).
Proof.
  intros ws rows p H D. destruct (fallback_ids ws rows p H) as [Ne [Ids U]].
  rewrite U, Ids.
  set (n := List.length rows).
  assert (Pn : 0 < n) by (unfold n; destruct rows; [congruence | cbn; lia]).
  set (f := fun j => Fallback.id (nth j rows (Fallback.mkRecipe ""))).
  change (fun j => Fallback.id (nth (j mod n) rows (Fallback.mkRecipe ""))) with (fun j => f (j mod n)).
  rewrite <- (length_seq (Nat.min 9 n) 0). rewrite <- (length_map f (seq 0 (Nat.min 9 n))).
  apply Permutation_length. apply NoDup_Permutation.
  - apply NoDup_nodup.
  - apply NoDup_map_nth_seq; [exact D | lia].
  - intro x. rewrite nodup_In, !in_map_iff. split.
    + intros [j [Ex Ij]]. apply in_seq in Ij. exists (j mod n). split; [exact Ex|].
      apply in_seq. split; [lia|].
      assert (j mod n < n) by (apply Nat.mod_upper_bound; lia).
      assert (j mod n <= j) by (apply Nat.Div0.mod_le).
      lia.
    + intros [i [Ex Ii]]. apply in_seq in Ii. exists i. split.
      * rewrite Nat.mod_small by lia. exact Ex.
      * apply in_seq. lia.
Qed.

(** ** The validator's missing list *)

Lemma processMeals_missing : forall resolve opts day tot miss,
  snd (fold_left (Validator.processMeal resolve opts) day (tot, miss))
  = app miss (map (fun m => "Recipe " ++ Validator.meal_recipe_id m)
                 (filter (unresolved resolve opts) day)).
Proof.
  intros resolve opts day. induction day as [|m day IH]; intros tot miss.
  - cbn. rewrite app_nil_r. reflexivity.
  - cbn [fold_left filter]. unfold Validator.processMeal at 2. unfold unresolved at 1.
    destruct (resolve _ _ _); rewrite IH; [reflexivity|].
    cbn [map]. rewrite <- app_assoc. reflexivity.
Qed.

Lemma processDays_missing : forall resolve opts days tot miss,
  snd (fold_left (fun acc day => fold_left (Validator.processMeal resolve opts) day acc)
         days (tot, miss))
  = app miss (map (fun m => "Recipe " ++ Validator.meal_recipe_id m)
                 (filter (unresolved resolve opts) (List.concat days))).
Proof.
  intros resolve opts days. induction days as [|d days IH]; intros tot miss.
  - cbn. rewrite app_nil_r. reflexivity.
  - cbn [fold_left List.concat].
    destruct (fold_left (Validator.processMeal resolve opts) d (tot, miss)) as [t' m'] eqn:E.
    rewrite IH. assert (M := processMeals_missing resolve opts d tot miss). rewrite E in M.
    cbn [snd] in M. rewrite M, filter_app, map_app, app_assoc. reflexivity.
Qed.

(** [validatePlan] lists as missing exactly the meals its resolver cannot resolve, as [Recipe <id>], in plan order. *)
Theorem validatePlan_missing : forall resolve planDays targets opts,
  Validator.missing_nutrition_data (Validator.validatePlan resolve planDays targets opts)
  = map (fun m => "Recipe " ++ Validator.meal_recipe_id m)
        (filter (unresolved resolve opts) (List.concat planDays)).
Proof.
  intros resolve planDays targets opts. unfold Validator.validatePlan.
  assert (M := processDays_missing resolve opts planDays Validator.zeroND []).
  destruct (fold_left _ planDays _) as [tot miss]. cbn in M |- *. exact M.
Qed.

(** ** Examples for the further properties *)

Lemma calculateFromUSDA_skips_witness :
  ValidatorUSDA.calculateFromUSDA ExtraSamples.noLookup ([ExtraSamples.riceCup] ++ ExtraSamples.saltPinch :: [])
  = ValidatorUSDA.calculateFromUSDA ExtraSamples.noLookup ([ExtraSamples.riceCup] ++ []).
Proof.
  apply calculateFromUSDA_skips. right; right; left. reflexivity.
Defined.


Lemma usda_tier_never_estimates_witness :
  exists mn, Validator.calculateMealNutrition (ValidatorUSDA.calculateFromUSDA ExtraSamples.noLookup)
               "r1" (Some Samples.unreliableRow) 1 true = Some mn /\
             Validator.calculation_method mn <> Validator.Estimated.
Proof.
  eexists. split; [reflexivity|].
  apply (usda_tier_never_estimates ExtraSamples.noLookup "r1" (Some Samples.unreliableRow) 1 true).
  reflexivity.
Defined.

Lemma council_usda_skips_witness :
  CouncilUSDA.calculateRecipeNutritionFromUSDA ExtraSamples.noLookup
    (Validator.mkRow "Rice" None (Some ([] ++ ExtraSamples.riceCup :: [ExtraSamples.saltPinch])%list) None)
  = CouncilUSDA.calculateRecipeNutritionFromUSDA ExtraSamples.noLookup
      (Validator.mkRow "Rice" None (Some ([] ++ [ExtraSamples.saltPinch])%list) None).
Proof.
  apply council_usda_skips. right; right; left. reflexivity.
Defined.

Lemma meal_without_data_adds_nothing_witness :
  Council.calculatePlanNutrition (fun _ => None)
    (CouncilUSDA.calculateRecipeNutritionFromUSDA ExtraSamples.noLookup)
    ([] ++ ([] ++ Validator.mkMeal "r1" None :: []) :: [])%list
  = Council.calculatePlanNutrition (fun _ => None)
      (CouncilUSDA.calculateRecipeNutritionFromUSDA ExtraSamples.noLookup)
      ([] ++ ([] ++ []) :: [])%list.
Proof.
  apply meal_without_data_adds_nothing. left. reflexivity.
Defined.

Lemma refine_success_keeps_plan_witness :
  Refine.rr_success (Refine.validateAndRefine (Refine.Assembled ExtraSamples.oneMealPlan ExtraSamples.noUsage)
                       ExtraSamples.nutritionOk ExtraSamples.coherenceEight) = true /\
  Refine.rr_meal_plan (Refine.validateAndRefine (Refine.Assembled ExtraSamples.oneMealPlan ExtraSamples.noUsage)
                         ExtraSamples.nutritionOk ExtraSamples.coherenceEight)
    = Some ExtraSamples.oneMealPlan.
Proof.
  split; [reflexivity|].
  apply (refine_success_keeps_plan ExtraSamples.oneMealPlan ExtraSamples.noUsage
           ExtraSamples.nutritionOk ExtraSamples.coherenceEight).
  reflexivity.
Defined.

Lemma refine_failure_report_witness :
  Refine.rr_success (Refine.validateAndRefine (Refine.Assembled ExtraSamples.oneMealPlan ExtraSamples.noUsage)
                       ExtraSamples.nutritionFails ExtraSamples.coherenceEight) = false.
Proof.
  apply (refine_failure_report ExtraSamples.oneMealPlan ExtraSamples.noUsage
           ExtraSamples.nutritionFails ExtraSamples.coherenceEight).
  intros k _. reflexivity.
Defined.

Lemma refine_unknown_issue_witness :
  Refine.rr_error (Refine.validateAndRefine (Refine.Assembled ExtraSamples.oneMealPlan ExtraSamples.noUsage)
    (fun _ _ => CouncilUSDA.nutritionResult (Some ExtraSamples.fatHeavyTotals)
                  (Some ExtraSamples.dailyTargets) 1) ExtraSamples.coherenceEight)
  = Some "Validation failed after 3 attempts. Last issue: Unknown validation error".
Proof.
  apply (refine_unknown_issue ExtraSamples.oneMealPlan ExtraSamples.noUsage
           ExtraSamples.fatHeavyTotals ExtraSamples.dailyTargets 1 ExtraSamples.coherenceEight);
    vm_compute; first [reflexivity | discriminate].
Defined.

Lemma generateSmartGroceryList_entries_witness :
  WowLayer.generateSmartGroceryList ExtraSamples.groceryFetch ExtraSamples.twoMealPlan
    = Some ExtraSamples.sampleGroceryList /\
  WowLayer.total_items ExtraSamples.sampleGroceryList =
    List.length (nodup string_dec
      (map (fun o => WowLayer.normalizeIngredientName (Validator.name (snd o)))
         (WowLayer.groceryOccurrences ExtraSamples.groceryFetch
            (Fallback.days (Fallback.plan_data ExtraSamples.twoMealPlan))))).
Proof.
  assert (E : WowLayer.generateSmartGroceryList ExtraSamples.groceryFetch ExtraSamples.twoMealPlan
              = Some ExtraSamples.sampleGroceryList) by (vm_compute; reflexivity).
  split; [exact E|].
  exact (proj1 (proj2 (proj2 (generateSmartGroceryList_entries _ _ _ E)))).
Defined.

Lemma calculateCost_small_calls_free_witness :
  (Cost.calculateCost 1000 100 == 0)%Q.
Proof.
  apply calculateCost_small_calls_free; lra.
Defined.

Lemma calculateCost_agree_monotone_witness :
  (Cost.calculateCost 1000 200 <= Cost.calculateCost 4000 900)%Q.
Proof.
  apply (proj2 (calculateCost_agree_monotone 1000 200 4000 900)); lra.
Defined.

Lemma targets_macro_energy_witness :
  exists t, Targets.calculateNutritionalTargets 2026 ExtraSamples.adultProfile = Some t /\
  exists cal pr f c,
    Targets.daily_calories t = JS.Fin cal /\ Targets.daily_protein t = JS.Fin pr /\
    Targets.daily_fat t = JS.Fin f /\ Targets.daily_carbohydrates t = JS.Fin c /\
    (Qabs (4 * pr + 9 * f + 4 * c - cal) <= 9)%Q.
Proof.
  eexists. split; [vm_compute; reflexivity|].
  apply (targets_macro_energy 2026 ExtraSamples.adultProfile).
  - vm_compute. reflexivity.
  - exists 1990%Z. reflexivity.
  - intros l E. injection E as <-. vm_compute. intuition discriminate.
Defined.

Lemma activity_level_fallback_witness :
  Targets.calculateNutritionalTargets 2026 (Targets.mkProfile (Some 70%Q) (Some 175%Q) (Some (Some 1990%Z)) (Some "athlete"))
  = Targets.calculateNutritionalTargets 2026 (Targets.mkProfile (Some 70%Q) (Some 175%Q) (Some (Some 1990%Z)) None).
Proof.
  assert (H : ~ In "athlete" (map fst Targets.activityMultipliers))
    by (vm_compute; intuition discriminate).
  assert (P : ~ In "athlete" JS.objectPrototypeNames) by (vm_compute; intuition discriminate).
  exact (proj2 (proj1 (activity_level_fallback 2026 (Some 70%Q) (Some 175%Q)
                         (Some (Some 1990%Z)) "athlete" H) P)).
Defined.

Lemma fallback_unique_recipes_witness :
  exists p, Fallback.generateFallbackPlan 0 (Fallback.FetchData ExtraSamples.fourRecipes) = Normal p /\
    List.length (nodup string_dec (planRecipeIds p)) = Fallback.unique_recipes (Fallback.plan_data p).
Proof.
  eexists. split; [reflexivity|].
  apply (fallback_unique_recipes 0 ExtraSamples.fourRecipes).
  - reflexivity.
  - cbn. repeat (apply NoDup_cons; [cbn; intuition discriminate|]). apply NoDup_nil.
Defined.

Lemma selectCandidates_outcomes_witness :
  Selection.s_claude_requests
    (Selection.selectCandidates Samples.plainBlueprint Samples.plainPrefs
       (Selection.SqlData (Some [])) (Selection.ApiFailed "timeout")) = None.
Proof.
  apply (proj2 (proj1 (proj2 (selectCandidates_outcomes Samples.plainBlueprint Samples.plainPrefs
                                 (Selection.SqlData (Some [])) (Selection.ApiFailed "timeout"))))).
  reflexivity.
Defined.

Lemma validateRequest_limit_witness :
  (exists msg, Handler.validateRequest true Handler.BodyValid (Some (Handler.mkSubscription 5))
                 (Some 5%Z) = Handler.VFail msg 429) /\
  Handler.validateRequest true Handler.BodyValid (Some (Handler.mkSubscription (-1))) (Some 50%Z)
    = Handler.VOk.
Proof.
  split.
  - apply (proj2 (validateRequest_limit (Handler.mkSubscription 5) (Some 5%Z))).
    + discriminate.
    + cbn. lia.
  - apply (proj1 (validateRequest_limit (Handler.mkSubscription (-1)) (Some 50%Z))). reflexivity.
Defined.

Lemma serve_outcomes_witness :
  Handler.serve "GET" Handler.VOk None (fun _ => Controller.SelectionFailed "none") 0
    Fallback.FetchError
  = Normal (Handler.createErrorResponse "Method not allowed" 405).
Proof.
  apply (proj1 (proj2 (proj2 (serve_outcomes "GET" Handler.VOk None
           (fun _ => Controller.SelectionFailed "none") 0 Fallback.FetchError))));
    discriminate.
Defined.

Lemma categorizeIngredient_shadowing_witness :
  WowLayer.categorizeIngredient "Garlic Powder" = WowLayer.Produce.
Proof.
  apply (proj1 (categorizeIngredient_shadowing "Garlic Powder")). reflexivity.
Defined.

Lemma suggestions_shape_witness :
  CouncilUSDA.generateNutritionSuggestions 10 (-5) = [].
Proof.
  apply (proj2 (proj1 (suggestions_shape 10 (-5)))). split; vm_compute; discriminate.
Defined.

Lemma normalizeIngredientName_normal_form_witness :
  WowLayer.normalName (list_ascii_of_string "olive oil").
Proof.
  apply (proj1 (proj1 (proj2 (normalizeIngredientName_normal_form "olive oil")))).
  vm_compute. reflexivity.
Defined.

Lemma generateSmartGroceryList_null_witness :
  WowLayer.generateSmartGroceryList (fun _ => Some (Validator.mkRow "Stew" None None None))
    ExtraSamples.oneMealPlan = None.
Proof.
  apply (proj2 (generateSmartGroceryList_null _ _)). left. reflexivity.
Defined.
